(** * notifico: the GitHub web-hook service (notifico/services/hooks/github.py)

    A shallow embedding of the hook that turns GitHub web-hook payloads into
    IRC lines, and the properties of it that the specification relies on.

    Conventions of the embedding.
    - Text is [string]: a Python [str] in its UTF-8 encoding.  Comparing
      two texts, splitting at an ASCII character and matching the module's
      two regular expressions are exact on it.  [lower], [strip] and
      [capitalize] follow the Unicode tables and are fields of [Externals];
      the sample worlds use their ASCII versions.  Lengths and slices of a
      text count 8-bit characters, which is exact for ASCII text such as
      the hexadecimal hashes the module slices.
    - A decoded JSON document is a [jvalue]; an object keeps its members
      in order and a lookup returns the first member with the key.  Numbers
      are integers (GitHub sends no fractional numbers in these payloads).
    - A Python exception is a [Raise] result.  A generator is modelled by the
      trace of what consuming it to the end does: the lines it yields and the
      outside calls it makes, in order, and the exception that ends it, if
      any.
    - What the module imports from elsewhere (the colour table and [message]
      of [HookService], [repr] of containers, the HTTP POST done by
      [requests], sentry, the JSON parser, the Unicode-aware methods of
      [str]) is a field of [Externals]. *)

From Stdlib Require Import ZArith Ascii String List Bool Lia.
From stdpp Require Import base tactics option list strings pretty.

Local Open Scope Z_scope.
Local Open Scope string_scope.
Local Open Scope list_scope.
#[local] Set Warnings "-register-all".


(** ** Python strings *)

Module PyStr.

Definition newline : ascii := ascii_of_nat 10.

Definition lower_ascii (c : ascii) : ascii :=
  let n := nat_of_ascii c in
  if (65 <=? n)%nat && (n <=? 90)%nat then ascii_of_nat (n + 32) else c.

Definition upper_ascii (c : ascii) : ascii :=
  let n := nat_of_ascii c in
  if (97 <=? n)%nat && (n <=? 122)%nat then ascii_of_nat (n - 32) else c.

(** [s.lower()] on ASCII text.  Python's [lower], [strip] and
    [capitalize] follow the Unicode tables: the module's functions take them
    from [Externals]; the three functions below are what they do on ASCII
    text, for the sample worlds. *)
Fixpoint ascii_lower (s : string) : string :=
  match s with
  | EmptyString => EmptyString
  | String c s' => String (lower_ascii c) (ascii_lower s')
  end.

(** [s.capitalize()] on ASCII text. *)
Definition ascii_capitalize (s : string) : string :=
  match s with
  | EmptyString => EmptyString
  | String c s' => String (upper_ascii c) (ascii_lower s')
  end.

(** Lowercasing leaves no text empty. *)
Definition ascii_lower_nonempty (s : string) : ascii_lower s = "" -> s = "" :=
  match s with
  | EmptyString => fun _ => eq_refl
  | String c s' =>
      fun H =>
        match H in (_ = t)
              return (match t with
                      | EmptyString => String c s' = ""
                      | String _ _ => True
                      end)
        with
        | eq_refl => I
        end
  end.

(** The ASCII characters [strip()] removes: tab, line feed, vertical tab, form
    feed, carriage return, the four separators 28..31 and the space. *)
Definition is_space (c : ascii) : bool :=
  let n := nat_of_ascii c in
  ((9 <=? n)%nat && (n <=? 13)%nat) || ((28 <=? n)%nat && (n <=? 32)%nat).

Fixpoint ascii_lstrip (s : string) : string :=
  match s with
  | EmptyString => EmptyString
  | String c s' => if is_space c then ascii_lstrip s' else s
  end.

(** [ascii_rstrip] keeps a character when it is not a space or when
    something is kept after it. *)
Fixpoint ascii_rstrip (s : string) : string :=
  match s with
  | EmptyString => EmptyString
  | String c s' =>
      match ascii_rstrip s' with
      | EmptyString => if is_space c then EmptyString else String c EmptyString
      | r => String c r
      end
  end.

(** [s.strip()] on ASCII text. *)
Definition ascii_strip (s : string) : string := ascii_rstrip (ascii_lstrip s).

(** [s.split(sep)] for a separator of one character: never empty. *)
Fixpoint split (sep : ascii) (s : string) : list string :=
  match s with
  | EmptyString => [EmptyString]
  | String c s' =>
      if Ascii.eqb c sep then EmptyString :: split sep s'
      else match split sep s' with
           | w :: ws => String c w :: ws
           | [] => [String c EmptyString]
           end
  end.

(** [s[len(p):]] when [s] starts with [p]. *)
Fixpoint strip_prefix (p s : string) : option string :=
  match p, s with
  | EmptyString, _ => Some s
  | String a p', String b s' => if Ascii.eqb a b then strip_prefix p' s' else None
  | String _ _, EmptyString => None
  end.

Fixpoint contains_char (c : ascii) (s : string) : bool :=
  match s with
  | EmptyString => false
  | String d s' => Ascii.eqb c d || contains_char c s'
  end.

(** [s[:n]] *)
Definition prefix (n : nat) (s : string) : string := String.substring 0 n s.

(** The characters of a string, as Python iterates over it. *)
Fixpoint chars (s : string) : list string :=
  match s with
  | EmptyString => []
  | String c s' => String c EmptyString :: chars s'
  end.

(** [sep.join(l)] *)
Definition join (sep : string) (l : list string) : string := String.concat sep l.

(** [str(n)] of an integer. *)
Definition of_Z (n : Z) : string := pretty n.

End PyStr.

(** ** Regular expressions of the module *)

Module Re.

Inductive ref_kind := heads | tags.

(** The second group of [ref_r], a greedy run of any characters followed
    by the end-of-subject anchor, against the rest of the subject: the dot
    matches no line feed and the anchor matches at the end or before a
    line feed that ends the subject.  Returns group 2. *)
Fixpoint dot_star_eol (s : string) : option string :=
  match s with
  | EmptyString => Some EmptyString
  | String c s' =>
      if Ascii.eqb c PyStr.newline then
        match s' with
        | EmptyString => Some EmptyString
        | _ => None
        end
      else String c <$> dot_star_eol s'
  end.

(** [ref_r.match(ref)] for the pattern of [simplify_payload] (the prefix
    refs/, then heads or tags, then a slash and the name), giving
    [match.group(1, 2)]. *)
Definition ref_r_match (ref : string) : option (ref_kind * string) :=
  match PyStr.strip_prefix "refs/heads/" ref with
  | Some rest => pair heads <$> dot_star_eol rest
  | None =>
      match PyStr.strip_prefix "refs/tags/" ref with
      | Some rest => pair tags <$> dot_star_eol rest
      | None => None
      end
  end.

(** The 8-bit characters that continue a character of a UTF-8 text. *)
Definition is_continuation (c : ascii) : bool :=
  let n := nat_of_ascii c in (128 <=? n)%nat && (n <? 192)%nat.

Fixpoint drop_continuation (s : string) : string :=
  match s with
  | EmptyString => EmptyString
  | String c s' => if is_continuation c then drop_continuation s' else s
  end.

(** [re.search(r'^https?://git.io', url)]: the dot is any one character
    but a line feed, that is, its first 8-bit character and the
    continuation characters after it. *)
Definition git_io_tail (s : string) : bool :=
  match PyStr.strip_prefix "://git" s with
  | Some (String c rest) =>
      negb (Ascii.eqb c PyStr.newline)
      && bool_decide (is_Some (PyStr.strip_prefix "io" (drop_continuation rest)))
  | _ => false
  end.

Definition search_git_io (url : string) : bool :=
  match PyStr.strip_prefix "http" url with
  | Some rest =>
      match rest with
      | String "s" rest' => git_io_tail rest' || git_io_tail rest
      | _ => git_io_tail rest
      end
  | None => false
  end.

End Re.

(** ** JSON values and the Python operations on them *)

Inductive jvalue :=
| JNull
| JBool (b : bool)
| JNum (n : Z)
| JStr (s : string)
| JArr (items : list jvalue)
| JObj (members : list (string * jvalue)).

Inductive exn :=
| KeyError | TypeError | AttributeError | IndexError | ValueError | BadRequest.

Inductive result (A : Type) :=
| Ok (a : A)
| Raise (e : exn).
Arguments Ok {A} a.
Arguments Raise {A} e.

#[export] Instance result_ret : MRet result := @Ok.
#[export] Instance result_bind : MBind result := fun A B f m =>
  match m with
  | Ok a => f a
  | Raise e => Raise e
  end.
#[export] Instance result_fmap : FMap result := fun A B f m =>
  match m with
  | Ok a => Ok (f a)
  | Raise e => Raise e
  end.

Module Py.

Fixpoint assoc {A} (k : string) (l : list (string * A)) : option A :=
  match l with
  | [] => None
  | (k', v) :: l' => if String.eqb k k' then Some v else assoc k l'
  end.

(** The keys of a dict, each once, in order of first appearance. *)
Fixpoint keys {A} (l : list (string * A)) : list string :=
  match l with
  | [] => []
  | (k, _) :: l' => k :: filter (fun k' => k' ≠ k) (keys l')
  end.

(** [bool(v)] *)
Definition truthy (v : jvalue) : bool :=
  match v with
  | JNull => false
  | JBool b => b
  | JNum n => negb (Z.eqb n 0)
  | JStr s => negb (String.eqb s "")
  | JArr l => match l with [] => false | _ => true end
  | JObj m => match m with [] => false | _ => true end
  end.

(** [v is None] *)
Definition is_none (v : jvalue) : bool :=
  match v with JNull => true | _ => false end.

(** [v[k]] for a string key. *)
Definition getitem (v : jvalue) (k : string) : result jvalue :=
  match v with
  | JObj m => match assoc k m with Some x => Ok x | None => Raise KeyError end
  | _ => Raise TypeError
  end.

(** [v.get(k, default)] *)
Definition get (v : jvalue) (k : string) (dflt : jvalue) : result jvalue :=
  match v with
  | JObj m => Ok (default dflt (assoc k m))
  | _ => Raise AttributeError
  end.

(** [len(v)] *)
Definition len (v : jvalue) : result Z :=
  match v with
  | JStr s => Ok (Z.of_nat (String.length s))
  | JArr l => Ok (Z.of_nat (length l))
  | JObj m => Ok (Z.of_nat (length (keys m)))
  | _ => Raise TypeError
  end.

(** The items [for x in v] goes through. *)
Definition iter (v : jvalue) : result (list jvalue) :=
  match v with
  | JStr s => Ok (JStr <$> PyStr.chars s)
  | JArr l => Ok l
  | JObj m => Ok (JStr <$> keys m)
  | _ => Raise TypeError
  end.

(** [v[:n]] *)
Definition slice_to (n : nat) (v : jvalue) : result jvalue :=
  match v with
  | JStr s => Ok (JStr (PyStr.prefix n s))
  | JArr l => Ok (JArr (take n l))
  | _ => Raise TypeError
  end.

(** [v[0]] *)
Definition first (v : jvalue) : result jvalue :=
  match v with
  | JStr (String c _) => Ok (JStr (String c EmptyString))
  | JArr (x :: _) => Ok x
  | JStr EmptyString | JArr [] => Raise IndexError
  | JObj _ => Raise KeyError
  | _ => Raise TypeError
  end.

(** The receiver of a string method ([v.lower()], [v.split(..)]): only a
    string has it. *)
Definition str_self (v : jvalue) : result string :=
  match v with
  | JStr s => Ok s
  | _ => Raise AttributeError
  end.

(** An item handed to [' '.join] must be a string. *)
Definition join_item (v : jvalue) : result string :=
  match v with
  | JStr s => Ok s
  | _ => Raise TypeError
  end.

(** An argument of [re.match] or [re.search] must be a string. *)
Definition re_subject (v : jvalue) : result string :=
  match v with
  | JStr s => Ok s
  | _ => Raise TypeError
  end.

(** [v == s] for a string literal [s]. *)
Definition eq_str (v : jvalue) (s : string) : bool :=
  match v with
  | JStr s' => String.eqb s' s
  | _ => false
  end.

(** Truth of an optional string ([None] and the empty string are false). *)
Definition truthy_opt (o : option string) : bool :=
  match o with
  | Some s => negb (String.eqb s "")
  | None => false
  end.

End Py.

(** ** What the module uses from outside *)

(** The outcome of [requests.post('https://git.io', ...)]. *)
Inductive post_outcome :=
| ConnectionError
| Timeout
| OtherException
| Response (status_code : Z) (headers : list (string * string)).

Record Externals := {
  (** [HookService.colors] *)
  RESET : string;
  BLUE : string;
  GREEN : string;
  ORANGE : string;
  PINK : string;
  RED : string;
  (** [HookService.message(text, strip)] *)
  message : string -> bool -> string;
  (** [repr] of a list or a dict, used when one is formatted. *)
  py_repr : jvalue -> string;
  (** What git.io answers to a POST of the URL. *)
  post : string -> post_outcome;
  (** Whether [sentry.client] is set. *)
  sentry_client : bool;
  (** [json.loads]; [None] when the text is not JSON. *)
  json_loads : string -> option jvalue;
  (** Python's [str.lower], [str.strip] and [str.capitalize], which follow
      the Unicode tables; lowercasing leaves no text empty. *)
  py_lower : string -> string;
  py_strip : string -> string;
  py_capitalize : string -> string;
  py_lower_nonempty : forall s, py_lower s = "" -> s = "";
}.

(** ** Generators and outside calls *)

Inductive event :=
| Yield (line : string)
| Post (url : string)
| Capture.

Record Gen (A : Type) := MkGen { trace : list event; outcome : result A }.
Arguments MkGen {A} trace outcome.
Arguments trace {A} g.
Arguments outcome {A} g.

#[export] Instance gen_ret : MRet Gen := fun A a => MkGen [] (Ok a).
#[export] Instance gen_bind : MBind Gen := fun A B f m =>
  match outcome m with
  | Ok a => MkGen (trace m ++ trace (f a)) (outcome (f a))
  | Raise e => MkGen (trace m) (Raise e)
  end.

Definition emit (e : event) : Gen unit := MkGen [e] (Ok tt).
Definition yield (line : string) : Gen unit := emit (Yield line).
Definition lift {A} (r : result A) : Gen A := MkGen [] r.

Definition line_of (e : event) : option string :=
  match e with Yield l => Some l | _ => None end.

(** The lines a consumer of the generator receives. *)
Definition yielded {A} (g : Gen A) : list string := omap line_of (trace g).

(** The outside calls made while it runs. *)
Definition posts {A} (g : Gen A) : list string :=
  omap (fun e => match e with Post u => Some u | _ => None end) (trace g).

(** ** Hook configuration ([GithubConfigForm]; an absent key is [None]) *)

Record Config := {
  branches : option string;
  events : option (list string);
  use_colors : option bool;
  show_branch : option bool;
  show_tags : option bool;
  prefer_username : option bool;
  full_project_name : option bool;
  title_only : option bool;
  distinct_only : option bool;
  line_limit : option Z;
}.

(** The empty dict [{}]. *)
Definition empty_config : Config :=
  {| branches := None; events := None; use_colors := None; show_branch := None;
     show_tags := None; prefer_username := None; full_project_name := None;
     title_only := None; distinct_only := None; line_limit := None |}.

Record Hook := { config : option Config }.

(** [hook.config or {}] *)
Definition config_or_empty (hook : Hook) : Config := default empty_config (config hook).

Record Request := {
  content_type : option string;     (* headers.get('Content-Type') *)
  x_github_event : option string;   (* headers.get('X-GitHub-Event') *)
  data : string;                    (* the body *)
  form_payload : option string;     (* form['payload'], when the field exists *)
}.

(** The result of [simplify_payload]. *)
Record Files := {
  files_all : list jvalue;
  files_added : list jvalue;
  files_removed : list jvalue;
  files_modified : list jvalue;
}.

Record Simplified := {
  branch : option string;
  tag : option string;
  pusher : jvalue;
  files : Files;
  original : jvalue;
}.

(** ** The module's functions *)

(** The loop of [simplify_payload] over [(ref, base_ref)]: the first match
    ends it; [re.match] refuses a subject that is not a string. *)
Fixpoint first_ref_match (refs : list jvalue) : result (option (Re.ref_kind * string)) :=
  match refs with
  | [] => Ok None
  | ref :: rest =>
      s ← Py.re_subject ref;
      match Re.ref_r_match s with
      | Some m => Ok (Some m)
      | None => first_ref_match rest
      end
  end.

(** The loop of [simplify_payload] over the commits: file movement. *)
Fixpoint summarize_files (commits : list jvalue) (f : Files) : result Files :=
  match commits with
  | [] => Ok f
  | commit :: rest =>
      a ← Py.getitem commit "added" ≫= Py.iter;
      r ← Py.getitem commit "removed" ≫= Py.iter;
      m ← Py.getitem commit "modified" ≫= Py.iter;
      summarize_files rest
        {| files_all := files_all f ++ a ++ r ++ m;
           files_added := files_added f ++ a;
           files_removed := files_removed f ++ r;
           files_modified := files_modified f ++ m |}
  end.

Definition simplify_payload (payload : jvalue) : result Simplified :=
  ref ← Py.get payload "ref" (JStr "");
  base_ref ← Py.get payload "base_ref" (JStr "");
  found ← first_ref_match [ref; base_ref];
  let branch_ := match found with Some (Re.heads, name) => Some name | _ => None end in
  let tag_ := match found with Some (Re.tags, name) => Some name | _ => None end in
  pusher_ ←
    match payload with
    | JObj m =>
        match Py.assoc "pusher" m with
        | Some p =>
            name ← Py.get p "name" JNull;
            (* Github returns the string 'none' when a deploy key pushes *)
            Ok (if Py.eq_str name "none" then JStr "A deploy key" else name)
        | None => Ok JNull
        end
    | _ => Raise AttributeError
    end;
  commits ← Py.get payload "commits" (JArr []) ≫= Py.iter;
  files_ ← summarize_files commits
             {| files_all := []; files_added := []; files_removed := []; files_modified := [] |};
  Ok {| branch := branch_; tag := tag_; pusher := pusher_; files := files_;
        original := payload |}.

Section Github.

Variable X : Externals.

(** [str(v)], as [str.format] inserts a value. *)
Definition str (v : jvalue) : string :=
  match v with
  | JNull => "None"
  | JBool true => "True"
  | JBool false => "False"
  | JNum n => PyStr.of_Z n
  | JStr s => s
  | JArr _ | JObj _ => py_repr X v
  end.

(** [str] of the branch or tag of a simplified payload. *)
Definition str_opt (o : option string) : string := default "None" o.

(** The tag that opens every line: the name between brackets. *)
Definition name_tag (name : jvalue) : string :=
  RESET X +:+ "[" +:+ BLUE X +:+ str name +:+ RESET X +:+ "]".

Definition is_event_allowed (config : option Config) (category : string)
    (event : jvalue) : bool :=
  match config with
  | None => true
  | Some c =>
      match events c with
      | None | Some [] =>
          (* not whitelisting events, show everything *)
          true
      | Some evs =>
          (* build a name like pr_opened or issue_assigned *)
          let event_name :=
            if Py.truthy event then category +:+ "_" +:+ str event else category in
          bool_decide (event_name ∈ evs)
      end
  end.

(** What a call of a (possibly decorated) handler gives: an exception, or
    [None], or a generator. *)
Definition handler_result := result (option (Gen unit)).

Definition action_filter (category : string) (action_key : option string)
    (f : Hook -> jvalue -> Gen unit) (hook : Hook) (json : jvalue) : handler_result :=
  event ← match action_key with
          | Some k => Py.getitem json k
          | None => Ok JNull
          end;
  if is_event_allowed (config hook) category event
  then Ok (Some (f hook json))
  else Ok None.

(** The values of the headers of a response that bear the name; the names
    compare without case. *)
Fixpoint header_values (name : string) (headers : list (string * string))
    : list string :=
  match headers with
  | [] => []
  | (k, v) :: rest =>
      if String.eqb (py_lower X k) (py_lower X name)
      then v :: header_values name rest
      else header_values name rest
  end.

(** [r.headers[name]]: [requests] keeps one entry for a name, with the
    values of a repeated header joined by a comma and a space; no entry is a
    [KeyError]. *)
Definition header (name : string) (headers : list (string * string)) : result string :=
  match header_values name headers with
  | [] => Raise KeyError
  | values => Ok (PyStr.join ", " values)
  end.

Definition shorten (url : jvalue) : Gen string :=
  u ← lift (Py.re_subject url);
  (* Make sure the URL hasn't already been shortened *)
  if Re.search_git_io u then mret u
  else
    emit (Post u);;
    match post X u with
    | ConnectionError | Timeout => mret u
    | OtherException =>
        (if sentry_client X then emit Capture else mret tt);;
        mret u
    | Response status_code headers =>
        if negb (status_code =? 201)%Z then mret u
        else lift (header "Location" headers)
    end.

(** [v[k1][k2]...] *)
Fixpoint path (v : jvalue) (ks : list string) : result jvalue :=
  match ks with
  | [] => Ok v
  | k :: ks' => Py.getitem v k ≫= fun v' => path v' ks'
  end.

(** Create and return a one-line summary of the push in [j]. *)
Definition _create_push_summary (project_name : jvalue) (j : Simplified)
    (config : Config) : Gen string :=
  let original := original j in
  let show_branch := default true (show_branch config) in
  (* Build the push summary. *)
  let line := [name_tag project_name] in
  (* The user doing the push, if available. *)
  let line :=
    if Py.truthy (pusher j)
    then line ++ [ORANGE X +:+ str (pusher j) +:+ RESET X +:+ " pushed"]
    else line in
  (* The number of commits included in this push. *)
  count ← lift (Py.getitem original "commits" ≫= Py.len);
  let line :=
    line ++ [GREEN X +:+ PyStr.of_Z count +:+ RESET X +:+ " "
             +:+ (if (count =? 1)%Z then "commit" else "commits")] in
  let line :=
    if show_branch && Py.truthy_opt (branch j)
    then line ++ ["to " +:+ GREEN X +:+ str_opt (branch j) +:+ RESET X]
    else line in
  (* File movement summary. *)
  let line :=
    line ++ ["[+" +:+ PyStr.of_Z (Z.of_nat (length (files_added (files j))))
             +:+ "/-" +:+ PyStr.of_Z (Z.of_nat (length (files_removed (files j))))
             +:+ "/±" +:+ PyStr.of_Z (Z.of_nat (length (files_modified (files j))))
             +:+ "]"] in
  (* The shortened URL linking to the compare page. *)
  compare_link ← lift (Py.getitem original "compare") ≫= shorten;
  mret (PyStr.join " " (line ++ [PINK X +:+ compare_link +:+ RESET X])).

(** The attribution of a commit line ("Show the committer"). *)
Definition attribution (prefer_username : bool) (author committer : jvalue)
    : result jvalue :=
  attribute_to ←
    (if prefer_username then
       a ← Py.get author "username" JNull;
       if Py.is_none a then Py.get author "username" JNull else Ok a
     else Ok JNull);
  if Py.is_none attribute_to then
    a ← Py.get author "name" JNull;
    if Py.is_none a then Py.get committer "name" JNull else Ok a
  else Ok attribute_to.

(** One turn of the loop of [_create_commit_summary]: [None] when the
    commit is skipped, else the line that is yielded. *)
Definition commit_line (project_name : jvalue) (config : Config)
    (commit : jvalue) : result (option string) :=
  let prefer_username := default true (prefer_username config) in
  let title_only := default false (title_only config) in
  seen ←
    (if default true (distinct_only config) then
       d ← Py.getitem commit "distinct";
       Ok (negb (Py.truthy d))
     else Ok false);
  if (seen : bool) then
    (* This commit has been seen in the repo before, skip over it *)
    Ok None
  else
    committer ← Py.get commit "committer" (JObj []);
    author ← Py.get commit "author" (JObj []);
    let line := [name_tag project_name] in
    attribute_to ← attribution prefer_username author committer;
    let line :=
      if Py.truthy attribute_to
      then line ++ [ORANGE X +:+ str attribute_to +:+ RESET X]
      else line in
    sha ← Py.getitem commit "id" ≫= Py.slice_to 7;
    let line := line ++ [GREEN X +:+ str sha +:+ RESET X; "-"] in
    message ← Py.getitem commit "message";
    text ←
      (if title_only then
         m ← Py.str_self message;
         Ok (hd m (PyStr.split PyStr.newline m))
       else Py.join_item message);
    Ok (Some (PyStr.join " " (line ++ [text]))).

(** Create and yield a one-line summary of each commit in [j].  The
    generator is the list of its turns, one per commit, run in order as
    the consumer asks for lines. *)
Definition _create_commit_summary (project_name : jvalue) (j : Simplified)
    (config : Config) : result (list (result (option string))) :=
  commits ← Py.getitem (original j) "commits" ≫= Py.iter;
  Ok (map (commit_line project_name config) commits).

Definition _create_push_final_summary (project_name : jvalue) (j : Simplified)
    (config : Config) : result string :=
  let line_limit := default 3%Z (line_limit config) in
  count ← Py.get (original j) "commits" (JArr []) ≫= Py.len;
  Ok (PyStr.join " "
        [name_tag project_name;
         "... and " +:+ PyStr.of_Z (count - line_limit) +:+ " more commits."]).

(** [original['repository']['name']], or owner/name when the full name is
    asked for. *)
Definition project_name_of (original : jvalue) (full_project_name : bool)
    : result jvalue :=
  project_name ← path original ["repository"; "name"];
  if full_project_name then
    username ← path original ["repository"; "owner"; "name"];
    Ok (JStr (str username +:+ "/" +:+ str project_name))
  else Ok project_name.

(** Create and return a one-line summary of things not involving commits
    in [j]. *)
Definition _create_non_commit_summary (j : Simplified) (config : Config)
    : Gen string :=
  let original := original j in
  let full_project_name := default false (full_project_name config) in
  (* The name of the repository. *)
  project_name ← lift (project_name_of original full_project_name);
  let line := [name_tag project_name] in
  (* The user doing the push, if available. *)
  let has_pusher := Py.truthy (pusher j) in
  let line :=
    if has_pusher then line ++ [ORANGE X +:+ str (pusher j) +:+ RESET X] else line in
  (* [None] below stands for the early [return ''] *)
  described ←
    (if Py.truthy_opt (tag j) then
       head_commit ← lift (Py.get original "head_commit" JNull);
       if negb (Py.truthy head_commit) then
         if negb (is_event_allowed (Some config) "delete" (JStr "tag")) then mret None
         else
           mret (Some (line ++ [if has_pusher then "deleted" else "Deleted"; "tag";
                                (* The tag itself. *)
                                GREEN X +:+ str_opt (tag j) +:+ RESET X]))
       else
         if negb (is_event_allowed (Some config) "create" (JStr "tag")) then mret None
         else
           (* The sha1 hash of the head (tagged) commit. *)
           sha ← lift (path original ["head_commit"; "id"] ≫= Py.slice_to 7);
           mret (Some (line ++ [if has_pusher then "tagged" else "Tagged";
                                GREEN X +:+ str sha +:+ RESET X +:+ " as";
                                GREEN X +:+ str_opt (tag j) +:+ RESET X]))
     else if Py.truthy_opt (branch j) then
       deleted ← lift (Py.getitem original "deleted");
       if Py.truthy deleted then
         if negb (is_event_allowed (Some config) "delete" (JStr "branch")) then mret None
         else
           mret (Some (line ++ [if has_pusher then "deleted branch" else "Deleted branch";
                                GREEN X +:+ str_opt (branch j) +:+ RESET X]))
       else
         if negb (is_event_allowed (Some config) "create" (JStr "branch")) then mret None
         else
           mret (Some (line ++ [if has_pusher then "created branch" else "Created branch";
                                GREEN X +:+ str_opt (branch j) +:+ RESET X]))
     else mret (Some line));
  match described with
  | None => mret ""
  | Some line =>
      head_commit ← lift (Py.getitem original "head_commit");
      if Py.truthy head_commit then
        (* The shortened URL linking to the head commit. *)
        link ← lift (Py.getitem head_commit "url") ≫= shorten;
        mret (PyStr.join " " (line ++ [PINK X +:+ link +:+ RESET X]))
      else mret (PyStr.join " " line)
  end.

(** The branch names of the configuration:
    [[b.strip().lower() for b in branches.split(',')]]. *)
Definition branch_names (branches : string) : list string :=
  map (fun b => py_lower X (py_strip X b)) (PyStr.split "," branches).

(** The branch filter of [_handle_push]: true when the handler returns at
    once because this is not a branch the user wants. *)
Definition branch_unwanted (config : Config) (j : Simplified) : bool :=
  match branches config with
  | Some bs =>
      negb (String.eqb bs "")
      && Py.truthy_opt (branch j)
      && negb (bool_decide (py_lower X (str_opt (branch j)) ∈ branch_names bs))
  | None => false
  end.

(** The loop of [_handle_push] over [enumerate(line_iterator)]; [i] counts
    the lines received so far. *)
Fixpoint emit_commit_lines (project_name : jvalue) (j : Simplified)
    (config : Config) (strip : bool) (line_limit num_commits : Z) (i : Z)
    (line_iterator : list (result (option string))) : Gen unit :=
  match line_iterator with
  | [] => mret tt
  | Raise e :: _ => lift (Raise e)
  | Ok None :: rest =>
      emit_commit_lines project_name j config strip line_limit num_commits i rest
  | Ok (Some formatted_commit) :: rest =>
      if (i >? line_limit)%Z
         || ((i =? line_limit)%Z && negb (num_commits =? i + 1)%Z)
      then
        final ← lift (_create_push_final_summary project_name j config);
        yield (message X final strip)
      else
        yield (message X formatted_commit strip);;
        emit_commit_lines project_name j config strip line_limit num_commits
          (i + 1) rest
  end.

Definition _handle_push (hook : Hook) (json : jvalue) : Gen unit :=
  j ← lift (simplify_payload json);
  let original := original j in
  (* Config may not exist for pre-migrate hooks. *)
  let config := config_or_empty hook in
  (* Should we get rid of mIRC colors before sending? *)
  let strip := negb (default true (use_colors config)) in
  (* Display tag activity? *)
  let show_tags := default true (show_tags config) in
  (* Limit the number of lines to display before the summary. *)
  let line_limit := default 3%Z (line_limit config) in
  let full_project_name := default false (full_project_name config) in
  if branch_unwanted config j then
    (* This isn't a branch the user wants. *)
    mret tt
  else
    commits ← lift (Py.getitem original "commits");
    if negb (Py.truthy commits) then
      (if show_tags && Py.truthy_opt (tag j) then
         summary ← _create_non_commit_summary j config;
         yield (message X summary strip)
       else mret tt);;
      (if Py.truthy_opt (branch j) then
         summary ← _create_non_commit_summary j config;
         yield (message X summary strip)
       else mret tt)
      (* No commits, no tags, no new branch. Nothing to do *)
    else
      project_name ← lift (project_name_of original full_project_name);
      if negb (is_event_allowed (Some config) "push" JNull) then mret tt
      else
        (* A short summarization of the commits in the push. *)
        summary ← _create_push_summary project_name j config;
        yield (message X summary strip);;
        (* A one-line summary for each commit in the push. *)
        num_commits ← lift (Py.get original "commits" (JArr []) ≫= Py.len);
        line_iterator ← lift (_create_commit_summary project_name j config);
        emit_commit_lines project_name j config strip line_limit num_commits 0
          line_iterator.

(** *** The other handlers

    Each decorated handler is [action_filter category key] of its body,
    named with the suffix [_f] after the decorator's argument. *)

Definition orange (who : jvalue) : string := ORANGE X +:+ str who +:+ RESET X.
Definition green (what : jvalue) : string := GREEN X +:+ str what +:+ RESET X.
Definition pink (url : string) : string := PINK X +:+ url +:+ RESET X.

Definition _handle_ping (hook : Hook) (json : jvalue) : Gen unit :=
  zen ← lift (Py.getitem json "zen");
  yield (RESET X +:+ "[" +:+ BLUE X +:+ "GitHub" +:+ RESET X +:+ "] " +:+ str zen).

Definition _handle_issues_f (hook : Hook) (json : jvalue) : Gen unit :=
  name ← lift (path json ["repository"; "name"]);
  who ← lift (path json ["sender"; "login"]);
  action ← lift (Py.getitem json "action");
  num ← lift (path json ["issue"; "number"]);
  title ← lift (path json ["issue"; "title"]);
  url ← lift (path json ["issue"; "html_url"]) ≫= shorten;
  yield (name_tag name +:+ " " +:+ orange who +:+ " " +:+ str action
         +:+ " issue " +:+ GREEN X +:+ "#" +:+ str num +:+ RESET X +:+ ": "
         +:+ str title +:+ " - " +:+ pink url).
Definition _handle_issues := action_filter "issue" (Some "action") _handle_issues_f.

(** [action_dict.get(json['action'], 'commented')]: a list or a dict
    cannot be a key, and looking one up is a [TypeError]. *)
Definition comment_action (action : jvalue) : result string :=
  match action with
  | JArr _ | JObj _ => Raise TypeError
  | _ =>
      Ok (if Py.eq_str action "edited" then "edited a comment"
          else if Py.eq_str action "deleted" then "deleted a comment"
          else "commented")
  end.

Definition _handle_issue_comment_f (hook : Hook) (json : jvalue) : Gen unit :=
  action ← lift (Py.getitem json "action" ≫= comment_action);
  name ← lift (path json ["repository"; "name"]);
  who ← lift (path json ["sender"; "login"]);
  num ← lift (path json ["issue"; "number"]);
  title ← lift (path json ["issue"; "title"]);
  url ← lift (path json ["comment"; "html_url"]) ≫= shorten;
  yield (name_tag name +:+ " " +:+ orange who +:+ " " +:+ action
         +:+ " on issue " +:+ GREEN X +:+ "#" +:+ str num +:+ RESET X +:+ ": "
         +:+ str title +:+ " - " +:+ pink url).
Definition _handle_issue_comment :=
  action_filter "issue_comment" (Some "action") _handle_issue_comment_f.

Definition _handle_commit_comment_f (hook : Hook) (json : jvalue) : Gen unit :=
  action ← lift (Py.getitem json "action" ≫= comment_action);
  name ← lift (path json ["repository"; "name"]);
  who ← lift (path json ["comment"; "user"; "login"]);
  commit ← lift (path json ["comment"; "commit_id"]);
  url ← lift (path json ["comment"; "html_url"]) ≫= shorten;
  yield (name_tag name +:+ " " +:+ orange who +:+ " " +:+ action
         +:+ " on commit " +:+ green commit +:+ " - " +:+ pink url).
Definition _handle_commit_comment :=
  action_filter "commit_comment" (Some "action") _handle_commit_comment_f.

Definition _handle_create_f (hook : Hook) (json : jvalue) : Gen unit :=
  (* null/None if repository was created *)
  has_ref ← lift (Py.truthy <$> Py.getitem json "ref");
  (* URL points to repo, no other url available *)
  name ← lift (path json ["repository"; "name"]);
  who ← lift (path json ["sender"; "login"]);
  ref_type ← lift (Py.getitem json "ref_type");
  ref ← lift (Py.getitem json "ref");
  url ← lift (path json ["repository"; "html_url"]) ≫= shorten;
  yield (PyStr.join " "
           [name_tag name +:+ " " +:+ orange who +:+ " created " +:+ str ref_type;
            if (has_ref : bool) then green ref else "";
            "- " +:+ pink url]).
Definition _handle_create := action_filter "create" (Some "ref_type") _handle_create_f.

Definition _handle_delete_f (hook : Hook) (json : jvalue) : Gen unit :=
  (* URL points to repo, no other url available *)
  name ← lift (path json ["repository"; "name"]);
  who ← lift (path json ["sender"; "login"]);
  ref_type ← lift (Py.getitem json "ref_type");
  ref ← lift (Py.getitem json "ref");
  url ← lift (path json ["repository"; "html_url"]) ≫= shorten;
  yield (name_tag name +:+ " " +:+ orange who +:+ " deleted " +:+ str ref_type
         +:+ " " +:+ green ref +:+ " - " +:+ pink url).
Definition _handle_delete := action_filter "delete" (Some "ref_type") _handle_delete_f.

Definition _handle_pull_request_f (hook : Hook) (json : jvalue) : Gen unit :=
  name ← lift (path json ["repository"; "name"]);
  who ← lift (path json ["sender"; "login"]);
  action ← lift (Py.getitem json "action");
  num ← lift (Py.getitem json "number");
  title ← lift (path json ["pull_request"; "title"]);
  url ← lift (path json ["pull_request"; "html_url"]) ≫= shorten;
  yield (name_tag name +:+ " " +:+ orange who +:+ " " +:+ str action
         +:+ " pull request " +:+ GREEN X +:+ "#" +:+ str num +:+ RESET X +:+ ": "
         +:+ str title +:+ " - " +:+ pink url).
Definition _handle_pull_request :=
  action_filter "pr" (Some "action") _handle_pull_request_f.

Definition _handle_pull_request_review_comment_f (hook : Hook) (json : jvalue)
    : Gen unit :=
  pull_request_url ← lift (path json ["comment"; "pull_request_url"] ≫= Py.str_self);
  let num := List.last (PyStr.split "/" pull_request_url) "" in
  name ← lift (path json ["repository"; "name"]);
  who ← lift (path json ["comment"; "user"; "login"]);
  url ← lift (path json ["comment"; "html_url"]) ≫= shorten;
  yield (name_tag name +:+ " " +:+ orange who +:+ " reviewed pull request "
         +:+ GREEN X +:+ "#" +:+ num +:+ RESET X +:+ " commit - " +:+ pink url).
Definition _handle_pull_request_review_comment :=
  action_filter "pr_review" (Some "action") _handle_pull_request_review_comment_f.

(** The loop of [_handle_gollum] over the pages. *)
Fixpoint gollum_pages (name : jvalue) (pages : list jvalue) : Gen unit :=
  match pages with
  | [] => mret tt
  | page :: rest =>
      pname ← lift (Py.getitem page "page_name");
      action ← lift (Py.getitem page "action");
      url ← lift (Py.getitem page "html_url") ≫= shorten;
      yield (name_tag name +:+ " Page " +:+ green pname +:+ " " +:+ str action
             +:+ " - " +:+ pink url);;
      gollum_pages name rest
  end.

Definition _handle_gollum_f (hook : Hook) (json : jvalue) : Gen unit :=
  name ← lift (path json ["repository"; "name"]);
  count ← lift (Py.getitem json "pages" ≫= Py.len);
  if (count >? 1)%Z then
    (* Multiple pages changed *)
    who ← lift (path json ["sender"; "login"]);
    yield (name_tag name +:+ " " +:+ orange who +:+ " updated the Wiki");;
    pages ← lift (Py.getitem json "pages" ≫= Py.iter);
    gollum_pages name pages
  else
    (* Only one page *)
    who ← lift (path json ["sender"; "login"]);
    page ← lift (Py.getitem json "pages" ≫= Py.first);
    pname ← lift (Py.getitem page "page_name");
    action ← lift (Py.getitem page "action");
    url ← lift (Py.getitem page "html_url") ≫= shorten;
    yield (name_tag name +:+ " " +:+ orange who +:+ " " +:+ str action
           +:+ " page " +:+ green pname +:+ " - " +:+ pink url).
Definition _handle_gollum := action_filter "gollum" (Some "action") _handle_gollum_f.

Definition _handle_watch_f (hook : Hook) (json : jvalue) : Gen unit :=
  name ← lift (path json ["repository"; "name"]);
  who ← lift (path json ["sender"; "login"]);
  url ← lift (path json ["sender"; "html_url"]) ≫= shorten;
  yield (name_tag name +:+ " " +:+ orange who +:+ " starred " +:+ green name
         +:+ " - " +:+ pink url).
Definition _handle_watch := action_filter "watch" (Some "action") _handle_watch_f.

Definition _handle_release_f (hook : Hook) (json : jvalue) : Gen unit :=
  name ← lift (path json ["repository"; "name"]);
  who ← lift (path json ["sender"; "login"]);
  action ← lift (Py.getitem json "action");
  tag_name ← lift (path json ["release"; "tag_name"]);
  title ← lift (path json ["release"; "name"]);
  url ← lift (path json ["release"; "html_url"]) ≫= shorten;
  yield (name_tag name +:+ " " +:+ orange who +:+ " " +:+ str action +:+ " "
         +:+ GREEN X +:+ str tag_name +:+ " | " +:+ str title +:+ RESET X
         +:+ " - " +:+ pink url).
Definition _handle_release := action_filter "release" (Some "action") _handle_release_f.

Definition _handle_fork_f (hook : Hook) (json : jvalue) : Gen unit :=
  (* URL points to repo, no other url available *)
  name ← lift (path json ["repository"; "name"]);
  who ← lift (path json ["forkee"; "owner"; "login"]);
  url ← lift (path json ["forkee"; "owner"; "html_url"]) ≫= shorten;
  yield (name_tag name +:+ " " +:+ orange who +:+ " forked the repository - "
         +:+ pink url).
Definition _handle_fork := action_filter "fork" None _handle_fork_f.

Definition _handle_member_f (hook : Hook) (json : jvalue) : Gen unit :=
  name ← lift (path json ["repository"; "name"]);
  who ← lift (path json ["sender"; "login"]);
  action ← lift (Py.getitem json "action");
  whom ← lift (path json ["member"; "login"]);
  url ← lift (path json ["member"; "html_url"]) ≫= shorten;
  yield (name_tag name +:+ " " +:+ orange who +:+ " " +:+ str action +:+ " user "
         +:+ green whom +:+ " - " +:+ pink url).
Definition _handle_member := action_filter "member" (Some "action") _handle_member_f.

Definition _handle_public_f (hook : Hook) (json : jvalue) : Gen unit :=
  name ← lift (path json ["repository"; "name"]);
  who ← lift (path json ["sender"; "login"]);
  yield (name_tag name +:+ " " +:+ orange who +:+ " made the repository public!").
Definition _handle_public := action_filter "public" None _handle_public_f.

Definition _handle_team_add_f (hook : Hook) (json : jvalue) : Gen unit :=
  name ← lift (path json ["repository"; "name"]);
  who ← lift (path json ["sender"; "login"]);
  tname ← lift (path json ["team"; "name"]);
  yield (name_tag name +:+ " " +:+ orange who +:+ " added the team " +:+ green tname
         +:+ " to the repository!").
Definition _handle_team_add := action_filter "team_add" None _handle_team_add_f.

Definition _handle_status_f (hook : Hook) (json : jvalue) : Gen unit :=
  state ← lift (Py.getitem json "state" ≫= Py.str_self);
  let status_color :=
    if negb (String.eqb (py_lower X state) "success") then RED X else GREEN X in
  name ← lift (path json ["repository"; "name"]);
  description ← lift (Py.getitem json "description");
  url ← lift (Py.getitem json "target_url");
  yield (name_tag name +:+ " " +:+ status_color +:+ py_capitalize X state
         +:+ RESET X +:+ ". " +:+ str description +:+ " - " +:+ PINK X +:+ str url
         +:+ RESET X).
Definition _handle_status := action_filter "status" (Some "state") _handle_status_f.

Definition _handle_deployment (hook : Hook) (json : jvalue) : Gen unit := yield "".

Definition _handle_deployment_status (hook : Hook) (json : jvalue) : Gen unit :=
  yield "".

(** Calling a generator function that has no decorator gives the
    generator. *)
Definition plain (f : Hook -> jvalue -> Gen unit) (hook : Hook) (json : jvalue)
    : handler_result := Ok (Some (f hook json)).

(** The table [event_handler] of [handle_request]. *)
Definition event_handler (event : string) : option (Hook -> jvalue -> handler_result) :=
  Py.assoc event
    [("ping", plain _handle_ping);
     ("push", plain _handle_push);
     ("issues", _handle_issues);
     ("issue_comment", _handle_issue_comment);
     ("commit_comment", _handle_commit_comment);
     ("create", _handle_create);
     ("delete", _handle_delete);
     ("pull_request", _handle_pull_request);
     ("pull_request_review_comment", _handle_pull_request_review_comment);
     ("gollum", _handle_gollum);
     ("watch", _handle_watch);
     ("release", _handle_release);
     ("fork", _handle_fork);
     ("member", _handle_member);
     ("public", _handle_public);
     ("team_add", _handle_team_add);
     ("status", _handle_status);
     ("deployment", plain _handle_deployment);
     ("deployment_status", plain _handle_deployment_status)].

(** [request.get_json()]: the body decoded, or the framework's error. *)
Definition get_json (request : Request) : result jvalue :=
  match json_loads X (data request) with
  | Some v => Ok v
  | None => Raise BadRequest
  end.

Definition handle_request (request : Request) (hook : Hook) : handler_result :=
  (* Support both json payloads as well as form encoded payloads *)
  payload ←
    (if bool_decide (content_type request = Some "application/json") then
       Some <$> get_json request
     else
       match form_payload request with
       | Some text =>
           match json_loads X text with
           | Some v => Ok (Some v)
           | None => Raise ValueError
           end
       | None => (* except KeyError: return *) Ok None
       end);
  match payload with
  | None => Ok None
  | Some payload =>
      let event := default "" (x_github_event request) in
      match event_handler event with
      | None => Ok None
      | Some handler => handler hook payload
      end
  end.

(** What the caller of [handle_request] sees when it consumes the result:
    the lines, and the exception if one is raised by the call or while
    the lines are produced. *)
Definition run (r : handler_result) : list string * option exn :=
  match r with
  | Raise e => ([], Some e)
  | Ok None => ([], None)
  | Ok (Some g) =>
      (yielded g, match outcome g with Ok _ => None | Raise e => Some e end)
  end.

End Github.

(** ** Notions of the specification *)

(** The whitelist key of an event: the category when the action is unset
    or empty, else category, underscore, action. *)
Definition whitelist_key (category : string) (action : option string) : string :=
  match action with
  | None | Some "" => category
  | Some a => category +:+ "_" +:+ a
  end.

(** The action as the handlers pass it: [None] or a string. *)
Definition action_value (action : option string) : jvalue :=
  match action with
  | None => JNull
  | Some a => JStr a
  end.

(** The [events] option of a hook configuration that may not exist. *)
Definition events_option (config : option Config) : option (list string) :=
  config ≫= events.

(** The line limit and the colour stripping a configuration asks for. *)
Definition line_limit_of (config : Config) : Z := default 3%Z (line_limit config).
Definition strip_of (config : Config) : bool := negb (default true (use_colors config)).

(** The files a commit lists under [added], [removed] or [modified]. *)
Definition file_list (type_ : string) (commit : jvalue) : list jvalue :=
  match Py.getitem commit type_ ≫= Py.iter with
  | Ok l => l
  | Raise _ => []
  end.


Definition is_str (v : jvalue) : bool :=
  match v with JStr _ => true | _ => false end.

Definition iterable (v : jvalue) : bool :=
  match v with JStr _ | JArr _ | JObj _ => true | _ => false end.

(** A commit that carries its three file lists. *)
Definition has_file_lists (commit : jvalue) : bool :=
  match commit with
  | JObj m =>
      forallb (fun type_ => match Py.assoc type_ m with
                            | Some v => iterable v
                            | None => false
                            end)
        ["added"; "removed"; "modified"]
  | _ => false
  end.

(** The shape [simplify_payload] expects of a push payload: an object; a
    [ref] that is a string (when given), and a [base_ref] that is one when
    [ref] does not name a branch or tag; a [pusher] that is an object (when
    given); [commits] (when given) a list of commits with their file
    lists. *)
Definition well_formed_push (payload : jvalue) : bool :=
  match payload with
  | JObj m =>
      match default (JStr "") (Py.assoc "ref" m) with
      | JStr ref =>
          match Re.ref_r_match ref with
          | Some _ => true
          | None => is_str (default (JStr "") (Py.assoc "base_ref" m))
          end
      | _ => false
      end
      && match Py.assoc "pusher" m with
         | Some (JObj _) | None => true
         | Some _ => false
         end
      && match default (JArr []) (Py.assoc "commits" m) with
         | JArr commits => forallb has_file_lists commits
         | _ => false
         end
  | _ => false
  end.

(** The configuration without its branch filter. *)
Definition without_branches (c : Config) : Config :=
  {| branches := None; events := events c; use_colors := use_colors c;
     show_branch := show_branch c; show_tags := show_tags c;
     prefer_username := prefer_username c; full_project_name := full_project_name c;
     title_only := title_only c; distinct_only := distinct_only c;
     line_limit := line_limit c |}.

(** [d.get(k)] of a dict given by its members. *)
Definition dict_get (m : list (string * jvalue)) (k : string) : jvalue :=
  default JNull (Py.assoc k m).

(** The first value that is not [None], or [None]. *)
Fixpoint first_not_none (vs : list jvalue) : jvalue :=
  match vs with
  | [] => JNull
  | v :: vs' => if Py.is_none v then first_not_none vs' else v
  end.

Section Lines.

Variable X : Externals.

(** The events of a run of yielded lines. *)
Definition yields (strip : bool) (lines : list string) : list event :=
  map (fun line => Yield (message X line strip)) lines.

(** The truncation line for [R] commits in the payload and a limit [L]. *)
Definition truncation_line (pn : jvalue) (R L : Z) : string :=
  name_tag X pn +:+ " " +:+ "... and " +:+ PyStr.of_Z (R - L) +:+ " more commits.".


(** A commit line: the name tag, the attribution when there is one, the
    hash, a dash and the text. *)
Definition commit_text (pn who sha : jvalue) (text : string) : string :=
  PyStr.join " "
    ([name_tag X pn]
     ++ (if Py.truthy who then [ORANGE X +:+ str X who +:+ RESET X] else [])
     ++ [GREEN X +:+ str X sha +:+ RESET X; "-"; text]).

(** The payload of a request when it can be decoded: the body of a JSON
    request, else the [payload] field of the form. *)
Definition decoded (request : Request) : option jvalue :=
  if bool_decide (content_type request = Some "application/json")
  then json_loads X (data request)
  else form_payload request ≫= json_loads X.

End Lines.

(** ** Sample inputs *)

Module Sample.

(** Colours left out, [message] the identity, git.io unreachable; the
    parser knows the empty object only. *)
Definition plain_world : Externals :=
  {| RESET := ""; BLUE := ""; GREEN := ""; ORANGE := ""; PINK := ""; RED := "";
     message := fun text _ => text;
     py_repr := fun _ => "?";
     post := fun _ => ConnectionError;
     sentry_client := false;
     json_loads := fun text => if String.eqb text "{}" then Some (JObj []) else None;
     py_lower := PyStr.ascii_lower; py_strip := PyStr.ascii_strip;
     py_capitalize := PyStr.ascii_capitalize;
     py_lower_nonempty := PyStr.ascii_lower_nonempty |}.

(** git.io answers 200 with a Location header. *)
Definition throttled_world : Externals :=
  {| RESET := ""; BLUE := ""; GREEN := ""; ORANGE := ""; PINK := ""; RED := "";
     message := fun text _ => text;
     py_repr := fun _ => "?";
     post := fun _ => Response 200 [("Location", "https://git.io/x")];
     sentry_client := false;
     json_loads := fun _ => None;
     py_lower := PyStr.ascii_lower; py_strip := PyStr.ascii_strip;
     py_capitalize := PyStr.ascii_capitalize;
     py_lower_nonempty := PyStr.ascii_lower_nonempty |}.

Definition only_push : Config :=
  {| branches := None; events := Some ["push"]; use_colors := None;
     show_branch := None; show_tags := None; prefer_username := None;
     full_project_name := None; title_only := None; distinct_only := None;
     line_limit := None |}.

Definition only_master : Config :=
  {| branches := Some "master, dev"; events := None; use_colors := None;
     show_branch := None; show_tags := None; prefer_username := None;
     full_project_name := None; title_only := None; distinct_only := None;
     line_limit := None |}.

Definition commit (id : string) (distinct : bool) (author : jvalue) : jvalue :=
  JObj [("id", JStr id); ("distinct", JBool distinct);
        ("message", JStr ("fix " +:+ id));
        ("author", author);
        ("committer", JObj [("name", JStr "Bob")]);
        ("added", JArr [JStr "a.txt"]); ("removed", JArr []);
        ("modified", JArr [JStr "b.txt"; JStr "c.txt"])].

Definition alice : jvalue := JObj [("name", JStr "Alice"); ("username", JStr "alice")].

(** An author whose username is the empty string. *)
Definition nameless : jvalue := JObj [("name", JStr "Alice"); ("username", JStr "")].

Definition push (ref : string) (commits : list jvalue) : jvalue :=
  JObj [("ref", JStr ref); ("base_ref", JNull);
        ("compare", JStr "https://github.com/o/r/compare/a...b");
        ("repository", JObj [("name", JStr "r"); ("owner", JObj [("name", JStr "o")])]);
        ("pusher", JObj [("name", JStr "carol")]);
        ("deleted", JBool false);
        ("head_commit", JNull);
        ("commits", JArr commits)].

(** Five commits, the last one seen before: four lines are eligible. *)
Definition four_of_five : jvalue :=
  push "refs/heads/main"
    [commit "1111111" true alice; commit "2222222" true alice;
     commit "3333333" true alice; commit "4444444" true alice;
     commit "5555555" false alice].

Definition five_distinct : jvalue :=
  push "refs/heads/main"
    [commit "1111111" true alice; commit "2222222" true alice;
     commit "3333333" true alice; commit "4444444" true alice;
     commit "5555555" true alice].

Definition no_hook_config : Hook := {| config := None |}.

(** The simplified form of a sample payload. *)
Definition simplified (payload : jvalue) : Simplified :=
  match simplify_payload payload with
  | Ok j => j
  | Raise _ =>
      {| branch := None; tag := None; pusher := JNull;
         files := {| files_all := []; files_added := []; files_removed := [];
                     files_modified := [] |};
         original := payload |}
  end.

Definition master_dev_hook : Hook := {| config := Some only_master |}.

Definition only_push_hook : Hook := {| config := Some only_push |}.

(** The same whitelist with the tags hidden. *)
Definition only_push_no_tags : Config :=
  {| branches := None; events := Some ["push"]; use_colors := None;
     show_branch := None; show_tags := Some false; prefer_username := None;
     full_project_name := None; title_only := None; distinct_only := None;
     line_limit := None |}.

Definition only_push_no_tags_hook : Hook := {| config := Some only_push_no_tags |}.

(** A branch created and a tag deleted: pushes without commits. *)
Definition branch_created : jvalue := push "refs/heads/feature" [].

Definition tag_deleted : jvalue := push "refs/tags/v1" [].

Definition one_commit (ref : string) : jvalue :=
  push ref [commit "1111111" true alice].

Definition json_request (event : string) : Request :=
  {| content_type := Some "application/json"; x_github_event := Some event;
     data := "{}"; form_payload := None |}.

Definition form_request (event : string) (payload : option string) : Request :=
  {| content_type := Some "application/x-www-form-urlencoded";
     x_github_event := Some event; data := ""; form_payload := payload |}.

(** A push of git notes: the ref names neither a branch nor a tag, and
    [base_ref] is null. *)
Definition notes_push : jvalue :=
  JObj [("ref", JStr "refs/notes/commits"); ("base_ref", JNull);
        ("pusher", JObj [("name", JStr "carol")]);
        ("commits", JArr [])].

(** A push that has its ref and nothing else, the request that carries it
    and a world whose parser reads the body of that request. *)
Definition bare_push : jvalue := JObj [("ref", JStr "refs/heads/feature")].

Definition bare_push_request : Request :=
  {| content_type := Some "application/json"; x_github_event := Some "push";
     data := "{ref: refs/heads/feature}"; form_payload := None |}.

Definition bare_world : Externals :=
  {| RESET := ""; BLUE := ""; GREEN := ""; ORANGE := ""; PINK := ""; RED := "";
     message := fun text _ => text;
     py_repr := fun _ => "?";
     post := fun _ => ConnectionError;
     sentry_client := false;
     json_loads := fun text =>
       if String.eqb text "{ref: refs/heads/feature}" then Some bare_push else None;
     py_lower := PyStr.ascii_lower; py_strip := PyStr.ascii_strip;
     py_capitalize := PyStr.ascii_capitalize;
     py_lower_nonempty := PyStr.ascii_lower_nonempty |}.

End Sample.

(** ** Further notions *)

(** All the files a commit lists, in the order [simplify_payload] collects
    them. *)
Definition files_of (commit : jvalue) : list jvalue :=
  file_list "added" commit ++ file_list "removed" commit ++ file_list "modified" commit.

(** The two refs [simplify_payload] looks at. *)
Definition refs_of (m : list (string * jvalue)) : list jvalue :=
  [default (JStr "") (Py.assoc "ref" m); default (JStr "") (Py.assoc "base_ref" m)].


(** [r.headers] has no Location header, whatever the case of the letters. *)
Definition no_location (X : Externals) (headers : list (string * string)) : Prop :=
  Forall (fun kv => py_lower X (fst kv) ≠ py_lower X "Location") headers.

Module Fixture.

(** The members of a sample object. *)
Definition members_of (v : jvalue) : list (string * jvalue) :=
  match v with JObj m => m | _ => [] end.

(** A push made with a deploy key. *)
Definition deploy_key_push : list (string * jvalue) :=
  [("ref", JStr "refs/heads/main");
   ("pusher", JObj [("name", JStr "none")]);
   ("commits", JArr [Sample.commit "1111111" true Sample.alice])].

(** A push whose pusher is null. *)
Definition null_pusher_push : list (string * jvalue) :=
  [("ref", JStr "refs/heads/main"); ("pusher", JNull); ("commits", JArr [])].

(** A push of something that is neither a branch nor a tag, with the null
    [base_ref] GitHub sends. *)
Definition odd_ref_push : list (string * jvalue) :=
  [("ref", JStr "refs/notes/commits"); ("base_ref", JNull); ("commits", JArr [])].

(** git.io fails in a way [requests] does not name, and sentry is set. *)
Definition broken_world : Externals :=
  {| RESET := ""; BLUE := ""; GREEN := ""; ORANGE := ""; PINK := ""; RED := "";
     message := fun text _ => text;
     py_repr := fun _ => "?";
     post := fun _ => OtherException;
     sentry_client := true;
     json_loads := fun _ => None;
     py_lower := PyStr.ascii_lower; py_strip := PyStr.ascii_strip;
     py_capitalize := PyStr.ascii_capitalize;
     py_lower_nonempty := PyStr.ascii_lower_nonempty |}.

(** git.io answers 201 with the given headers. *)
Definition created_world (headers : list (string * string)) : Externals :=
  {| RESET := ""; BLUE := ""; GREEN := ""; ORANGE := ""; PINK := ""; RED := "";
     message := fun text _ => text;
     py_repr := fun _ => "?";
     post := fun _ => Response 201 headers;
     sentry_client := false;
     json_loads := fun text => if String.eqb text "{}" then Some (JObj []) else None;
     py_lower := PyStr.ascii_lower; py_strip := PyStr.ascii_strip;
     py_capitalize := PyStr.ascii_capitalize;
     py_lower_nonempty := PyStr.ascii_lower_nonempty |}.

End Fixture.


Section MoreLines.

Variable X : Externals.

(** The generator yields at most [k] lines, each of them [message] of some
    text with the given [strip]. *)
Definition lines_via (strip : bool) (k : nat) {A} (g : Gen A) : Prop :=
  ∃ texts, yielded g = map (fun text => message X text strip) texts
           ∧ (length texts <= k)%nat.

(** The line of a push without commits: the name tag, the pusher when
    there is one, the words, the link when there is one. *)
Definition non_commit_text (pn : jvalue) (j : Simplified) (words : list string)
    (link : option string) : string :=
  PyStr.join " "
    (([name_tag X pn]
      ++ (if Py.truthy (pusher j) then [ORANGE X +:+ str X (pusher j) +:+ RESET X] else []))
     ++ words
     ++ match link with
        | Some l => [PINK X +:+ l +:+ RESET X]
        | None => []
        end).

End MoreLines.

Module Fixture2.

(** Only blanks and a comma in the [branches] option. *)
Definition blank_branches_hook : Hook :=
  {| config := Some {| branches := Some " , "; events := None; use_colors := None;
                       show_branch := None; show_tags := None; prefer_username := None;
                       full_project_name := None; title_only := None;
                       distinct_only := None; line_limit := None |} |}.

(** Tags are not shown. *)
Definition no_tags_hook : Hook :=
  {| config := Some {| branches := None; events := None; use_colors := None;
                       show_branch := None; show_tags := Some false;
                       prefer_username := None; full_project_name := None;
                       title_only := None; distinct_only := None; line_limit := None |} |}.

(** Issues only. *)
Definition issues_only_hook : Hook :=
  {| config := Some {| branches := None; events := Some ["issue_opened"];
                       use_colors := None; show_branch := None; show_tags := None;
                       prefer_username := None; full_project_name := None;
                       title_only := None; distinct_only := None; line_limit := None |} |}.


(** A branch deleted by nobody in particular. *)
Definition branch_deleted : jvalue :=
  JObj [("ref", JStr "refs/heads/old");
        ("repository", JObj [("name", JStr "r")]);
        ("deleted", JBool true);
        ("head_commit", JNull);
        ("commits", JArr [])].

End Fixture2.


(** The number of lines a run of turns of the commit iterator holds. *)
Fixpoint lines_in (turns : list (result (option string))) : nat :=
  match turns with
  | [] => 0
  | Ok (Some _) :: rest => S (lines_in rest)
  | _ :: rest => lines_in rest
  end.


Module Fixture3.

Definition titles_hook_config : Config :=
  {| branches := None; events := None; use_colors := None; show_branch := None;
     show_tags := None; prefer_username := None; full_project_name := None;
     title_only := Some true; distinct_only := None; line_limit := None |}.

Definition every_commit_config : Config :=
  {| branches := None; events := None; use_colors := None; show_branch := None;
     show_tags := None; prefer_username := None; full_project_name := None;
     title_only := None; distinct_only := Some false; line_limit := None |}.

(** A commit with a message of three lines. *)
Definition long_commit : jvalue :=
  JObj [("id", JStr "1111111aaaa"); ("distinct", JBool true);
        ("message", JStr ("Fix the parser" +:+ String PyStr.newline ""
                          +:+ String PyStr.newline "" +:+ "It dropped the last byte."));
        ("author", Sample.alice)].

(** The members of a commit that does not say whether it is distinct. *)
Definition bare_commit : list (string * jvalue) :=
  [("id", JStr "2222222"); ("message", JStr "tidy"); ("author", Sample.alice)].

(** A commit seen before, with nothing else in it. *)
Definition seen_commit : jvalue := JObj [("distinct", JBool false)].

End Fixture3.


(** The category and the action key each decorated handler is filtered
    by, as the [@action_filter] lines give them. *)
Definition filter_of (event : string) : option (string * option string) :=
  Py.assoc event
    [("issues", ("issue", Some "action"));
     ("issue_comment", ("issue_comment", Some "action"));
     ("commit_comment", ("commit_comment", Some "action"));
     ("create", ("create", Some "ref_type"));
     ("delete", ("delete", Some "ref_type"));
     ("pull_request", ("pr", Some "action"));
     ("pull_request_review_comment", ("pr_review", Some "action"));
     ("gollum", ("gollum", Some "action"));
     ("watch", ("watch", Some "action"));
     ("release", ("release", Some "action"));
     ("fork", ("fork", None));
     ("member", ("member", Some "action"));
     ("public", ("public", None));
     ("team_add", ("team_add", None));
     ("status", ("status", Some "state"))].

(** The value the filter of an event reads in the payload. *)
Definition filter_value (key : option string) (payload : jvalue) : result jvalue :=
  match key with
  | Some k => Py.getitem payload k
  | None => Ok JNull
  end.

(** At most one line and one request, and no line before an exception. *)
Definition one_shot {A} (g : Gen A) : Prop :=
  (length (yielded g) <= 1)%nat
  ∧ (length (posts g) <= 1)%nat
  ∧ ∀ e, outcome g = Raise e -> yielded g = [].

(** What the line of a wiki page shows: the name and the action of the
    page, and its link once shortened. *)
Record PageShown := { shown_name : jvalue; shown_action : jvalue; shown_link : string }.

(** A wiki page that has what its line needs, with a link that can be
    shortened. *)
Definition page_shows (X : Externals) (page : jvalue) (shown : PageShown) : Prop :=
  ∃ url tr,
    Py.getitem page "page_name" = Ok (shown_name shown)
    ∧ Py.getitem page "action" = Ok (shown_action shown)
    ∧ Py.getitem page "html_url" = Ok url
    ∧ shorten X url = MkGen tr (Ok (shown_link shown)).

(** The lines of a wiki event: for one page, who did what to it; for
    several, who updated the wiki and then a line for each page. *)
Definition wiki_summary (X : Externals) (name who : jvalue) : string :=
  name_tag X name +:+ " " +:+ orange X who +:+ " updated the Wiki".

Definition page_line (X : Externals) (name : jvalue) (shown : PageShown) : string :=
  name_tag X name +:+ " Page " +:+ green X (shown_name shown) +:+ " "
  +:+ str X (shown_action shown) +:+ " - " +:+ pink X (shown_link shown).

Definition single_page_line (X : Externals) (name who : jvalue) (shown : PageShown)
    : string :=
  name_tag X name +:+ " " +:+ orange X who +:+ " " +:+ str X (shown_action shown)
  +:+ " page " +:+ green X (shown_name shown) +:+ " - " +:+ pink X (shown_link shown).

Definition wiki_lines (X : Externals) (name who : jvalue) (shown : list PageShown)
    : list string :=
  match shown with
  | [one] => [single_page_line X name who one]
  | _ => wiki_summary X name who :: map (page_line X name) shown
  end.

Module Fixture4.

Definition page (name : string) : jvalue :=
  JObj [("page_name", JStr name); ("action", JStr "edited");
        ("html_url", JStr ("https://github.com/o/r/wiki/" +:+ name))].

(** A wiki event as GitHub sends it: the action is with each page. *)
Definition wiki (pages : list jvalue) : jvalue :=
  JObj [("repository", JObj [("name", JStr "r")]);
        ("sender", JObj [("login", JStr "carol")]);
        ("pages", JArr pages)].

(** The same with an [action] member of its own. *)
Definition acted_wiki (pages : list jvalue) : jvalue :=
  JObj [("action", JStr "edited");
        ("repository", JObj [("name", JStr "r")]);
        ("sender", JObj [("login", JStr "carol")]);
        ("pages", JArr pages)].

Definition shown (name : string) : PageShown :=
  {| shown_name := JStr name; shown_action := JStr "edited";
     shown_link := "https://github.com/o/r/wiki/" +:+ name |}.

Definition issue_closed : jvalue :=
  JObj [("action", JStr "closed");
        ("repository", JObj [("name", JStr "r")]);
        ("sender", JObj [("login", JStr "carol")]);
        ("issue", JObj [("number", JNum 7); ("title", JStr "Crash");
                        ("html_url", JStr "https://github.com/o/r/issues/7")])].

Definition review : jvalue :=
  JObj [("action", JStr "created");
        ("repository", JObj [("name", JStr "r")]);
        ("comment", JObj [("user", JObj [("login", JStr "carol")]);
                          ("pull_request_url",
                           JStr "https://api.github.com/repos/o/r/pulls/42");
                          ("html_url", JStr "https://github.com/o/r/pull/42#r1")])].

Definition build_status (state : string) : jvalue :=
  JObj [("state", JStr state);
        ("repository", JObj [("name", JStr "r")]);
        ("description", JStr "build");
        ("target_url", JStr "https://ci.example/1")].

(** The parser knows one issue payload. *)
Definition issue_world : Externals :=
  {| RESET := ""; BLUE := ""; GREEN := "<g>"; ORANGE := ""; PINK := ""; RED := "<r>";
     message := fun text _ => text;
     py_repr := fun _ => "?";
     post := fun _ => ConnectionError;
     sentry_client := false;
     json_loads := fun text => if String.eqb text "{}" then Some issue_closed else None;
     py_lower := PyStr.ascii_lower; py_strip := PyStr.ascii_strip;
     py_capitalize := PyStr.ascii_capitalize;
     py_lower_nonempty := PyStr.ascii_lower_nonempty |}.

End Fixture4.


(** The generator makes at most [k] requests to git.io. *)
Definition calls_at_most (k : nat) {A} (g : Gen A) : Prop :=
  (length (posts g) <= k)%nat.

Module Fixture5.

(** A commit that has its file lists and nothing else. *)
Definition broken_commit : jvalue :=
  JObj [("added", JArr []); ("removed", JArr []); ("modified", JArr [])].

(** Four good commits, then one that cannot be rendered. *)
Definition broken_fifth : jvalue :=
  Sample.push "refs/heads/main"
    [Sample.commit "1111111" true Sample.alice; Sample.commit "2222222" true Sample.alice;
     Sample.commit "3333333" true Sample.alice; Sample.commit "4444444" true Sample.alice;
     broken_commit].

End Fixture5.

(** ** Properties *)

(** A name is not in an explicit list of names. *)
Ltac not_among :=
  vm_compute;
  let H := fresh "H" in
  intros H;
  repeat (apply elem_of_cons in H as [H|H]; [discriminate H|]);
  by apply elem_of_nil in H.

(** *** The generator monad *)

Lemma lift_ok_bind {A B} (a : A) (f : A -> Gen B) : lift (Ok a) ≫= f = f a.
Proof. unfold mbind, gen_bind, lift; simpl. by destruct (f a). Qed.

Lemma lift_raise_bind {A B} (e : exn) (f : A -> Gen B) :
  lift (Raise e) ≫= f = lift (Raise e).
Proof. reflexivity. Qed.

Lemma mret_bind {A B} (a : A) (f : A -> Gen B) : mret a ≫= f = f a.
Proof. unfold mbind, gen_bind, mret, gen_ret; simpl. by destruct (f a). Qed.

Lemma yield_bind {B} (line : string) (f : unit -> Gen B) :
  yield line ≫= f = MkGen (Yield line :: trace (f tt)) (outcome (f tt)).
Proof. reflexivity. Qed.

Lemma gen_bind_ok {A B} (m : Gen A) (f : A -> Gen B) t a :
  m = MkGen t (Ok a) -> m ≫= f = MkGen (t ++ trace (f a)) (outcome (f a)).
Proof. by intros ->. Qed.

Lemma gen_bind_ext {A B} (m : Gen A) (f g : A -> Gen B) :
  (∀ a, f a = g a) -> m ≫= f = m ≫= g.
Proof.
  intros Hfg. unfold mbind, gen_bind. destruct (outcome m) as [a|e]; [|done].
  by rewrite (Hfg a).
Qed.

Lemma result_bind_ok {A B} (m : result A) (f : A -> result B) (b : B) :
  m ≫= f = Ok b -> ∃ a, m = Ok a ∧ f a = Ok b.
Proof. destruct m as [a|e]; [|discriminate]. intros H. by exists a. Qed.

(** *** Event whitelist *)

Section Whitelist.

Variable X : Externals.

(** C3. With no configuration, no [events] option or an empty one every
    event is allowed; otherwise an event is allowed exactly when its key
    (the category alone when the action is unset or empty, else category,
    underscore, action) is in the configured events. *)
Theorem is_event_allowed_whitelist (config : option Config) (category : string)
    (action : option string) :
  is_event_allowed X config category (action_value action) =
    match events_option config with
    | None | Some [] => true
    | Some evs => bool_decide (whitelist_key category action ∈ evs)
    end.
Proof.
  destruct config as [c|]; [|done].
  unfold is_event_allowed, events_option; simpl.
  destruct (events c) as [[|ev evs]|]; [done| |done].
  destruct action as [[|ch a]|]; done.
Qed.

End Whitelist.

(** *** Link shortening *)

Section Shorten.

Variable X : Externals.

Lemma shorten_already_short (url : string) :
  Re.search_git_io url = true ->
  shorten X (JStr url) = MkGen [] (Ok url).
Proof.
  intros Hm. unfold shorten. simpl Py.re_subject.
  rewrite lift_ok_bind, Hm. reflexivity.
Qed.

(** C8. A URL that is already a git.io one comes back unchanged, and no
    request is made. *)
Theorem shorten_git_io_passthrough (url : string) :
  Re.search_git_io url = true ->
  shorten X (JStr url) = MkGen [] (Ok url)
  ∧ posts (shorten X (JStr url)) = [].
Proof.
  intros Hm. by rewrite (shorten_already_short url Hm).
Qed.

(** What [shorten] does with a URL that is not a git.io one. *)
Lemma shorten_posts (url : string) :
  Re.search_git_io url = false ->
  shorten X (JStr url) =
    (emit (Post url);;
     match post X url with
     | ConnectionError | Timeout => mret url
     | OtherException => (if sentry_client X then emit Capture else mret tt);; mret url
     | Response status_code headers =>
         if negb (status_code =? 201)%Z then mret url
         else lift (header X "Location" headers)
     end).
Proof.
  intros Hm. unfold shorten. simpl Py.re_subject.
  rewrite lift_ok_bind, Hm. reflexivity.
Qed.

(** C9. When git.io answers with a status other than 201 the URL comes
    back unchanged; a different URL comes back only from a 201 answer,
    and it is that answer's Location header. *)
Theorem shorten_only_on_201 (url : string) (status_code : Z)
    (headers : list (string * string)) :
  post X url = Response status_code headers ->
  (status_code ≠ 201%Z -> outcome (shorten X (JStr url)) = Ok url)
  ∧ (∀ short, outcome (shorten X (JStr url)) = Ok short -> short ≠ url ->
       status_code = 201%Z ∧ header X "Location" headers = Ok short).
Proof.
  intros Hpost.
  destruct (Re.search_git_io url) eqn:Hm.
  - rewrite (shorten_already_short url Hm). simpl. split; [done|].
    intros short [= ->]. done.
  - rewrite (shorten_posts url Hm), Hpost.
    destruct (Z.eqb_spec status_code 201) as [->|Hne]; simpl.
    + split; [done|]. intros short Hs _. split; [done|].
      by destruct (header X "Location" headers).
    + split; [done|]. by intros short [= ->].
Qed.

End Shorten.

Lemma shorten_git_io_passthrough_witness :
  Re.search_git_io "https://git.io/abc" = true
  ∧ shorten Sample.plain_world (JStr "https://git.io/abc")
    = MkGen [] (Ok "https://git.io/abc")
  ∧ posts (shorten Sample.plain_world (JStr "https://git.io/abc")) = [].
Proof.
  split; [reflexivity|].
  apply (shorten_git_io_passthrough Sample.plain_world "https://git.io/abc").
  reflexivity.
Defined.

Lemma shorten_only_on_201_witness :
  post Sample.throttled_world "https://github.com/o/r"
  = Response 200 [("Location", "https://git.io/x")]
  ∧ outcome (shorten Sample.throttled_world (JStr "https://github.com/o/r"))
    = Ok "https://github.com/o/r".
Proof.
  split; [reflexivity|].
  apply (shorten_only_on_201 Sample.throttled_world "https://github.com/o/r" 200
           [("Location", "https://git.io/x")]); [reflexivity | lia].
Defined.

(** *** Payload normalisation *)

Lemma summarize_files_spec (commits : list jvalue) (f : Files) :
  forallb has_file_lists commits = true ->
  summarize_files commits f =
    Ok {| files_all :=
            files_all f
            ++ concat (map (fun c => file_list "added" c ++ file_list "removed" c
                                     ++ file_list "modified" c) commits);
          files_added := files_added f ++ concat (map (file_list "added") commits);
          files_removed := files_removed f ++ concat (map (file_list "removed") commits);
          files_modified :=
            files_modified f ++ concat (map (file_list "modified") commits) |}.
Proof.
  revert f. induction commits as [|c cs IH]; intros f Hwf; simpl.
  - rewrite !app_nil_r. by destruct f.
  - apply andb_prop in Hwf as [Hc Hcs].
    destruct c as [| | | | |m]; try discriminate Hc.
    unfold has_file_lists in Hc; simpl in Hc.
    unfold file_list; simpl.
    destruct (Py.assoc "added" m) as [a|]; [|discriminate].
    destruct (Py.assoc "removed" m) as [r|]; [|by rewrite andb_false_r in Hc].
    destruct (Py.assoc "modified" m) as [d|]; [|by rewrite !andb_false_r in Hc].
    destruct a, r, d; try discriminate Hc; simpl;
      rewrite (IH _ Hcs); simpl; by rewrite <- !app_assoc.
Qed.

(** [simplify_payload] on a well-formed payload, up to the branch and the
    tag. *)
Lemma simplify_payload_ok (m : list (string * jvalue)) :
  well_formed_push (JObj m) = true ->
  ∃ found commits j,
    first_ref_match [default (JStr "") (Py.assoc "ref" m);
                     default (JStr "") (Py.assoc "base_ref" m)] = Ok found
    ∧ default (JArr []) (Py.assoc "commits" m) = JArr commits
    ∧ simplify_payload (JObj m) = Ok j
    ∧ branch j = match found with Some (Re.heads, name) => Some name | _ => None end
    ∧ tag j = match found with Some (Re.tags, name) => Some name | _ => None end
    ∧ original j = JObj m
    ∧ files_added (files j) = concat (map (file_list "added") commits)
    ∧ files_removed (files j) = concat (map (file_list "removed") commits)
    ∧ files_modified (files j) = concat (map (file_list "modified") commits).
Proof.
  intros Hwf. unfold well_formed_push in Hwf.
  apply andb_prop in Hwf as [Hwf Hcommits]. apply andb_prop in Hwf as [Href Hpusher].
  unfold simplify_payload, Py.get.
  destruct (default (JArr []) (Py.assoc "commits" m)) as [| | | |commits|] eqn:Ec;
    try discriminate Hcommits.
  assert (∃ found,
    first_ref_match [default (JStr "") (Py.assoc "ref" m);
                     default (JStr "") (Py.assoc "base_ref" m)] = Ok found)
    as [found Hfound].
  { destruct (default (JStr "") (Py.assoc "ref" m)) as [| | |ref| |];
      try discriminate Href; simpl.
    destruct (Re.ref_r_match ref) as [hit|]; [by eexists|].
    destruct (default (JStr "") (Py.assoc "base_ref" m)) as [| | |base| |];
      try discriminate Href; simpl.
    destruct (Re.ref_r_match base); by eexists. }
  exists found, commits.
  cbn [mbind result_bind]. rewrite Hfound. cbn [Py.iter].
  destruct (Py.assoc "pusher" m) as [[| | | | |p]|]; try discriminate Hpusher;
    cbn [mbind result_bind];
    rewrite (summarize_files_spec commits _ Hcommits);
    eexists; repeat split; reflexivity.
Qed.

(** What [simplify_payload] found, whenever it returns. *)
Lemma simplify_payload_found (payload : jvalue) (j : Simplified) :
  simplify_payload payload = Ok j ->
  ∃ ref_ base_ref_ found,
    Py.get payload "ref" (JStr "") = Ok ref_
    ∧ Py.get payload "base_ref" (JStr "") = Ok base_ref_
    ∧ first_ref_match [ref_; base_ref_] = Ok found
    ∧ branch j = match found with Some (Re.heads, name) => Some name | _ => None end
    ∧ tag j = match found with Some (Re.tags, name) => Some name | _ => None end.
Proof.
  unfold simplify_payload. intros H.
  apply result_bind_ok in H as (ref_ & Href & H).
  apply result_bind_ok in H as (base_ref_ & Hbase & H).
  apply result_bind_ok in H as (found & Hfound & H).
  repeat (apply result_bind_ok in H as (? & _ & H)).
  injection H as <-. by exists ref_, base_ref_, found.
Qed.

(** C4, as the code has it.  [simplify_payload] returns on every
    well-formed push payload, and whenever it returns: it looks at [ref]
    and, only when [ref] does not match, at [base_ref]; the first of them
    that names a branch sets the branch and leaves the tag unset, the first
    that names a tag sets the tag and leaves the branch unset; when neither
    matches both stay unset.  Branch and tag are never both set.  When
    [ref] is a string that does not match and [base_ref] is not a string,
    [simplify_payload] raises [TypeError]: nothing is returned, and branch
    and tag are not left unset. *)
Theorem simplify_payload_branch_tag (payload : jvalue) :
  (well_formed_push payload = true -> ∃ j, simplify_payload payload = Ok j)
  ∧ (∀ j, simplify_payload payload = Ok j ->
      (∃ ref,
         Py.get payload "ref" (JStr "") = Ok (JStr ref)
         ∧ match Re.ref_r_match ref with
           | Some (Re.heads, name) => branch j = Some name ∧ tag j = None
           | Some (Re.tags, name) => branch j = None ∧ tag j = Some name
           | None =>
               ∃ base_ref,
                 Py.get payload "base_ref" (JStr "") = Ok (JStr base_ref)
                 ∧ match Re.ref_r_match base_ref with
                   | Some (Re.heads, name) => branch j = Some name ∧ tag j = None
                   | Some (Re.tags, name) => branch j = None ∧ tag j = Some name
                   | None => branch j = None ∧ tag j = None
                   end
           end)
      ∧ ¬ (is_Some (branch j) ∧ is_Some (tag j)))
  ∧ (∀ ref base_ref,
       Py.get payload "ref" (JStr "") = Ok (JStr ref) ->
       Re.ref_r_match ref = None ->
       Py.get payload "base_ref" (JStr "") = Ok base_ref ->
       is_str base_ref = false ->
       simplify_payload payload = Raise TypeError).
Proof.
  split; [|split].
  - intros Hwf. destruct payload as [| | | | |m]; try discriminate Hwf.
    destruct (simplify_payload_ok m Hwf) as (_ & _ & j & _ & _ & Hj & _). by exists j.
  - intros j Hj.
    destruct (simplify_payload_found payload j Hj)
      as (ref_ & base_ref_ & found & Href & Hbase & Hfound & Hb & Ht).
    split.
    + cbn [first_ref_match] in Hfound.
      destruct ref_ as [| | |ref| |]; try discriminate Hfound.
      exists ref. split; [done|]. cbn [Py.re_subject mbind result_bind] in Hfound.
      destruct (Re.ref_r_match ref) as [[[] name]|].
      * injection Hfound as <-. by rewrite Hb, Ht.
      * injection Hfound as <-. by rewrite Hb, Ht.
      * destruct base_ref_ as [| | |base| |]; try discriminate Hfound.
        exists base. split; [done|]. cbn [Py.re_subject mbind result_bind] in Hfound.
        destruct (Re.ref_r_match base) as [[[] name]|]; injection Hfound as <-;
          by rewrite Hb, Ht.
    + rewrite Hb, Ht.
      destruct found as [[[] ?]|]; intros [[x Hx] [y Hy]]; discriminate.
  - intros ref base_ref Href Hno Hbase Hstr. unfold simplify_payload.
    rewrite Href, Hbase. cbn [mbind result_bind first_ref_match Py.re_subject].
    rewrite Hno. by destruct base_ref.
Qed.

Lemma simplify_payload_branch_tag_witness :
  (well_formed_push Sample.four_of_five = true
   ∧ ∃ j, simplify_payload Sample.four_of_five = Ok j
          ∧ branch j = Some "main" ∧ tag j = None
          ∧ ¬ (is_Some (branch j) ∧ is_Some (tag j)))
  ∧ (Re.ref_r_match "refs/notes/commits" = None
     ∧ simplify_payload Sample.notes_push = Raise TypeError).
Proof.
  split.
  - destruct (simplify_payload_branch_tag Sample.four_of_five) as (Htotal & Hfound & _).
    split; [reflexivity|].
    destruct (Htotal eq_refl) as [j Hj]. exists j. split; [exact Hj|].
    destruct (Hfound j Hj) as [(ref & Href & Hmatch) Hnot].
    vm_compute in Href. injection Href as <-.
    change (Re.ref_r_match "refs/heads/main") with (Some (Re.heads, "main")) in Hmatch.
    destruct Hmatch as [Hb Ht]. split; [exact Hb|]. split; [exact Ht|]. exact Hnot.
  - split; [reflexivity|].
    destruct (simplify_payload_branch_tag Sample.notes_push) as (_ & _ & Hraise).
    apply (Hraise "refs/notes/commits" JNull); reflexivity.
Defined.

(** A push to a ref that names neither a branch nor a tag, with the null
    [base_ref] GitHub sends: neither field matches the pattern, and
    [simplify_payload] raises [TypeError] where the claim has it return
    with branch and tag unset. *)
Lemma simplify_payload_branch_tag_counterexample :
  Py.get Sample.notes_push "ref" (JStr "") = Ok (JStr "refs/notes/commits")
  ∧ Re.ref_r_match "refs/notes/commits" = None
  ∧ Py.get Sample.notes_push "base_ref" (JStr "") = Ok JNull
  ∧ simplify_payload Sample.notes_push = Raise TypeError
  ∧ ¬ (∃ j, simplify_payload Sample.notes_push = Ok j
            ∧ branch j = None ∧ tag j = None).
Proof.
  split; [reflexivity|]. split; [reflexivity|]. split; [reflexivity|].
  split; [reflexivity|]. intros (j & Hj & _). discriminate Hj.
Qed.

(** The pattern of [simplify_payload] on the refs of branches and tags. *)
Lemma dot_star_eol_plain (name : string) :
  PyStr.contains_char PyStr.newline name = false ->
  Re.dot_star_eol name = Some name.
Proof.
  induction name as [|c name IH]; [done|].
  cbn [PyStr.contains_char Re.dot_star_eol].
  intros [Hc Hrest]%orb_false_elim.
  rewrite Ascii.eqb_sym, Hc, (IH Hrest). reflexivity.
Qed.

Lemma ref_r_match_heads (name : string) :
  PyStr.contains_char PyStr.newline name = false ->
  Re.ref_r_match ("refs/heads/" +:+ name) = Some (Re.heads, name).
Proof. intros H. unfold Re.ref_r_match. simpl. by rewrite dot_star_eol_plain. Qed.

Lemma ref_r_match_tags (name : string) :
  PyStr.contains_char PyStr.newline name = false ->
  Re.ref_r_match ("refs/tags/" +:+ name) = Some (Re.tags, name).
Proof. intros H. unfold Re.ref_r_match. simpl. by rewrite dot_star_eol_plain. Qed.

(** *** The push handler *)

Section Push.

Variable X : Externals.

Lemma emit_commit_lines_skipped pn j config strip L R i (turns : list (option string)) :
  omap id turns = [] ->
  emit_commit_lines X pn j config strip L R i (map Ok turns) = mret tt.
Proof.
  induction turns as [|[line|] turns IH]; simpl; [done|discriminate|done].
Qed.

(** The loop over the commit lines: all of them when they fit, else the
    first [L] of them and the final summary. *)
Lemma emit_commit_lines_spec pn j config strip (L R : Z) final
    (turns : list (option string)) (i : Z) :
  _create_push_final_summary X pn j config = Ok final ->
  (0 <= i <= L)%Z ->
  (i + Z.of_nat (length (omap id turns)) <= R)%Z ->
  emit_commit_lines X pn j config strip L R i (map Ok turns) =
    if bool_decide ((i + Z.of_nat (length (omap id turns)) <= L)%Z
                    ∨ ((i + Z.of_nat (length (omap id turns)))%Z = (L + 1)%Z
                       ∧ R = (L + 1)%Z))
    then MkGen (yields X strip (omap id turns)) (Ok tt)
    else MkGen (yields X strip (take (Z.to_nat (L - i)) (omap id turns))
                ++ [Yield (message X final strip)]) (Ok tt).
Proof.
  intros Hfinal. revert i.
  induction turns as [|[line|] turns IH]; intros i Hi HR.
  - simpl. rewrite bool_decide_eq_true_2 by (left; simpl; lia). reflexivity.
  - cbn [map emit_commit_lines].
    change (omap id (Some line :: turns)) with (line :: omap id turns) in *.
    cbn [length] in *.
    destruct (Z.gtb_spec i L) as [?|_]; [lia|]. cbn [orb].
    destruct (Z.eqb_spec i L) as [->|HiL]; cbn [andb].
    + destruct (Z.eqb_spec R (L + 1)) as [HRL|HRL]; cbn [negb].
      * assert (omap id turns = []) as Hnil by (apply length_zero_iff_nil; lia).
        rewrite (emit_commit_lines_skipped _ _ _ _ _ _ _ _ Hnil), Hnil.
        rewrite bool_decide_eq_true_2 by (right; simpl; lia). reflexivity.
      * rewrite Hfinal, lift_ok_bind.
        rewrite bool_decide_eq_false_2 by lia.
        replace (Z.to_nat (L - L)) with 0%nat by lia. reflexivity.
    + rewrite yield_bind, (IH (i + 1)%Z) by lia.
      replace (Z.to_nat (L - i)) with (S (Z.to_nat (L - (i + 1)))) by lia.
      destruct (bool_decide _) eqn:Hd.
      * apply bool_decide_eq_true_1 in Hd.
        rewrite bool_decide_eq_true_2 by lia. reflexivity.
      * apply bool_decide_eq_false_1 in Hd.
        rewrite bool_decide_eq_false_2 by lia. reflexivity.
  - cbn [map emit_commit_lines]. apply IH; [done|]. exact HR.
Qed.

Lemma simplify_payload_original (payload : jvalue) (j : Simplified) :
  simplify_payload payload = Ok j -> original j = payload.
Proof.
  unfold simplify_payload. intros H.
  repeat (apply result_bind_ok in H as (? & _ & H)).
  by injection H as <-.
Qed.

(** [shorten] yields no line. *)
Lemma yielded_shorten (url : jvalue) : yielded (shorten X url) = [].
Proof.
  unfold shorten. destruct url as [| | |u| |]; try reflexivity.
  simpl Py.re_subject. rewrite lift_ok_bind.
  destruct (Re.search_git_io u); [reflexivity|].
  destruct (post X u) as [| | |status_code headers]; try reflexivity.
  - by destruct (sentry_client X).
  - destruct (negb (status_code =? 201)%Z); [reflexivity|].
    by destruct (header X "Location" headers).
Qed.

Lemma yielded_bind {A B} (m : Gen A) (f : A -> Gen B) :
  yielded m = [] -> (∀ a, yielded (f a) = []) -> yielded (m ≫= f) = [].
Proof.
  intros Hm Hf. unfold mbind, gen_bind, yielded in *.
  destruct (outcome m) as [a|e]; simpl; [|done].
  by rewrite omap_app, Hm, (Hf a).
Qed.

Lemma yielded_create_push_summary pn j config :
  yielded (_create_push_summary X pn j config) = [].
Proof.
  unfold _create_push_summary.
  apply yielded_bind; [by destruct (_ ≫= Py.len)|]. intros count.
  apply yielded_bind; [|done].
  apply yielded_bind; [by destruct (Py.getitem _ _)|]. apply yielded_shorten.
Qed.

(** The final summary counts the commits of the payload. *)
Lemma create_push_final_summary_ok pn j config (commits : list jvalue) :
  Py.getitem (original j) "commits" = Ok (JArr commits) ->
  _create_push_final_summary X pn j config =
    Ok (name_tag X pn +:+ " " +:+ "... and "
        +:+ PyStr.of_Z (Z.of_nat (length commits) - default 3%Z (line_limit config))
        +:+ " more commits.").
Proof.
  intros Hc. unfold _create_push_final_summary.
  destruct (original j) as [| | | | |m]; try discriminate Hc. simpl in *.
  destruct (Py.assoc "commits" m) as [v|]; [|discriminate Hc].
  injection Hc as ->. reflexivity.
Qed.

(** A push with commits that passes the branch filter and the whitelist:
    the header, then the loop over the commit lines. *)
Lemma handle_push_commits hook json j (commits : list jvalue) pn tr summary :
  simplify_payload json = Ok j ->
  branch_unwanted X (config_or_empty hook) j = false ->
  Py.getitem json "commits" = Ok (JArr commits) ->
  commits ≠ [] ->
  project_name_of X json (default false (full_project_name (config_or_empty hook)))
    = Ok pn ->
  is_event_allowed X (Some (config_or_empty hook)) "push" JNull = true ->
  _create_push_summary X pn j (config_or_empty hook) = MkGen tr (Ok summary) ->
  _handle_push X hook json =
    let config := config_or_empty hook in
    let strip := negb (default true (use_colors config)) in
    let rest :=
      emit_commit_lines X pn j config strip (default 3%Z (line_limit config))
        (Z.of_nat (length commits)) 0 (map (commit_line X pn config) commits) in
    MkGen (tr ++ Yield (message X summary strip) :: trace rest) (outcome rest).
Proof.
  intros Hj Hb Hc Hne Hpn Hallowed Hsummary.
  pose proof (simplify_payload_original _ _ Hj) as Ho.
  unfold _handle_push. rewrite Hj, lift_ok_bind. cbv zeta.
  rewrite Hb, Ho, Hc, lift_ok_bind.
  destruct commits as [|c commits]; [done|]. cbn [Py.truthy negb].
  rewrite Hpn, lift_ok_bind, Hallowed. cbn [negb].
  rewrite (gen_bind_ok _ _ _ _ Hsummary), yield_bind.
  assert (Py.get json "commits" (JArr []) = Ok (JArr (c :: commits))) as ->.
  { destruct json as [| | | | |m]; try discriminate Hc. simpl in *.
    by destruct (Py.assoc "commits" m) as [v|]; [injection Hc as ->|]. }
  unfold _create_commit_summary. rewrite Ho, Hc.
  cbn [mbind result_bind Py.len Py.iter]. rewrite !lift_ok_bind.
  reflexivity.
Qed.

Lemma omap_id_length (turns : list (option string)) :
  (length (omap id turns) <= length turns)%nat.
Proof.
  induction turns as [|[line|] turns IH]; [done| |].
  - change (omap id (Some line :: turns)) with (line :: omap id turns). simpl. lia.
  - change (omap id (None :: turns)) with (omap id turns). simpl. lia.
Qed.

Lemma omap_yields (strip : bool) (lines : list string) :
  omap line_of (yields X strip lines) = map (fun line => message X line strip) lines.
Proof.
  induction lines as [|l lines IH]; [done|].
  change (omap line_of (yields X strip (l :: lines)))
    with (message X l strip :: omap line_of (yields X strip lines)).
  by rewrite IH.
Qed.

Lemma yielded_yields {A} (pre : list event) (strip : bool) (header : string)
    (lines : list string) (post_ : list event) (r : result A) :
  omap line_of pre = [] ->
  yielded (MkGen (pre ++ Yield header :: yields X strip lines ++ post_) r) =
    header :: map (fun line => message X line strip) lines ++ omap line_of post_.
Proof.
  intros Hpre. unfold yielded. cbn [trace]. rewrite omap_app, Hpre.
  change (omap line_of (Yield header :: yields X strip lines ++ post_))
    with (header :: omap line_of (yields X strip lines ++ post_)).
  by rewrite omap_app, omap_yields.
Qed.

(** C1, as the code has it.  For a push that reaches the commit lines,
    with [N] eligible commits (those whose line the iterator produces),
    [R] commits in the payload and a limit [L >= 0]: when [N <= L], and
    when [N = L + 1 = R], the header is followed by all [N] commit lines
    and nothing else; when [N = L + 1 < R], and when [N > L + 1], the
    header is followed by the first [L] commit lines and one truncation
    line that counts [R - L] more commits. *)
Theorem handle_push_line_limit hook json j (commits : list jvalue) pn tr summary
    (turns : list (option string)) :
  simplify_payload json = Ok j ->
  branch_unwanted X (config_or_empty hook) j = false ->
  Py.getitem json "commits" = Ok (JArr commits) ->
  commits ≠ [] ->
  project_name_of X json (default false (full_project_name (config_or_empty hook)))
    = Ok pn ->
  is_event_allowed X (Some (config_or_empty hook)) "push" JNull = true ->
  _create_push_summary X pn j (config_or_empty hook) = MkGen tr (Ok summary) ->
  map (commit_line X pn (config_or_empty hook)) commits = map Ok turns ->
  (0 <= line_limit_of (config_or_empty hook))%Z ->
  let L := line_limit_of (config_or_empty hook) in
  let strip := strip_of (config_or_empty hook) in
  let lines := omap id turns in
  let N := Z.of_nat (length lines) in
  let R := Z.of_nat (length commits) in
  let all_lines :=
    message X summary strip :: map (fun line => message X line strip) lines in
  let truncated :=
    message X summary strip
    :: map (fun line => message X line strip) (take (Z.to_nat L) lines)
    ++ [message X (truncation_line X pn R L) strip] in
  outcome (_handle_push X hook json) = Ok tt
  ∧ ((N <= L)%Z -> yielded (_handle_push X hook json) = all_lines)
  ∧ (N = (L + 1)%Z -> R = (L + 1)%Z -> yielded (_handle_push X hook json) = all_lines)
  ∧ (N = (L + 1)%Z -> R ≠ (L + 1)%Z -> yielded (_handle_push X hook json) = truncated)
  ∧ ((N > L + 1)%Z -> yielded (_handle_push X hook json) = truncated).
Proof.
  intros Hj Hb Hc Hne Hpn Hallowed Hsummary Hturns HL L strip lines N R all_lines truncated.
  pose proof (simplify_payload_original _ _ Hj) as Ho.
  pose proof (yielded_create_push_summary pn j (config_or_empty hook)) as Hquiet.
  rewrite Hsummary in Hquiet. unfold yielded in Hquiet; simpl in Hquiet.
  assert (Hfinal : _create_push_final_summary X pn j (config_or_empty hook)
                   = Ok (truncation_line X pn R L)).
  { apply create_push_final_summary_ok. by rewrite Ho. }
  assert (HNR : (N <= R)%Z).
  { subst N R lines. apply (f_equal length) in Hturns. rewrite !length_map in Hturns.
    rewrite Hturns. apply Nat2Z.inj_le, omap_id_length. }
  rewrite (handle_push_commits hook json j commits pn tr summary) by done.
  cbv zeta. rewrite Hturns.
  rewrite (emit_commit_lines_spec pn j (config_or_empty hook) _ L R _ turns 0 Hfinal)
    by (fold lines N; lia).
  fold lines N. change (0 + N)%Z with N.
  destruct (bool_decide _) eqn:Hd.
  - apply bool_decide_eq_true_1 in Hd. split; [done|].
    assert (yielded (MkGen (tr ++ Yield (message X summary strip)
                            :: yields X strip lines) (Ok tt))
            = all_lines) as Hall.
    { rewrite <- (app_nil_r (yields X strip lines)).
      rewrite yielded_yields by done. simpl. by rewrite app_nil_r. }
    repeat split; intros; first [exact Hall | lia].
  - apply bool_decide_eq_false_1 in Hd. split; [done|].
    assert (yielded (MkGen (tr ++ Yield (message X summary strip)
                            :: yields X strip (take (Z.to_nat (L - 0)) lines)
                            ++ [Yield (message X (truncation_line X pn R L) strip)])
                       (Ok tt))
            = truncated) as Htr.
    { rewrite yielded_yields by done. simpl.
      by replace (L - 0)%Z with L by lia. }
    repeat split; intros; first [exact Htr | lia].
Qed.

End Push.

(** With five distinct commits and the default limit of three the header
    is followed by three commit lines and the truncation line. *)
Lemma handle_push_line_limit_witness :
  line_limit_of (config_or_empty Sample.no_hook_config) = 3%Z
  ∧ outcome (_handle_push Sample.plain_world Sample.no_hook_config Sample.five_distinct)
    = Ok tt
  ∧ yielded (_handle_push Sample.plain_world Sample.no_hook_config Sample.five_distinct)
    = ["[r] carol pushed 5 commits to main [+5/-0/±10] https://github.com/o/r/compare/a...b";
       "[r] alice 1111111 - fix 1111111";
       "[r] alice 2222222 - fix 2222222";
       "[r] alice 3333333 - fix 3333333";
       "[r] ... and 2 more commits."].
Proof.
  split; [reflexivity|].
  edestruct (handle_push_line_limit Sample.plain_world Sample.no_hook_config
               Sample.five_distinct)
    as (Hout & _ & _ & _ & Hmore).
  - vm_compute. reflexivity.
  - reflexivity.
  - vm_compute. reflexivity.
  - discriminate.
  - vm_compute. reflexivity.
  - reflexivity.
  - vm_compute. reflexivity.
  - instantiate (1 := [Some "[r] alice 1111111 - fix 1111111";
                       Some "[r] alice 2222222 - fix 2222222";
                       Some "[r] alice 3333333 - fix 3333333";
                       Some "[r] alice 4444444 - fix 4444444";
                       Some "[r] alice 5555555 - fix 5555555"]).
    vm_compute. reflexivity.
  - vm_compute. discriminate.
  - split; [exact Hout|]. apply Hmore. vm_compute. reflexivity.
Defined.

(** The claim as the specification states it fails when a commit is
    skipped: four eligible commits out of five, with the limit of three,
    are not all shown. *)
Lemma handle_push_line_limit_counterexample :
  map (commit_line Sample.plain_world (JStr "r") empty_config)
      [Sample.commit "1111111" true Sample.alice; Sample.commit "2222222" true Sample.alice;
       Sample.commit "3333333" true Sample.alice; Sample.commit "4444444" true Sample.alice;
       Sample.commit "5555555" false Sample.alice]
  = map Ok [Some "[r] alice 1111111 - fix 1111111";
            Some "[r] alice 2222222 - fix 2222222";
            Some "[r] alice 3333333 - fix 3333333";
            Some "[r] alice 4444444 - fix 4444444";
            None]
  ∧ yielded (_handle_push Sample.plain_world Sample.no_hook_config Sample.four_of_five)
    = ["[r] carol pushed 5 commits to main [+5/-0/±10] https://github.com/o/r/compare/a...b";
       "[r] alice 1111111 - fix 1111111";
       "[r] alice 2222222 - fix 2222222";
       "[r] alice 3333333 - fix 3333333";
       "[r] ... and 2 more commits."]
  ∧ yielded (_handle_push Sample.plain_world Sample.no_hook_config Sample.four_of_five)
    ≠ ["[r] carol pushed 5 commits to main [+5/-0/±10] https://github.com/o/r/compare/a...b";
       "[r] alice 1111111 - fix 1111111";
       "[r] alice 2222222 - fix 2222222";
       "[r] alice 3333333 - fix 3333333";
       "[r] alice 4444444 - fix 4444444"].
Proof.
  split; [vm_compute; reflexivity|].
  split; [vm_compute; reflexivity|].
  vm_compute. discriminate.
Qed.

(** *** The branch filter *)

Section BranchFilter.

Variable X : Externals.

(** The loop over the commit lines does not read the branch filter. *)
Lemma emit_commit_lines_without_branches pn j (c : Config) strip L R i
    (line_iterator : list (result (option string))) :
  emit_commit_lines X pn j (without_branches c) strip L R i line_iterator
  = emit_commit_lines X pn j c strip L R i line_iterator.
Proof.
  revert i. induction line_iterator as [|[[line|]|e] rest IH]; intros i; simpl.
  - reflexivity.
  - destruct (_ || _); [reflexivity|]. apply gen_bind_ext. intros _. apply IH.
  - apply IH.
  - reflexivity.
Qed.

(** C5, as the code has it.  With a non-empty [branches] option: a push
    whose branch is set and not empty, and whose lowercased name is not
    among the trimmed, lowercased configured names, produces nothing (no
    line, no outside call, no error); a push whose branch is among them is
    handled as if there were no branch filter. *)
Theorem handle_push_branch_filter (hook : Hook) (json : jvalue) (j : Simplified)
    (bs b : string) :
  branches (config_or_empty hook) = Some bs ->
  bs ≠ "" ->
  simplify_payload json = Ok j ->
  branch j = Some b ->
  (b ≠ "" -> py_lower X b ∉ branch_names X bs ->
   _handle_push X hook json = MkGen [] (Ok tt))
  ∧ (py_lower X b ∈ branch_names X bs ->
     _handle_push X hook json
     = _handle_push X {| config := Some (without_branches (config_or_empty hook)) |} json).
Proof.
  intros Hbs Hne Hj Hb.
  assert (String.eqb bs "" = false) as Hbs' by by apply String.eqb_neq.
  split.
  - intros Hb' Hnotin. unfold _handle_push. rewrite Hj, lift_ok_bind. cbv zeta.
    unfold branch_unwanted. rewrite Hbs, Hbs', Hb. cbn [Py.truthy_opt str_opt default].
    apply String.eqb_neq in Hb'. rewrite Hb'.
    rewrite bool_decide_eq_false_2 by done. reflexivity.
  - intros Hin. unfold _handle_push. rewrite Hj, !lift_ok_bind. cbv zeta.
    assert (branch_unwanted X (config_or_empty hook) j = false) as ->.
    { unfold branch_unwanted. rewrite Hbs, Hbs', Hb. cbn [str_opt default].
      rewrite bool_decide_eq_true_2 by done. by rewrite andb_false_r. }
    change (branch_unwanted X
              (config_or_empty {| config := Some (without_branches (config_or_empty hook)) |})
              j) with false.
    (* everything after the filter reads the other options only *)
    apply gen_bind_ext. intros commits.
    destruct (negb (Py.truthy commits)); [reflexivity|].
    apply gen_bind_ext. intros pn.
    match goal with |- (if ?a then _ else _) = (if ?b then _ else _) =>
      change a with b; destruct b; [reflexivity|] end.
    apply gen_bind_ext. intros summary.
    apply gen_bind_ext. intros _.
    apply gen_bind_ext. intros num_commits.
    apply gen_bind_ext. intros line_iterator.
    symmetry.
    exact (emit_commit_lines_without_branches pn j (config_or_empty hook) _ _ _ _ _).
Qed.

End BranchFilter.

Lemma handle_push_branch_filter_witness :
  ((py_lower Sample.plain_world "feature" ∉ branch_names Sample.plain_world "master, dev")
   ∧ _handle_push Sample.plain_world Sample.master_dev_hook
       (Sample.one_commit "refs/heads/feature") = MkGen [] (Ok tt))
  ∧ ((py_lower Sample.plain_world "Master" ∈ branch_names Sample.plain_world "master, dev")
     ∧ _handle_push Sample.plain_world Sample.master_dev_hook
         (Sample.one_commit "refs/heads/Master")
       = _handle_push Sample.plain_world
           {| config := Some (without_branches Sample.only_master) |}
           (Sample.one_commit "refs/heads/Master")).
Proof.
  split.
  - assert (py_lower Sample.plain_world "feature" ∉ branch_names Sample.plain_world "master, dev") as Hnotin
      by not_among.
    split; [exact Hnotin|].
    edestruct (handle_push_branch_filter Sample.plain_world Sample.master_dev_hook
                 (Sample.one_commit "refs/heads/feature")
                 (Sample.simplified (Sample.one_commit "refs/heads/feature"))
                 "master, dev" "feature")
      as [Hdrop _]; [reflexivity | discriminate | vm_compute; reflexivity | reflexivity |].
    apply Hdrop; [discriminate | exact Hnotin].
  - assert (py_lower Sample.plain_world "Master" ∈ branch_names Sample.plain_world "master, dev") as Hin.
    { vm_compute. apply elem_of_cons. by left. }
    split; [exact Hin|].
    edestruct (handle_push_branch_filter Sample.plain_world Sample.master_dev_hook
                 (Sample.one_commit "refs/heads/Master")
                 (Sample.simplified (Sample.one_commit "refs/heads/Master"))
                 "master, dev" "Master")
      as [_ Hkeep]; [reflexivity | discriminate | vm_compute; reflexivity | reflexivity |].
    apply Hkeep. exact Hin.
Defined.

(** A branch that is set to the empty name is let through by the filter
    although the name is not among the configured ones. *)
Lemma handle_push_branch_filter_counterexample :
  (∃ j, simplify_payload (Sample.one_commit "refs/heads/") = Ok j ∧ branch j = Some "")
  ∧ (py_lower Sample.plain_world "" ∉ branch_names Sample.plain_world "master, dev")
  ∧ yielded (_handle_push Sample.plain_world Sample.master_dev_hook
               (Sample.one_commit "refs/heads/"))
    = ["[r] carol pushed 1 commit [+1/-0/±2] https://github.com/o/r/compare/a...b";
       "[r] alice 1111111 - fix 1111111"]
  ∧ yielded (_handle_push Sample.plain_world Sample.master_dev_hook
               (Sample.one_commit "refs/heads/")) ≠ [].
Proof.
  split; [eexists; split; [vm_compute; reflexivity | reflexivity]|].
  split; [not_among|].
  split; [vm_compute; reflexivity|].
  vm_compute. discriminate.
Qed.

(** *** Pushes without commits *)

Section NonCommit.

Variable X : Externals.

Lemma simplify_payload_exclusive (payload : jvalue) (j : Simplified) :
  simplify_payload payload = Ok j -> branch j = None ∨ tag j = None.
Proof.
  unfold simplify_payload. intros H.
  apply result_bind_ok in H as (ref & _ & H).
  apply result_bind_ok in H as (base_ref & _ & H).
  apply result_bind_ok in H as (found & _ & H).
  repeat (apply result_bind_ok in H as (? & _ & H)).
  injection H as <-. simpl. destruct found as [[[] name]|]; auto.
Qed.

(** The summary of a push without commits whose gate rejects the event. *)
Lemma create_non_commit_summary_tag_rejected j (c : Config) pn head_commit :
  project_name_of X (original j) (default false (full_project_name c)) = Ok pn ->
  Py.truthy_opt (tag j) = true ->
  Py.get (original j) "head_commit" JNull = Ok head_commit ->
  is_event_allowed X (Some c) (if Py.truthy head_commit then "create" else "delete")
    (JStr "tag") = false ->
  _create_non_commit_summary X j c = MkGen [] (Ok "").
Proof.
  intros Hpn Htag Hhead Hgate. unfold _create_non_commit_summary.
  rewrite Hpn, lift_ok_bind. cbv zeta. rewrite Htag, Hhead, lift_ok_bind.
  destruct (Py.truthy head_commit); cbn [negb]; rewrite Hgate; cbn [negb];
    by rewrite mret_bind.
Qed.

Lemma create_non_commit_summary_branch_rejected j (c : Config) pn deleted :
  project_name_of X (original j) (default false (full_project_name c)) = Ok pn ->
  Py.truthy_opt (tag j) = false ->
  Py.truthy_opt (branch j) = true ->
  Py.getitem (original j) "deleted" = Ok deleted ->
  is_event_allowed X (Some c) (if Py.truthy deleted then "delete" else "create")
    (JStr "branch") = false ->
  _create_non_commit_summary X j c = MkGen [] (Ok "").
Proof.
  intros Hpn Htag Hbranch Hdeleted Hgate. unfold _create_non_commit_summary.
  rewrite Hpn, lift_ok_bind. cbv zeta. rewrite Htag, Hbranch, Hdeleted, lift_ok_bind.
  destruct (Py.truthy deleted); rewrite Hgate; cbn [negb]; by rewrite mret_bind.
Qed.

(** C7, as the code has it.  For a push without commits that is
    normalised and passes the branch filter, and whose repository name can
    be read: when it is about a tag, tags are shown ([show_tags] on, the
    default), and the gate (create/tag with a head commit, delete/tag
    without) rejects the event, or when it is about a branch whose payload
    has the [deleted] member and the gate (delete/branch when the payload
    says deleted, else create/branch) rejects the event, the summary builder
    returns the empty string without any outside call, and the handler
    yields exactly one line, [message] of the empty string.  When it is
    about a tag and [show_tags] is off, the handler does not call the
    builder and yields nothing, whatever the gate says. *)
Theorem non_commit_gate_rejected (hook : Hook) (json : jvalue) (j : Simplified)
    (commits : jvalue) :
  simplify_payload json = Ok j ->
  branch_unwanted X (config_or_empty hook) j = false ->
  Py.getitem json "commits" = Ok commits ->
  Py.truthy commits = false ->
  (∀ pn head_commit,
     project_name_of X json (default false (full_project_name (config_or_empty hook)))
       = Ok pn ->
     Py.truthy_opt (tag j) = true ->
     default true (show_tags (config_or_empty hook)) = true ->
     Py.get json "head_commit" JNull = Ok head_commit ->
     is_event_allowed X (Some (config_or_empty hook))
       (if Py.truthy head_commit then "create" else "delete") (JStr "tag") = false ->
     _create_non_commit_summary X j (config_or_empty hook) = MkGen [] (Ok "")
     ∧ _handle_push X hook json
       = MkGen [Yield (message X "" (strip_of (config_or_empty hook)))] (Ok tt))
  ∧ (∀ pn deleted,
       project_name_of X json (default false (full_project_name (config_or_empty hook)))
         = Ok pn ->
       Py.truthy_opt (branch j) = true ->
       Py.getitem json "deleted" = Ok deleted ->
       is_event_allowed X (Some (config_or_empty hook))
         (if Py.truthy deleted then "delete" else "create") (JStr "branch") = false ->
       _create_non_commit_summary X j (config_or_empty hook) = MkGen [] (Ok "")
       ∧ _handle_push X hook json
         = MkGen [Yield (message X "" (strip_of (config_or_empty hook)))] (Ok tt))
  ∧ (Py.truthy_opt (tag j) = true ->
     default true (show_tags (config_or_empty hook)) = false ->
     _handle_push X hook json = MkGen [] (Ok tt)).
Proof.
  intros Hj Hfilter Hcommits Hempty.
  pose proof (simplify_payload_original _ _ Hj) as Ho.
  pose proof (simplify_payload_exclusive _ _ Hj) as Hex.
  split; [|split].
  - intros pn head_commit Hpn Htag Hshow Hhead Hgate.
    assert (Hsum : _create_non_commit_summary X j (config_or_empty hook) = MkGen [] (Ok "")).
    { apply (create_non_commit_summary_tag_rejected j _ pn head_commit);
        by rewrite ?Ho. }
    split; [exact Hsum|].
    assert (branch j = None) as Hb.
    { destruct Hex as [Hb|Ht]; [done|]. by rewrite Ht in Htag. }
    unfold _handle_push. rewrite Hj, lift_ok_bind. cbv zeta.
    rewrite Hfilter, Ho, Hcommits, lift_ok_bind, Hempty. cbn [negb].
    rewrite Hshow, Htag, Hsum, Hb. reflexivity.
  - intros pn deleted Hpn Hbranch Hdeleted Hgate.
    assert (tag j = None) as Ht.
    { destruct Hex as [Hb|Ht]; [|done]. by rewrite Hb in Hbranch. }
    assert (Hsum : _create_non_commit_summary X j (config_or_empty hook) = MkGen [] (Ok "")).
    { apply (create_non_commit_summary_branch_rejected j _ pn deleted);
        rewrite ?Ho, ?Ht; done. }
    split; [exact Hsum|].
    unfold _handle_push. rewrite Hj, lift_ok_bind. cbv zeta.
    rewrite Hfilter, Ho, Hcommits, lift_ok_bind, Hempty. cbn [negb].
    rewrite Ht, Hbranch, Hsum. cbn [Py.truthy_opt]. rewrite andb_false_r.
    reflexivity.
  - intros Htag Hshow.
    assert (branch j = None) as Hb.
    { destruct Hex as [Hb|Ht]; [done|]. by rewrite Ht in Htag. }
    unfold _handle_push. rewrite Hj, lift_ok_bind. cbv zeta.
    rewrite Hfilter, Ho, Hcommits, lift_ok_bind, Hempty. cbn [negb].
    rewrite Hshow, Hb. reflexivity.
Qed.

End NonCommit.

Lemma non_commit_gate_rejected_witness :
  (is_event_allowed Sample.plain_world (Some Sample.only_push) "delete" (JStr "tag") = false
   ∧ _handle_push Sample.plain_world Sample.only_push_hook Sample.tag_deleted
     = MkGen [Yield (message Sample.plain_world "" false)] (Ok tt))
  ∧ (is_event_allowed Sample.plain_world (Some Sample.only_push) "create" (JStr "branch")
     = false
     ∧ _handle_push Sample.plain_world Sample.only_push_hook Sample.branch_created
       = MkGen [Yield (message Sample.plain_world "" false)] (Ok tt))
  ∧ (is_event_allowed Sample.plain_world (Some Sample.only_push_no_tags) "delete"
       (JStr "tag") = false
     ∧ _handle_push Sample.plain_world Sample.only_push_no_tags_hook Sample.tag_deleted
       = MkGen [] (Ok tt)).
Proof.
  split; [|split].
  - split; [reflexivity|].
    edestruct (non_commit_gate_rejected Sample.plain_world Sample.only_push_hook
                 Sample.tag_deleted (Sample.simplified Sample.tag_deleted) (JArr []))
      as (Htag & _ & _);
      [vm_compute; reflexivity | reflexivity | reflexivity | reflexivity |].
    apply (Htag (JStr "r") JNull); reflexivity.
  - split; [reflexivity|].
    edestruct (non_commit_gate_rejected Sample.plain_world Sample.only_push_hook
                 Sample.branch_created (Sample.simplified Sample.branch_created)
                 (JArr []))
      as (_ & Hbranch & _);
      [vm_compute; reflexivity | reflexivity | reflexivity | reflexivity |].
    apply (Hbranch (JStr "r") (JBool false)); reflexivity.
  - split; [reflexivity|].
    edestruct (non_commit_gate_rejected Sample.plain_world Sample.only_push_no_tags_hook
                 Sample.tag_deleted (Sample.simplified Sample.tag_deleted) (JArr []))
      as (_ & _ & Hhidden);
      [vm_compute; reflexivity | reflexivity | reflexivity | reflexivity |].
    apply Hhidden; reflexivity.
Defined.

(** A created branch whose gate rejects the event: the builder returns the
    empty string and the handler still yields it as a line. *)
Lemma non_commit_gate_rejected_counterexample :
  is_event_allowed Sample.plain_world (Some Sample.only_push) "create" (JStr "branch")
  = false
  ∧ _create_non_commit_summary Sample.plain_world
      (Sample.simplified Sample.branch_created) Sample.only_push
    = MkGen [] (Ok "")
  ∧ yielded (_handle_push Sample.plain_world Sample.only_push_hook Sample.branch_created)
    = [""]
  ∧ yielded (_handle_push Sample.plain_world Sample.only_push_hook Sample.branch_created)
    ≠ [].
Proof.
  split; [reflexivity|]. split; [vm_compute; reflexivity|].
  split; [vm_compute; reflexivity|]. vm_compute. discriminate.
Qed.

(** *** The header of a push *)

Section Header.

Variable X : Externals.



End Header.


(** *** Commit lines *)

Section CommitLine.

Variable X : Externals.

(** The attribution is the first of the author's username, the author's
    name and the committer's name that is not [None]. *)
Lemma attribution_first_not_none (a c : list (string * jvalue)) :
  attribution true (JObj a) (JObj c)
  = Ok (first_not_none [dict_get a "username"; dict_get a "name"; dict_get c "name"]).
Proof.
  unfold attribution, dict_get. simpl.
  destruct (default JNull (Py.assoc "username" a)); simpl; try reflexivity.
  destruct (default JNull (Py.assoc "name" a)); simpl; try reflexivity.
  by destruct (default JNull (Py.assoc "name" c)).
Qed.

(** C6, as the code has it.  With [prefer_username] at its default, the
    line of a commit that is shown carries as attribution the first of the
    author's username, the author's name and the committer's name that is
    present and not null; the attribution clause is left out when there is
    no such value or when that value is empty (false). *)
Theorem commit_line_attribution (pn : jvalue) (config : Config) (commit : jvalue)
    (a c : list (string * jvalue)) (distinct sha : jvalue) (message_ : string) :
  default true (prefer_username config) = true ->
  Py.getitem commit "distinct" = Ok distinct ->
  Py.truthy distinct = true ->
  Py.get commit "author" (JObj []) = Ok (JObj a) ->
  Py.get commit "committer" (JObj []) = Ok (JObj c) ->
  Py.getitem commit "id" ≫= Py.slice_to 7 = Ok sha ->
  Py.getitem commit "message" = Ok (JStr message_) ->
  let who := first_not_none [dict_get a "username"; dict_get a "name"; dict_get c "name"] in
  let text :=
    if default false (title_only config)
    then hd message_ (PyStr.split PyStr.newline message_)
    else message_ in
  attribution true (JObj a) (JObj c) = Ok who
  ∧ commit_line X pn config commit = Ok (Some (commit_text X pn who sha text)).
Proof.
  intros Hprefer Hdistinct Hseen Hauthor Hcommitter Hsha Hmessage who text.
  split; [apply attribution_first_not_none|].
  unfold commit_line. cbv zeta.
  rewrite Hdistinct.
  assert ((if default true (distinct_only config)
           then Ok distinct ≫= fun d => Ok (negb (Py.truthy d))
           else Ok false) = Ok false) as ->.
  { destruct (default true (distinct_only config)); [|done].
    cbn [mbind result_bind]. by rewrite Hseen. }
  cbn [mbind result_bind]. rewrite Hcommitter, Hauthor. cbn [mbind result_bind].
  rewrite Hprefer, attribution_first_not_none. fold who.
  cbn [mbind result_bind].
  change (Py.getitem commit "id" ≫= Py.slice_to 7) with
    (mbind (M := result) (Py.slice_to 7) (Py.getitem commit "id")) in Hsha.
  destruct (Py.getitem commit "id") as [idv|e]; [|discriminate Hsha].
  cbn [mbind result_bind] in *. rewrite Hsha. cbn [mbind result_bind].
  rewrite Hmessage. cbn [mbind result_bind Py.str_self Py.join_item].
  unfold commit_text, text.
  destruct (default false (title_only config)), (Py.truthy who);
    cbn [mbind result_bind]; by rewrite <- ?app_assoc.
Qed.

End CommitLine.

Lemma commit_line_attribution_witness :
  commit_line Sample.plain_world (JStr "r") empty_config
    (Sample.commit "1111111" true
       (JObj [("name", JStr "Alice"); ("username", JNull)]))
  = Ok (Some "[r] Alice 1111111 - fix 1111111").
Proof.
  edestruct (commit_line_attribution Sample.plain_world (JStr "r") empty_config
               (Sample.commit "1111111" true
                  (JObj [("name", JStr "Alice"); ("username", JNull)]))
               [("name", JStr "Alice"); ("username", JNull)]
               [("name", JStr "Bob")] (JBool true) (JStr "1111111") "fix 1111111")
    as [_ Hline];
    [reflexivity | reflexivity | reflexivity | reflexivity | reflexivity | reflexivity
    | reflexivity |].
  exact Hline.
Defined.

(** An author whose username is the empty string and whose name is not:
    the name is not used and the line has no attribution. *)
Lemma commit_line_attribution_counterexample :
  Py.get Sample.nameless "username" JNull = Ok (JStr "")
  ∧ Py.get Sample.nameless "name" JNull = Ok (JStr "Alice")
  ∧ attribution true Sample.nameless (JObj [("name", JStr "Bob")])
    = Ok (JStr "")
  ∧ commit_line Sample.plain_world (JStr "r") empty_config
      (Sample.commit "1111111" true Sample.nameless)
    = Ok (Some "[r] 1111111 - fix 1111111")
  ∧ commit_line Sample.plain_world (JStr "r") empty_config
      (Sample.commit "1111111" true Sample.nameless)
    ≠ Ok (Some "[r] Alice 1111111 - fix 1111111").
Proof.
  repeat (split; [vm_compute; reflexivity|]). vm_compute. discriminate.
Qed.

(** *** Requests *)

Section Requests.

Variable X : Externals.

Lemma handle_request_decoded (request : Request) (hook : Hook) (payload : jvalue) :
  decoded X request = Some payload ->
  handle_request X request hook =
    match event_handler X (default "" (x_github_event request)) with
    | None => Ok None
    | Some handler => handler hook payload
    end.
Proof.
  unfold decoded, handle_request, get_json. intros Hd.
  destruct (bool_decide (content_type request = Some "application/json")).
  - by rewrite Hd.
  - destruct (form_payload request) as [text|]; [|discriminate Hd].
    simpl in Hd. by rewrite Hd.
Qed.

(** What [handle_request] does with a filtered event. *)
Lemma handle_request_filtered (request : Request) (hook : Hook) (payload : jvalue)
    (event category : string) (key : option string) :
  decoded X request = Some payload ->
  x_github_event request = Some event ->
  filter_of event = Some (category, key) ->
  ∃ f, handle_request X request hook = action_filter X category key f hook payload.
Proof.
  intros Hd Hevent Hf. rewrite (handle_request_decoded _ _ _ Hd), Hevent.
  cbn [default]. unfold filter_of in Hf. cbn [Py.assoc] in Hf.
  repeat match type of Hf with
         | context [String.eqb event ?l] =>
             destruct (String.eqb_spec event l) as [->|?];
             [injection Hf as <- <-; eexists; reflexivity|]
         end.
  discriminate Hf.
Qed.

(** C2, as the code has it.  A form-encoded request without a [payload]
    field, and a request whose payload can be decoded and whose event type
    is not in the table, give no output and no exception.  A [payload]
    field that is not JSON raises the parser's error, whatever the event.
    A decoded payload object that lacks the member the filter of its event
    reads raises [KeyError] at the call.  A decoded push without the
    [commits] key, which is normalised and passes the branch filter, raises
    [KeyError] when its lines are asked for, before any line; when the
    branch filter rejects it, there is no output and no exception. *)
Theorem handle_request_malformed (request : Request) (hook : Hook) :
  (content_type request ≠ Some "application/json" ->
   form_payload request = None ->
   run (handle_request X request hook) = ([], None))
  ∧ (∀ payload,
       decoded X request = Some payload ->
       event_handler X (default "" (x_github_event request)) = None ->
       run (handle_request X request hook) = ([], None))
  ∧ (∀ text,
       content_type request ≠ Some "application/json" ->
       form_payload request = Some text ->
       json_loads X text = None ->
       handle_request X request hook = Raise ValueError)
  ∧ (∀ m event category key,
       decoded X request = Some (JObj m) ->
       x_github_event request = Some event ->
       filter_of event = Some (category, Some key) ->
       Py.assoc key m = None ->
       handle_request X request hook = Raise KeyError)
  ∧ (∀ m j,
       decoded X request = Some (JObj m) ->
       x_github_event request = Some "push" ->
       simplify_payload (JObj m) = Ok j ->
       Py.assoc "commits" m = None ->
       (branch_unwanted X (config_or_empty hook) j = false ->
        run (handle_request X request hook) = ([], Some KeyError))
       ∧ (branch_unwanted X (config_or_empty hook) j = true ->
          run (handle_request X request hook) = ([], None))).
Proof.
  split; [|split; [|split; [|split]]].
  - intros Hct Hform. unfold handle_request.
    rewrite bool_decide_eq_false_2 by done. by rewrite Hform.
  - intros payload Hd Hunknown.
    by rewrite (handle_request_decoded _ _ _ Hd), Hunknown.
  - intros text Hct Hform Hbad. unfold handle_request.
    rewrite bool_decide_eq_false_2 by done. by rewrite Hform, Hbad.
  - intros m event category key Hd Hevent Hf Hkey.
    destruct (handle_request_filtered request hook (JObj m) event category (Some key)
                Hd Hevent Hf) as [f ->].
    unfold action_filter, Py.getitem. by rewrite Hkey.
  - intros m j Hd Hevent Hj Hcommits.
    rewrite (handle_request_decoded _ _ _ Hd), Hevent.
    change (event_handler X (default "" (Some "push"))) with (Some (plain (_handle_push X))).
    unfold plain, run, _handle_push. rewrite Hj, lift_ok_bind. cbv zeta. split.
    + intros Hfilter. rewrite Hfilter, (simplify_payload_original _ _ Hj).
      unfold Py.getitem. by rewrite Hcommits.
    + intros Hfilter. by rewrite Hfilter.
Qed.

End Requests.

Lemma handle_request_malformed_witness :
  run (handle_request Sample.plain_world (Sample.form_request "push" None)
         Sample.no_hook_config) = ([], None)
  ∧ run (handle_request Sample.plain_world (Sample.json_request "star")
           Sample.no_hook_config) = ([], None)
  ∧ handle_request Sample.plain_world (Sample.form_request "star" (Some "{"))
      Sample.no_hook_config = Raise ValueError
  ∧ handle_request Sample.plain_world (Sample.json_request "issues")
      Sample.no_hook_config = Raise KeyError
  ∧ handle_request Sample.plain_world (Sample.json_request "status")
      Sample.no_hook_config = Raise KeyError
  ∧ run (handle_request Sample.plain_world (Sample.json_request "push")
           Sample.no_hook_config) = ([], Some KeyError)
  ∧ run (handle_request Sample.bare_world Sample.bare_push_request
           Sample.master_dev_hook) = ([], None).
Proof.
  split; [|split; [|split; [|split; [|split; [|split]]]]].
  - apply (handle_request_malformed Sample.plain_world (Sample.form_request "push" None));
      [discriminate | reflexivity].
  - apply (handle_request_malformed Sample.plain_world (Sample.json_request "star")
             Sample.no_hook_config) with (payload := JObj []); reflexivity.
  - apply (handle_request_malformed Sample.plain_world
             (Sample.form_request "star" (Some "{")) Sample.no_hook_config)
      with (text := "{"); [discriminate | reflexivity | reflexivity].
  - apply (handle_request_malformed Sample.plain_world (Sample.json_request "issues")
             Sample.no_hook_config)
      with (m := []) (event := "issues") (category := "issue") (key := "action");
      reflexivity.
  - apply (handle_request_malformed Sample.plain_world (Sample.json_request "status")
             Sample.no_hook_config)
      with (m := []) (event := "status") (category := "status") (key := "state");
      reflexivity.
  - destruct (handle_request_malformed Sample.plain_world (Sample.json_request "push")
                Sample.no_hook_config) as (_ & _ & _ & _ & Hpush).
    destruct (Hpush [] (Sample.simplified (JObj []))) as [Hraise _];
      [reflexivity | reflexivity | reflexivity | reflexivity |].
    apply Hraise. reflexivity.
  - destruct (handle_request_malformed Sample.bare_world Sample.bare_push_request
                Sample.master_dev_hook) as (_ & _ & _ & _ & Hpush).
    destruct (Hpush [("ref", JStr "refs/heads/feature")]
                (Sample.simplified Sample.bare_push)) as [_ Hquiet];
      [reflexivity | reflexivity | vm_compute; reflexivity | reflexivity |].
    apply Hquiet. reflexivity.
Defined.

(** An issues event without its [action] key and a push without its
    [commits] key raise [KeyError] to the caller; a form field that the
    parser rejects raises its error. *)
Lemma handle_request_malformed_counterexample :
  json_loads Sample.plain_world "{}" = Some (JObj [])
  ∧ run (handle_request Sample.plain_world (Sample.json_request "issues")
           Sample.no_hook_config) = ([], Some KeyError)
  ∧ run (handle_request Sample.plain_world (Sample.json_request "push")
           Sample.no_hook_config) = ([], Some KeyError)
  ∧ json_loads Sample.plain_world "{" = None
  ∧ run (handle_request Sample.plain_world (Sample.form_request "push" (Some "{"))
           Sample.no_hook_config) = ([], Some ValueError)
  ∧ run (handle_request Sample.plain_world (Sample.json_request "issues")
           Sample.no_hook_config) ≠ ([], None).
Proof.
  repeat (split; [vm_compute; reflexivity|]). vm_compute. discriminate.
Qed.

(** ** Further properties *)

(** *** Payload normalisation: pusher, files, errors *)

(** [simplify_payload] on a well-formed payload, in closed form. *)
Lemma simplify_payload_closed (m : list (string * jvalue)) :
  well_formed_push (JObj m) = true ->
  ∃ found commits pusher_,
    first_ref_match (refs_of m) = Ok found
    ∧ default (JArr []) (Py.assoc "commits" m) = JArr commits
    ∧ pusher_ = match Py.assoc "pusher" m with
                | Some (JObj pm) =>
                    if Py.eq_str (dict_get pm "name") "none"
                    then JStr "A deploy key" else dict_get pm "name"
                | _ => JNull
                end
    ∧ simplify_payload (JObj m) =
        Ok {| branch := match found with Some (Re.heads, name) => Some name | _ => None end;
              tag := match found with Some (Re.tags, name) => Some name | _ => None end;
              pusher := pusher_;
              files := {| files_all := concat (map files_of commits);
                          files_added := concat (map (file_list "added") commits);
                          files_removed := concat (map (file_list "removed") commits);
                          files_modified := concat (map (file_list "modified") commits) |};
              original := JObj m |}.
Proof.
  intros Hwf. unfold well_formed_push in Hwf.
  apply andb_prop in Hwf as [Hwf Hcommits]. apply andb_prop in Hwf as [Href Hpusher].
  unfold simplify_payload, Py.get, refs_of.
  destruct (default (JArr []) (Py.assoc "commits" m)) as [| | | |commits|] eqn:Ec;
    try discriminate Hcommits.
  assert (∃ found,
    first_ref_match [default (JStr "") (Py.assoc "ref" m);
                     default (JStr "") (Py.assoc "base_ref" m)] = Ok found)
    as [found Hfound].
  { destruct (default (JStr "") (Py.assoc "ref" m)) as [| | |ref| |];
      try discriminate Href; simpl.
    destruct (Re.ref_r_match ref) as [hit|]; [by eexists|].
    destruct (default (JStr "") (Py.assoc "base_ref" m)) as [| | |base| |];
      try discriminate Href; simpl.
    destruct (Re.ref_r_match base); by eexists. }
  exists found, commits.
  cbn [mbind result_bind]. rewrite Hfound. cbn [Py.iter].
  destruct (Py.assoc "pusher" m) as [[| | | | |p]|]; try discriminate Hpusher;
    cbn [mbind result_bind];
    rewrite (summarize_files_spec commits _ Hcommits);
    eexists; repeat split; reflexivity.
Qed.

(** X1. On a well-formed push payload the normalised pusher is unset when
    the payload has no pusher, the placeholder when the pusher's name is the
    string none, and the pusher's name otherwise; it is never the string
    none. *)
Theorem simplify_payload_pusher (m : list (string * jvalue)) :
  well_formed_push (JObj m) = true ->
  ∃ j, simplify_payload (JObj m) = Ok j
       ∧ (Py.assoc "pusher" m = None -> pusher j = JNull)
       ∧ (∀ pm, Py.assoc "pusher" m = Some (JObj pm) ->
                dict_get pm "name" = JStr "none" -> pusher j = JStr "A deploy key")
       ∧ (∀ pm, Py.assoc "pusher" m = Some (JObj pm) ->
                dict_get pm "name" ≠ JStr "none" -> pusher j = dict_get pm "name")
       ∧ pusher j ≠ JStr "none".
Proof.
  intros Hwf.
  destruct (simplify_payload_closed m Hwf) as (found & commits & p & _ & _ & Hp & Hj).
  eexists. split; [exact Hj|]. cbn [pusher]. subst p.
  repeat split.
  - by intros ->.
  - intros pm -> ->. reflexivity.
  - intros pm -> Hname.
    destruct (dict_get pm "name") as [| | |s| |]; try reflexivity.
    cbn [Py.eq_str]. destruct (String.eqb_spec s "none") as [->|]; done.
  - destruct (Py.assoc "pusher" m) as [[| | | | |pm]|]; try discriminate.
    destruct (dict_get pm "name") as [| | |s| |]; try discriminate.
    cbn [Py.eq_str]. destruct (String.eqb_spec s "none") as [->|Hne]; [discriminate|].
    intros [= ->]. done.
Qed.

(** X2. A payload whose [pusher] member is present but is not an object
    (null, for one) makes [simplify_payload] raise [AttributeError], once
    the refs have been looked at without error. *)
Theorem simplify_payload_null_pusher (m : list (string * jvalue))
    (p : jvalue) (found : option (Re.ref_kind * string)) :
  first_ref_match (refs_of m) = Ok found ->
  Py.assoc "pusher" m = Some p ->
  Py.get p "name" JNull = Raise AttributeError ->
  simplify_payload (JObj m) = Raise AttributeError.
Proof.
  intros Hfound Hp Hget. unfold simplify_payload, Py.get in *.
  cbn [mbind result_bind]. unfold refs_of in Hfound. rewrite Hfound.
  cbn [mbind result_bind]. rewrite Hp, Hget. reflexivity.
Qed.


(** X4. When [ref] is a string that names neither a branch nor a tag and
    [base_ref] is not a string (GitHub sends null), [simplify_payload]
    raises [TypeError]. *)
Theorem simplify_payload_base_ref_not_string (m : list (string * jvalue))
    (ref : string) :
  default (JStr "") (Py.assoc "ref" m) = JStr ref ->
  Re.ref_r_match ref = None ->
  is_str (default (JStr "") (Py.assoc "base_ref" m)) = false ->
  simplify_payload (JObj m) = Raise TypeError.
Proof.
  intros Href Hno Hbase. unfold simplify_payload, Py.get.
  cbn [mbind result_bind]. rewrite Href. cbn [first_ref_match Py.re_subject mbind result_bind].
  rewrite Hno.
  destruct (default (JStr "") (Py.assoc "base_ref" m)); try discriminate Hbase;
    reflexivity.
Qed.

Lemma simplify_payload_pusher_witness :
  well_formed_push (JObj Fixture.deploy_key_push) = true
  ∧ ∃ j, simplify_payload (JObj Fixture.deploy_key_push) = Ok j
         ∧ pusher j = JStr "A deploy key" ∧ pusher j ≠ JStr "none".
Proof.
  split; [reflexivity|].
  destruct (simplify_payload_pusher Fixture.deploy_key_push eq_refl)
    as (j & Hj & _ & Hkey & _ & Hnever).
  exists j. split; [exact Hj|]. split; [|exact Hnever].
  apply (Hkey [("name", JStr "none")]); reflexivity.
Defined.

Lemma simplify_payload_null_pusher_witness :
  Py.assoc "pusher" Fixture.null_pusher_push = Some JNull
  ∧ simplify_payload (JObj Fixture.null_pusher_push) = Raise AttributeError.
Proof.
  split; [reflexivity|].
  apply (simplify_payload_null_pusher Fixture.null_pusher_push JNull
           (Some (Re.heads, "main"))); reflexivity.
Defined.


Lemma simplify_payload_base_ref_not_string_witness :
  Re.ref_r_match "refs/notes/commits" = None
  ∧ simplify_payload (JObj Fixture.odd_ref_push) = Raise TypeError.
Proof.
  split; [reflexivity|].
  apply (simplify_payload_base_ref_not_string Fixture.odd_ref_push "refs/notes/commits");
    reflexivity.
Defined.

(** *** Link shortening: failures and calls *)

Section ShortenMore.

Variable X : Externals.

(** X5. When the request to git.io fails, [shorten] gives the URL back
    after that one request and raises nothing; sentry is told only of a
    failure that is neither a connection error nor a timeout, and only when
    its client is set. *)
Theorem shorten_fails_open (url : string) :
  Re.search_git_io url = false ->
  (post X url = ConnectionError ∨ post X url = Timeout ->
   shorten X (JStr url) = MkGen [Post url] (Ok url))
  ∧ (post X url = OtherException ->
     shorten X (JStr url)
     = MkGen (Post url :: if sentry_client X then [Capture] else []) (Ok url)).
Proof.
  intros Hm. rewrite (shorten_posts X url Hm). split.
  - intros [-> | ->]; reflexivity.
  - intros ->. by destruct (sentry_client X).
Qed.

Lemma header_values_none (name : string) (headers : list (string * string)) :
  Forall (fun kv => py_lower X (fst kv) ≠ py_lower X name) headers ->
  header_values X name headers = [].
Proof.
  induction 1 as [|[k v] headers Hk _ IH]; [done|]. cbn [header_values].
  cbn [fst] in Hk. by apply String.eqb_neq in Hk as ->.
Qed.

Lemma header_values_found (name : string) (pre rest : list (string * string))
    (k v : string) :
  Forall (fun kv => py_lower X (fst kv) ≠ py_lower X name) pre ->
  py_lower X k = py_lower X name ->
  header_values X name (pre ++ (k, v) :: rest) = v :: header_values X name rest.
Proof.
  intros Hpre Hk. induction Hpre as [|[k' v'] pre Hk' _ IH]; cbn [header_values app].
  - by apply String.eqb_eq in Hk as ->.
  - cbn [fst] in Hk'. by apply String.eqb_neq in Hk' as ->.
Qed.

Lemma header_missing (name : string) (headers : list (string * string)) :
  Forall (fun kv => py_lower X (fst kv) ≠ py_lower X name) headers ->
  header X name headers = Raise KeyError.
Proof. intros Hno. unfold header. by rewrite (header_values_none name headers Hno). Qed.

Lemma header_found (name : string) (pre rest : list (string * string)) (k v : string) :
  Forall (fun kv => py_lower X (fst kv) ≠ py_lower X name) pre ->
  py_lower X k = py_lower X name ->
  header X name (pre ++ (k, v) :: rest)
  = Ok (PyStr.join ", " (v :: header_values X name rest)).
Proof.
  intros Hpre Hk. unfold header. by rewrite (header_values_found name pre rest k v Hpre Hk).
Qed.

(** X6. When git.io answers 201, [shorten] returns what the response has
    under the name Location, compared in any letter case: the value of the
    header when the answer has exactly one, and the values of all of them in
    the order received, joined by a comma and a space, when the header is
    repeated; when the answer has no such header it raises [KeyError]. *)
Theorem shorten_created (url : string) (headers : list (string * string)) :
  Re.search_git_io url = false ->
  post X url = Response 201 headers ->
  (no_location X headers -> shorten X (JStr url) = MkGen [Post url] (Raise KeyError))
  ∧ (∀ pre k v rest,
       headers = pre ++ (k, v) :: rest ->
       no_location X pre ->
       py_lower X k = py_lower X "Location" ->
       shorten X (JStr url)
       = MkGen [Post url] (Ok (PyStr.join ", " (v :: header_values X "Location" rest)))
       ∧ (no_location X rest -> shorten X (JStr url) = MkGen [Post url] (Ok v))).
Proof.
  intros Hm Hpost. rewrite (shorten_posts X url Hm), Hpost. cbn [Z.eqb Pos.eqb negb].
  split.
  - intros Hno. by rewrite (header_missing "Location" headers Hno).
  - intros pre k v rest -> Hpre Hk.
    rewrite (header_found "Location" pre rest k v Hpre Hk). split; [done|].
    intros Hrest. by rewrite (header_values_none "Location" rest Hrest).
Qed.

(** X7. [shorten] yields no line and makes one request, for the URL it is
    given, exactly when that URL is a string that is not a git.io one; a
    URL that is not a string raises [TypeError] before any request. *)
Theorem shorten_calls (url : jvalue) :
  yielded (shorten X url) = []
  ∧ posts (shorten X url)
    = match url with
      | JStr u => if Re.search_git_io u then [] else [u]
      | _ => []
      end
  ∧ (is_str url = false -> shorten X url = MkGen [] (Raise TypeError)).
Proof.
  split; [apply yielded_shorten|]. split.
  - destruct url as [| | |u| |]; try reflexivity.
    destruct (Re.search_git_io u) eqn:Hm.
    + by rewrite (shorten_already_short X u Hm).
    + rewrite (shorten_posts X u Hm).
      destruct (post X u) as [| | |status_code headers]; try reflexivity.
      * by destruct (sentry_client X).
      * destruct (negb (status_code =? 201)%Z); [reflexivity|].
        by destruct (header X "Location" headers).
  - by destruct url.
Qed.

End ShortenMore.

Lemma shorten_fails_open_witness :
  shorten Sample.plain_world (JStr "https://github.com/o/r")
  = MkGen [Post "https://github.com/o/r"] (Ok "https://github.com/o/r")
  ∧ shorten Fixture.broken_world (JStr "https://github.com/o/r")
    = MkGen [Post "https://github.com/o/r"; Capture] (Ok "https://github.com/o/r").
Proof.
  split.
  - destruct (shorten_fails_open Sample.plain_world "https://github.com/o/r" eq_refl)
      as [Hknown _].
    apply Hknown. left. reflexivity.
  - destruct (shorten_fails_open Fixture.broken_world "https://github.com/o/r" eq_refl)
      as [_ Hother].
    apply Hother. reflexivity.
Defined.

Lemma shorten_created_witness :
  shorten (Fixture.created_world [("Content-Type", "text/html")])
    (JStr "https://github.com/o/r")
  = MkGen [Post "https://github.com/o/r"] (Raise KeyError)
  ∧ shorten (Fixture.created_world [("Content-Type", "text/html");
                                    ("location", "https://git.io/x")])
      (JStr "https://github.com/o/r")
    = MkGen [Post "https://github.com/o/r"] (Ok "https://git.io/x")
  ∧ shorten (Fixture.created_world [("Location", "https://git.io/x");
                                    ("location", "https://git.io/y")])
      (JStr "https://github.com/o/r")
    = MkGen [Post "https://github.com/o/r"] (Ok "https://git.io/x, https://git.io/y").
Proof.
  split; [|split].
  - destruct (shorten_created (Fixture.created_world [("Content-Type", "text/html")])
                "https://github.com/o/r" [("Content-Type", "text/html")] eq_refl eq_refl)
      as [Hmissing _].
    apply Hmissing. repeat constructor. discriminate.
  - destruct (shorten_created
                (Fixture.created_world [("Content-Type", "text/html");
                                        ("location", "https://git.io/x")])
                "https://github.com/o/r"
                [("Content-Type", "text/html"); ("location", "https://git.io/x")]
                eq_refl eq_refl)
      as [_ Hfound].
    destruct (Hfound [("Content-Type", "text/html")] "location" "https://git.io/x" [])
      as [_ Hone]; [reflexivity | repeat constructor; discriminate | reflexivity |].
    apply Hone. constructor.
  - destruct (shorten_created
                (Fixture.created_world [("Location", "https://git.io/x");
                                        ("location", "https://git.io/y")])
                "https://github.com/o/r"
                [("Location", "https://git.io/x"); ("location", "https://git.io/y")]
                eq_refl eq_refl)
      as [_ Hfound].
    destruct (Hfound [] "Location" "https://git.io/x" [("location", "https://git.io/y")])
      as [Hall _]; [reflexivity | constructor | reflexivity |].
    exact Hall.
Defined.

Lemma shorten_calls_witness :
  is_str JNull = false
  ∧ shorten Sample.plain_world JNull = MkGen [] (Raise TypeError).
Proof.
  split; [reflexivity|].
  destruct (shorten_calls Sample.plain_world JNull) as (_ & _ & Hnot).
  apply Hnot. reflexivity.
Defined.

(** *** The push handler: gates, silence, pushes without commits *)

Lemma trace_bind {A B} (m : Gen A) (f : A -> Gen B) :
  trace (m ≫= f)
  = trace m ++ match outcome m with Ok a => trace (f a) | Raise _ => [] end.
Proof.
  unfold mbind, gen_bind. destruct (outcome m); [done|]. by rewrite app_nil_r.
Qed.

Lemma yielded_bind_app {A B} (m : Gen A) (f : A -> Gen B) :
  yielded (m ≫= f)
  = yielded m ++ match outcome m with Ok a => yielded (f a) | Raise _ => [] end.
Proof.
  unfold yielded. rewrite trace_bind, omap_app. by destruct (outcome m).
Qed.

(** Proves that a computation made of lookups, shortenings and tests
    yields no line. *)
Ltac quiet :=
  repeat match goal with
         | |- yielded (_ ≫= _) = [] => apply yielded_bind; [|intros ?]
         | |- yielded (shorten _ _) = [] => apply yielded_shorten
         | |- yielded (lift _) = [] => reflexivity
         | |- yielded (mret _) = [] => reflexivity
         | |- yielded (if ?b then _ else _) = [] => destruct b
         | |- yielded (match ?d with Some _ => _ | None => _ end) = [] => destruct d
         end.

Section PushMore.

Variable X : Externals.

Lemma yielded_create_non_commit_summary j (c : Config) :
  yielded (_create_non_commit_summary X j c) = [].
Proof. unfold _create_non_commit_summary. cbv zeta. quiet. Qed.

(** X8. A push with commits that is normalised and passes the branch
    filter, and whose repository name can be read, on a hook that does not
    whitelist pushes produces nothing at all: no line, no request to
    git.io, no exception. *)
Theorem handle_push_not_whitelisted (hook : Hook) (json : jvalue) (j : Simplified)
    (commits pn : jvalue) :
  simplify_payload json = Ok j ->
  branch_unwanted X (config_or_empty hook) j = false ->
  Py.getitem json "commits" = Ok commits ->
  Py.truthy commits = true ->
  project_name_of X json (default false (full_project_name (config_or_empty hook)))
    = Ok pn ->
  is_event_allowed X (Some (config_or_empty hook)) "push" JNull = false ->
  _handle_push X hook json = MkGen [] (Ok tt).
Proof.
  intros Hj Hfilter Hc Htrue Hpn Hgate.
  unfold _handle_push. rewrite Hj, lift_ok_bind. cbv zeta.
  rewrite Hfilter, (simplify_payload_original _ _ Hj), Hc, lift_ok_bind, Htrue.
  cbn [negb]. by rewrite Hpn, lift_ok_bind, Hgate.
Qed.

(** X9. A push without commits that is about no branch, and about no tag
    or about a tag while tags are not shown, produces nothing at all; the
    rest of the payload is not looked at. *)
Theorem handle_push_nothing_to_do (hook : Hook) (json : jvalue) (j : Simplified)
    (commits : jvalue) :
  simplify_payload json = Ok j ->
  branch_unwanted X (config_or_empty hook) j = false ->
  Py.getitem json "commits" = Ok commits ->
  Py.truthy commits = false ->
  default true (show_tags (config_or_empty hook)) && Py.truthy_opt (tag j) = false ->
  Py.truthy_opt (branch j) = false ->
  _handle_push X hook json = MkGen [] (Ok tt).
Proof.
  intros Hj Hfilter Hc Hfalse Htag Hbranch.
  unfold _handle_push. rewrite Hj, lift_ok_bind. cbv zeta.
  rewrite Hfilter, (simplify_payload_original _ _ Hj), Hc, lift_ok_bind, Hfalse.
  cbn [negb]. by rewrite Htag, Hbranch.
Qed.

(** The end of [_create_non_commit_summary]: the link to the head commit. *)
Lemma non_commit_link (original head_commit : jvalue) (line : list string)
    (k : option string -> string) :
  Py.getitem original "head_commit" = Ok head_commit ->
  (∀ link, k link = PyStr.join " " (line ++ match link with
                                            | Some l => [PINK X +:+ l +:+ RESET X]
                                            | None => []
                                            end)) ->
  (Py.truthy head_commit = false ->
   (head_commit ← lift (Py.getitem original "head_commit");
    if Py.truthy head_commit then
      link ← lift (Py.getitem head_commit "url") ≫= shorten X;
      mret (PyStr.join " " (line ++ [PINK X +:+ link +:+ RESET X]))
    else mret (PyStr.join " " line)) = MkGen [] (Ok (k None)))
  ∧ (Py.truthy head_commit = true ->
     ∀ url tr link,
       Py.getitem head_commit "url" = Ok url ->
       shorten X url = MkGen tr (Ok link) ->
       (head_commit ← lift (Py.getitem original "head_commit");
        if Py.truthy head_commit then
          link ← lift (Py.getitem head_commit "url") ≫= shorten X;
          mret (PyStr.join " " (line ++ [PINK X +:+ link +:+ RESET X]))
        else mret (PyStr.join " " line)) = MkGen tr (Ok (k (Some link)))).
Proof.
  intros Hhead Hk. rewrite Hhead, lift_ok_bind. split.
  - intros ->. by rewrite Hk, app_nil_r.
  - intros -> url tr link Hurl Hlink. rewrite Hurl, lift_ok_bind.
    rewrite (gen_bind_ok _ _ _ _ Hlink). cbn [trace outcome mret gen_ret].
    by rewrite app_nil_r, Hk.
Qed.

(** X10. The line for a branch created or deleted, when the gate lets it
    through: the name tag, the pusher when there is one, the words created
    branch or deleted branch (deleted when the payload says so), with a
    capital when there is no pusher, the branch, and the shortened link to
    the head commit when there is one; without a head commit no request is
    made. *)
Theorem non_commit_summary_branch_line (j : Simplified) (c : Config)
    (pn deleted head_commit : jvalue) (b : string) :
  project_name_of X (original j) (default false (full_project_name c)) = Ok pn ->
  Py.truthy_opt (tag j) = false ->
  branch j = Some b ->
  b ≠ "" ->
  Py.getitem (original j) "deleted" = Ok deleted ->
  is_event_allowed X (Some c) (if Py.truthy deleted then "delete" else "create")
    (JStr "branch") = true ->
  Py.getitem (original j) "head_commit" = Ok head_commit ->
  let words :=
    [match Py.truthy (pusher j), Py.truthy deleted with
     | true, true => "deleted branch"
     | true, false => "created branch"
     | false, true => "Deleted branch"
     | false, false => "Created branch"
     end;
     GREEN X +:+ b +:+ RESET X] in
  (Py.truthy head_commit = false ->
   _create_non_commit_summary X j c = MkGen [] (Ok (non_commit_text X pn j words None)))
  ∧ (Py.truthy head_commit = true ->
     ∀ url tr link,
       Py.getitem head_commit "url" = Ok url ->
       shorten X url = MkGen tr (Ok link) ->
       _create_non_commit_summary X j c
       = MkGen tr (Ok (non_commit_text X pn j words (Some link)))).
Proof.
  intros Hpn Htag Hb Hne Hdeleted Hgate Hhead words.
  unfold _create_non_commit_summary. rewrite Hpn, lift_ok_bind. cbv zeta.
  rewrite Htag, Hb. cbn [Py.truthy_opt str_opt default].
  apply String.eqb_neq in Hne. rewrite Hne. cbn [negb].
  rewrite Hdeleted, lift_ok_bind. unfold non_commit_text, words.
  destruct (Py.truthy deleted); rewrite Hgate; cbn [negb]; rewrite mret_bind;
    (eapply (non_commit_link (original j) head_commit _
               (fun link => PyStr.join " " (_ ++ _ ++ match link with
                                                    | Some l => [PINK X +:+ l +:+ RESET X]
                                                    | None => []
                                                    end))); [exact Hhead|]);
    intros link; destruct (Py.truthy (pusher j)); reflexivity.
Qed.


(** X12. A [branches] option that is not empty but holds only blanks and
    commas suppresses every push that has a branch. *)
Theorem handle_push_blank_branches (hook : Hook) (json : jvalue) (j : Simplified)
    (bs b : string) :
  branches (config_or_empty hook) = Some bs ->
  bs ≠ "" ->
  Forall (fun name => name = "") (branch_names X bs) ->
  simplify_payload json = Ok j ->
  branch j = Some b ->
  b ≠ "" ->
  _handle_push X hook json = MkGen [] (Ok tt).
Proof.
  intros Hbs Hne Hblank Hj Hb Hbne.
  assert (py_lower X b ∉ branch_names X bs) as Hnotin.
  { intros Hin. rewrite Forall_forall in Hblank.
    apply Hbne, (py_lower_nonempty X), Hblank, Hin. }
  unfold _handle_push. rewrite Hj, lift_ok_bind. cbv zeta.
  unfold branch_unwanted. rewrite Hbs, Hb. cbn [Py.truthy_opt str_opt default].
  apply String.eqb_neq in Hne, Hbne. rewrite Hne, Hbne.
  by rewrite bool_decide_eq_false_2.
Qed.

End PushMore.

Lemma handle_push_not_whitelisted_witness :
  is_event_allowed Sample.plain_world (Some (config_or_empty Fixture2.issues_only_hook))
    "push" JNull = false
  ∧ _handle_push Sample.plain_world Fixture2.issues_only_hook Sample.four_of_five
    = MkGen [] (Ok tt).
Proof.
  split; [reflexivity|].
  apply (handle_push_not_whitelisted Sample.plain_world Fixture2.issues_only_hook
           Sample.four_of_five (Sample.simplified Sample.four_of_five)
           (JArr [Sample.commit "1111111" true Sample.alice;
                  Sample.commit "2222222" true Sample.alice;
                  Sample.commit "3333333" true Sample.alice;
                  Sample.commit "4444444" true Sample.alice;
                  Sample.commit "5555555" false Sample.alice])
           (JStr "r"));
    [vm_compute; reflexivity | reflexivity | reflexivity | reflexivity | reflexivity
    | reflexivity].
Defined.

Lemma handle_push_nothing_to_do_witness :
  _handle_push Sample.plain_world Fixture2.no_tags_hook Sample.tag_deleted
  = MkGen [] (Ok tt).
Proof.
  apply (handle_push_nothing_to_do Sample.plain_world Fixture2.no_tags_hook
           Sample.tag_deleted (Sample.simplified Sample.tag_deleted) (JArr []));
    [vm_compute; reflexivity | reflexivity | reflexivity | reflexivity | reflexivity
    | reflexivity].
Defined.

Lemma non_commit_summary_branch_line_witness :
  _create_non_commit_summary Sample.plain_world
    (Sample.simplified Fixture2.branch_deleted) empty_config
  = MkGen [] (Ok "[r] Deleted branch old").
Proof.
  destruct (non_commit_summary_branch_line Sample.plain_world
              (Sample.simplified Fixture2.branch_deleted) empty_config
              (JStr "r") (JBool true) JNull "old")
    as [Hnone _];
    [reflexivity | reflexivity | reflexivity | discriminate | reflexivity | reflexivity
    | reflexivity |].
  apply Hnone. reflexivity.
Defined.


Lemma handle_push_blank_branches_witness :
  _handle_push Sample.plain_world Fixture2.blank_branches_hook
    (Sample.one_commit "refs/heads/main")
  = MkGen [] (Ok tt).
Proof.
  apply (handle_push_blank_branches Sample.plain_world Fixture2.blank_branches_hook
           (Sample.one_commit "refs/heads/main")
           (Sample.simplified (Sample.one_commit "refs/heads/main")) " , " "main");
    [reflexivity | discriminate | repeat constructor | vm_compute; reflexivity
    | reflexivity | discriminate].
Defined.

(** *** The push handler: how many lines, and through what *)

Section PushBound.

Variable X : Externals.
Variable strip : bool.

Lemma lines_via_quiet {A} (g : Gen A) (k : nat) :
  yielded g = [] -> lines_via X strip k g.
Proof. intros Hq. exists []. rewrite Hq. split; [done|simpl; lia]. Qed.

Lemma lines_via_mono {A} (g : Gen A) (k k' : nat) :
  (k <= k')%nat -> lines_via X strip k g -> lines_via X strip k' g.
Proof. intros Hk (texts & Hy & Hlen). exists texts. split; [done|lia]. Qed.

Lemma lines_via_yield (text : string) :
  lines_via X strip 1 (yield (message X text strip)).
Proof. exists [text]. split; [reflexivity|simpl; lia]. Qed.

Lemma lines_via_bind {A B} (m : Gen A) (f : A -> Gen B) (k1 k2 : nat) :
  lines_via X strip k1 m ->
  (∀ a, outcome m = Ok a -> lines_via X strip k2 (f a)) ->
  lines_via X strip (k1 + k2) (m ≫= f).
Proof.
  intros (t1 & Hy1 & Hl1) Hf. unfold lines_via. rewrite yielded_bind_app, Hy1.
  destruct (outcome m) as [a|e].
  - destruct (Hf a eq_refl) as (t2 & Hy2 & Hl2). exists (t1 ++ t2).
    rewrite Hy2, map_app, length_app. split; [done|lia].
  - exists t1. rewrite app_nil_r. split; [done|lia].
Qed.

Lemma lines_via_after {A B} (m : Gen A) (f : A -> Gen B) (k : nat) :
  yielded m = [] ->
  (∀ a, outcome m = Ok a -> lines_via X strip k (f a)) ->
  lines_via X strip k (m ≫= f).
Proof.
  intros Hq Hf. change k with (0 + k)%nat.
  apply lines_via_bind; [by apply lines_via_quiet|done].
Qed.

Lemma lines_in_map {A} (f : A -> result (option string)) (l : list A) :
  (lines_in (map f l) <= length l)%nat.
Proof.
  induction l as [|a l IH]; [done|]. cbn [map lines_in length].
  destruct (f a) as [[line|]|e]; lia.
Qed.

Lemma length_chars (s : string) : length (PyStr.chars s) = String.length s.
Proof. induction s as [|c s IH]; [done|]. cbn. by rewrite IH. Qed.

(** [len(v)] is the number of items [for x in v] goes through. *)
Lemma len_iter (v : jvalue) (n : Z) (items : list jvalue) :
  Py.len v = Ok n -> Py.iter v = Ok items -> n = Z.of_nat (length items).
Proof.
  destruct v; try discriminate; cbn; intros [= <-] [= <-];
    by rewrite ?length_fmap, ?length_chars.
Qed.

Lemma get_of_getitem (v x dflt : jvalue) (k : string) :
  Py.getitem v k = Ok x -> Py.get v k dflt = Ok x.
Proof.
  destruct v; try discriminate. cbn. by destruct (Py.assoc k members); [intros [= ->]|].
Qed.

(** The loop over the commit lines yields at most [L + 1 - i] lines. *)
Lemma emit_commit_lines_bound pn j (c : Config) (L R : Z)
    (turns : list (result (option string))) (i : Z) :
  (0 <= i)%Z ->
  (i <= L ∨ (i = L + 1 ∧ R = L + 1))%Z ->
  (i + Z.of_nat (lines_in turns) <= R)%Z ->
  lines_via X strip (Z.to_nat (L + 1 - i))
    (emit_commit_lines X pn j c strip L R i turns).
Proof.
  revert i. induction turns as [|[[line|]|e] turns IH]; intros i Hi Hinv HR.
  - by apply lines_via_quiet.
  - cbn [emit_commit_lines lines_in] in *.
    assert (i <= L)%Z as HiL by lia.
    destruct (Z.gtb_spec i L) as [?|_]; [lia|]. cbn [orb].
    destruct (Z.eqb_spec i L) as [->|Hne]; cbn [andb].
    + destruct (Z.eqb_spec R (L + 1)) as [HRL|HRL]; cbn [negb].
      * replace (Z.to_nat (L + 1 - L)) with (1 + 0)%nat by lia.
        apply lines_via_bind; [apply lines_via_yield|]. intros _ _.
        replace 0%nat with (Z.to_nat (L + 1 - (L + 1))) by lia.
        apply IH; lia.
      * replace (Z.to_nat (L + 1 - L)) with 1%nat by lia.
        apply lines_via_after; [reflexivity|]. intros final _. apply lines_via_yield.
    + replace (Z.to_nat (L + 1 - i)) with (1 + Z.to_nat (L + 1 - (i + 1)))%nat by lia.
      apply lines_via_bind; [apply lines_via_yield|]. intros _ _. apply IH; lia.
  - cbn [emit_commit_lines lines_in] in *. by apply IH.
  - by apply lines_via_quiet.
Qed.

End PushBound.

Section PushBoundMain.

Variable X : Externals.

(** X13. Whatever the payload, [_handle_push] with a line limit [L >= 0]
    yields at most [L + 2] lines (the header, at most [L + 1] commit
    lines, or [L] of them and the truncation line), also when it ends by an
    exception; and every line it yields is [message] of some text with
    [strip] set exactly when colours are turned off. *)
Theorem handle_push_bounded (hook : Hook) (json : jvalue) :
  (0 <= line_limit_of (config_or_empty hook))%Z ->
  ∃ texts,
    yielded (_handle_push X hook json)
    = map (fun text => message X text (strip_of (config_or_empty hook))) texts
    ∧ (Z.of_nat (length texts) <= line_limit_of (config_or_empty hook) + 2)%Z.
Proof.
  intros HL.
  set (L := line_limit_of (config_or_empty hook)) in *.
  set (strip := strip_of (config_or_empty hook)).
  enough (lines_via X strip (Z.to_nat (L + 2)) (_handle_push X hook json)) as Hvia.
  { destruct Hvia as (texts & Hy & Hlen). exists texts. split; [done|lia]. }
  unfold _handle_push.
  apply lines_via_after; [reflexivity|]. intros j _. cbv zeta.
  destruct (branch_unwanted X _ j); [by apply lines_via_quiet|].
  apply lines_via_after; [reflexivity|]. intros commits Hcommits.
  destruct (negb (Py.truthy commits)).
  - apply (lines_via_mono X strip _ (1 + 1)%nat); [lia|].
    apply lines_via_bind.
    + destruct (_ && _); [|by apply lines_via_quiet].
      apply lines_via_after; [apply yielded_create_non_commit_summary|].
      intros summary _. apply lines_via_yield.
    + intros _ _. destruct (Py.truthy_opt _); [|by apply lines_via_quiet].
      apply lines_via_after; [apply yielded_create_non_commit_summary|].
      intros summary _. apply lines_via_yield.
  - apply lines_via_after; [reflexivity|]. intros pn _.
    destruct (negb (is_event_allowed _ _ _ _)); [by apply lines_via_quiet|].
    apply lines_via_after; [apply yielded_create_push_summary|]. intros summary _.
    change (default 3%Z (line_limit (config_or_empty hook))) with L.
    change (negb (default true (use_colors (config_or_empty hook)))) with strip.
    replace (Z.to_nat (L + 2)) with (1 + Z.to_nat (L + 1 - 0))%nat by lia.
    apply lines_via_bind; [apply lines_via_yield|]. intros _ _.
    apply lines_via_after; [reflexivity|]. intros num_commits Hnum.
    apply lines_via_after; [reflexivity|]. intros turns Hturns.
    cbn [outcome lift] in Hcommits, Hnum, Hturns.
    rewrite (get_of_getitem _ _ _ _ Hcommits) in Hnum.
    unfold _create_commit_summary in Hturns. rewrite Hcommits in Hturns.
    cbn [mbind result_bind] in Hnum, Hturns.
    destruct (Py.iter commits) as [items|e] eqn:Hitems; [|discriminate Hturns].
    injection Hturns as <-.
    pose proof (len_iter commits num_commits items Hnum Hitems) as ->.
    apply emit_commit_lines_bound; [lia|lia|].
    pose proof (lines_in_map (commit_line X pn (config_or_empty hook)) items). lia.
Qed.

End PushBoundMain.

Lemma handle_push_bounded_witness :
  ∃ texts,
    yielded (_handle_push Sample.plain_world Sample.no_hook_config Sample.five_distinct)
    = map (fun text => message Sample.plain_world text false) texts
    ∧ (Z.of_nat (length texts) <= 3 + 2)%Z.
Proof.
  apply (handle_push_bounded Sample.plain_world Sample.no_hook_config
           Sample.five_distinct).
  vm_compute. discriminate.
Defined.

(** *** Commit lines: skipped commits and titles *)

Lemma split_not_nil (sep : ascii) (s : string) : PyStr.split sep s ≠ [].
Proof.
  destruct s as [|c s]; [done|]. cbn [PyStr.split].
  destruct (Ascii.eqb c sep); [done|]. by destruct (PyStr.split sep s).
Qed.

Lemma split_first_line (sep : ascii) (s : string) :
  ∃ first,
    hd s (PyStr.split sep s) = first
    ∧ PyStr.contains_char sep first = false
    ∧ (s = first ∨ ∃ rest, s = first +:+ String sep rest).
Proof.
  induction s as [|c s (first & Hhd & Hno & Hrest)].
  - exists "". split; [done|]. split; [done|]. by left.
  - cbn [PyStr.split]. destruct (Ascii.eqb_spec c sep) as [->|Hne].
    + exists "". split; [done|]. split; [done|]. right. by exists s.
    + pose proof (split_not_nil sep s) as Hnil.
      destruct (PyStr.split sep s) as [|w ws]; [done|].
      cbn [hd] in *. subst w. exists (String c first).
      split; [done|]. split.
      * cbn [PyStr.contains_char]. apply Ascii.eqb_neq in Hne.
        by rewrite Ascii.eqb_sym, Hne, Hno.
      * destruct Hrest as [-> | [rest ->]]; [by left|]. right. by exists rest.
Qed.

Section CommitLineMore.

Variable X : Externals.

(** The line of a commit that is shown and has what the line needs. *)
Lemma commit_line_shown (pn : jvalue) (config : Config) (commit : jvalue)
    (a c : list (string * jvalue)) (sha : jvalue) (message_ : string) :
  default true (prefer_username config) = true ->
  (default true (distinct_only config) = true ->
   ∃ d, Py.getitem commit "distinct" = Ok d ∧ Py.truthy d = true) ->
  Py.get commit "author" (JObj []) = Ok (JObj a) ->
  Py.get commit "committer" (JObj []) = Ok (JObj c) ->
  Py.getitem commit "id" ≫= Py.slice_to 7 = Ok sha ->
  Py.getitem commit "message" = Ok (JStr message_) ->
  commit_line X pn config commit
  = Ok (Some (commit_text X pn
                (first_not_none [dict_get a "username"; dict_get a "name";
                                 dict_get c "name"])
                sha
                (if default false (title_only config)
                 then hd message_ (PyStr.split PyStr.newline message_)
                 else message_))).
Proof.
  intros Hprefer Hdistinct Hauthor Hcommitter Hsha Hmessage.
  unfold commit_line. cbv zeta.
  assert ((if default true (distinct_only config)
           then Py.getitem commit "distinct" ≫= fun d => Ok (negb (Py.truthy d))
           else Ok false) = Ok false) as ->.
  { destruct (default true (distinct_only config)); [|done].
    destruct (Hdistinct eq_refl) as (d & -> & Hd). cbn [mbind result_bind].
    by rewrite Hd. }
  cbn [mbind result_bind]. rewrite Hcommitter, Hauthor. cbn [mbind result_bind].
  rewrite Hprefer, attribution_first_not_none.
  cbn [mbind result_bind].
  change (Py.getitem commit "id" ≫= Py.slice_to 7) with
    (mbind (M := result) (Py.slice_to 7) (Py.getitem commit "id")) in Hsha.
  destruct (Py.getitem commit "id") as [idv|e]; [|discriminate Hsha].
  cbn [mbind result_bind] in *. rewrite Hsha. cbn [mbind result_bind].
  rewrite Hmessage. cbn [mbind result_bind Py.str_self Py.join_item].
  unfold commit_text.
  destruct (default false (title_only config)), (Py.truthy (first_not_none _));
    cbn [mbind result_bind]; by rewrite <- ?app_assoc.
Qed.

(** X14. With [distinct_only] on (the default), a commit that is not
    distinct gives no line and nothing else of it is looked at, and a
    commit without a [distinct] member raises [KeyError]. *)
Theorem commit_line_distinct_only (pn : jvalue) (config : Config)
    (m : list (string * jvalue)) :
  default true (distinct_only config) = true ->
  (Py.assoc "distinct" m = None -> commit_line X pn config (JObj m) = Raise KeyError)
  ∧ (∀ d, Py.assoc "distinct" m = Some d -> Py.truthy d = false ->
          commit_line X pn config (JObj m) = Ok None).
Proof.
  intros Hon. unfold commit_line. cbv zeta. rewrite Hon. cbn [Py.getitem]. split.
  - by intros ->.
  - intros d -> Hd. cbn [mbind result_bind]. by rewrite Hd.
Qed.

(** X15. With [distinct_only] off, the [distinct] member of a commit is
    not read: the line is the same with it, whatever its value, and
    without it. *)
Theorem commit_line_every_commit (pn : jvalue) (config : Config)
    (m : list (string * jvalue)) (d : jvalue) :
  distinct_only config = Some false ->
  commit_line X pn config (JObj (("distinct", d) :: m)) = commit_line X pn config (JObj m).
Proof.
  intros Hoff. unfold commit_line. cbv zeta. rewrite Hoff. reflexivity.
Qed.

(** X16. With [title_only] on, the text of a commit line is the message
    up to its first line feed: it holds no line feed, and the message is
    that text, alone or followed by a line feed and the rest. *)
Theorem commit_line_title_only (pn : jvalue) (config : Config) (commit : jvalue)
    (a c : list (string * jvalue)) (sha : jvalue) (message_ : string) :
  title_only config = Some true ->
  default true (prefer_username config) = true ->
  (default true (distinct_only config) = true ->
   ∃ d, Py.getitem commit "distinct" = Ok d ∧ Py.truthy d = true) ->
  Py.get commit "author" (JObj []) = Ok (JObj a) ->
  Py.get commit "committer" (JObj []) = Ok (JObj c) ->
  Py.getitem commit "id" ≫= Py.slice_to 7 = Ok sha ->
  Py.getitem commit "message" = Ok (JStr message_) ->
  ∃ title,
    commit_line X pn config commit
    = Ok (Some (commit_text X pn
                  (first_not_none [dict_get a "username"; dict_get a "name";
                                   dict_get c "name"])
                  sha title))
    ∧ PyStr.contains_char PyStr.newline title = false
    ∧ (message_ = title ∨ ∃ rest, message_ = title +:+ String PyStr.newline rest).
Proof.
  intros Htitle Hprefer Hdistinct Hauthor Hcommitter Hsha Hmessage.
  destruct (split_first_line PyStr.newline message_) as (title & Hhd & Hno & Hrest).
  exists title. split; [|done].
  rewrite (commit_line_shown pn config commit a c sha message_) by done.
  by rewrite Htitle, Hhd.
Qed.

End CommitLineMore.

Lemma commit_line_distinct_only_witness :
  commit_line Sample.plain_world (JStr "r") empty_config Fixture3.seen_commit = Ok None
  ∧ commit_line Sample.plain_world (JStr "r") empty_config (JObj Fixture3.bare_commit)
    = Raise KeyError.
Proof.
  split.
  - destruct (commit_line_distinct_only Sample.plain_world (JStr "r") empty_config
                [("distinct", JBool false)] eq_refl) as [_ Hseen].
    apply (Hseen (JBool false)); reflexivity.
  - destruct (commit_line_distinct_only Sample.plain_world (JStr "r") empty_config
                Fixture3.bare_commit eq_refl) as [Hmissing _].
    apply Hmissing. reflexivity.
Defined.

Lemma commit_line_every_commit_witness :
  commit_line Sample.plain_world (JStr "r") Fixture3.every_commit_config
    (JObj (("distinct", JBool false) :: Fixture3.bare_commit))
  = commit_line Sample.plain_world (JStr "r") Fixture3.every_commit_config
      (JObj Fixture3.bare_commit)
  ∧ commit_line Sample.plain_world (JStr "r") Fixture3.every_commit_config
      (JObj Fixture3.bare_commit)
    = Ok (Some "[r] alice 2222222 - tidy").
Proof.
  split; [|reflexivity].
  apply (commit_line_every_commit Sample.plain_world (JStr "r")
           Fixture3.every_commit_config Fixture3.bare_commit (JBool false)).
  reflexivity.
Defined.

Lemma commit_line_title_only_witness :
  ∃ title,
    commit_line Sample.plain_world (JStr "r") Fixture3.titles_hook_config
      Fixture3.long_commit
    = Ok (Some (commit_text Sample.plain_world (JStr "r") (JStr "alice")
                  (JStr "1111111") title))
    ∧ PyStr.contains_char PyStr.newline title = false.
Proof.
  destruct (commit_line_title_only Sample.plain_world (JStr "r")
              Fixture3.titles_hook_config Fixture3.long_commit
              [("name", JStr "Alice"); ("username", JStr "alice")] []
              (JStr "1111111")
              ("Fix the parser" +:+ String PyStr.newline ""
               +:+ String PyStr.newline "" +:+ "It dropped the last byte."))
    as (title & Hline & Hno & _);
    [reflexivity | reflexivity | by exists (JBool true) | reflexivity | reflexivity
    | reflexivity | reflexivity |].
  exists title. split; [exact Hline | exact Hno].
Defined.

(** *** The other handlers *)

Lemma posts_bind_app {A B} (m : Gen A) (f : A -> Gen B) :
  posts (m ≫= f)
  = posts m ++ match outcome m with Ok a => posts (f a) | Raise _ => [] end.
Proof.
  unfold posts. rewrite trace_bind, omap_app. by destruct (outcome m).
Qed.

Section Handlers.

Variable X : Externals.

Lemma posts_shorten (url : jvalue) : (length (posts (shorten X url)) <= 1)%nat.
Proof.
  unfold shorten. destruct url as [| | |u| |]; try (cbn; lia).
  simpl Py.re_subject. rewrite lift_ok_bind.
  destruct (Re.search_git_io u); [cbn; lia|].
  destruct (post X u) as [| | |status_code headers]; try (cbn; lia).
  - destruct (sentry_client X); cbn; lia.
  - destruct (negb (status_code =? 201)%Z); [cbn; lia|].
    destruct (header X "Location" headers); cbn; lia.
Qed.

Lemma one_shot_yield (line : string) : one_shot (yield line).
Proof. split; [|split]; cbn; [lia|lia|discriminate]. Qed.

Lemma one_shot_raise {A} (e : exn) : one_shot (lift (A := A) (Raise e)).
Proof. split; [|split]; cbn; [lia|lia|done]. Qed.

Lemma one_shot_after_lift {A} (r : result A) (f : A -> Gen unit) :
  (∀ a, one_shot (f a)) -> one_shot (lift r ≫= f).
Proof.
  intros Hf. destruct r as [a|e]; [by rewrite lift_ok_bind|].
  apply (one_shot_raise (A := unit)).
Qed.

Lemma one_shot_shorten_yield (r : result jvalue) (k : string -> string) :
  one_shot ((lift r ≫= shorten X) ≫= fun url => yield (k url)).
Proof.
  destruct r as [u|e]; [rewrite lift_ok_bind|apply (one_shot_raise (A := unit))].
  pose proof (yielded_shorten X u) as Hq. pose proof (posts_shorten u) as Hp.
  unfold one_shot. rewrite yielded_bind_app, posts_bind_app, Hq.
  unfold mbind, gen_bind.
  destruct (outcome (shorten X u)) as [url|e]; cbn [outcome yielded posts trace yield emit];
    rewrite ?app_nil_r; (split; [|split]); cbn; try lia; try done; discriminate.
Qed.

(** Proves that a handler body made of lookups, at most one shortening
    and one final yield is [one_shot]. *)
Ltac one_shot_body :=
  cbv zeta;
  repeat (apply one_shot_after_lift; intros ?);
  first [apply one_shot_shorten_yield | apply one_shot_yield].

Lemma one_shot_ping hook json : one_shot (_handle_ping X hook json).
Proof. unfold _handle_ping. one_shot_body. Qed.

Lemma one_shot_issues hook json : one_shot (_handle_issues_f X hook json).
Proof. unfold _handle_issues_f. one_shot_body. Qed.

Lemma one_shot_issue_comment hook json : one_shot (_handle_issue_comment_f X hook json).
Proof. unfold _handle_issue_comment_f. one_shot_body. Qed.

Lemma one_shot_commit_comment hook json : one_shot (_handle_commit_comment_f X hook json).
Proof. unfold _handle_commit_comment_f. one_shot_body. Qed.

Lemma one_shot_create hook json : one_shot (_handle_create_f X hook json).
Proof. unfold _handle_create_f. one_shot_body. Qed.

Lemma one_shot_delete hook json : one_shot (_handle_delete_f X hook json).
Proof. unfold _handle_delete_f. one_shot_body. Qed.

Lemma one_shot_pull_request hook json : one_shot (_handle_pull_request_f X hook json).
Proof. unfold _handle_pull_request_f. one_shot_body. Qed.

Lemma one_shot_review hook json :
  one_shot (_handle_pull_request_review_comment_f X hook json).
Proof. unfold _handle_pull_request_review_comment_f. one_shot_body. Qed.

Lemma one_shot_watch hook json : one_shot (_handle_watch_f X hook json).
Proof. unfold _handle_watch_f. one_shot_body. Qed.

Lemma one_shot_release hook json : one_shot (_handle_release_f X hook json).
Proof. unfold _handle_release_f. one_shot_body. Qed.

Lemma one_shot_fork hook json : one_shot (_handle_fork_f X hook json).
Proof. unfold _handle_fork_f. one_shot_body. Qed.

Lemma one_shot_member hook json : one_shot (_handle_member_f X hook json).
Proof. unfold _handle_member_f. one_shot_body. Qed.

Lemma one_shot_public hook json : one_shot (_handle_public_f X hook json).
Proof. unfold _handle_public_f. one_shot_body. Qed.

Lemma one_shot_team_add hook json : one_shot (_handle_team_add_f X hook json).
Proof. unfold _handle_team_add_f. one_shot_body. Qed.

Lemma one_shot_status hook json : one_shot (_handle_status_f X hook json).
Proof. unfold _handle_status_f. one_shot_body. Qed.

Lemma one_shot_deployment hook json : one_shot (_handle_deployment hook json).
Proof. apply one_shot_yield. Qed.

Lemma one_shot_deployment_status hook json :
  one_shot (_handle_deployment_status hook json).
Proof. apply one_shot_yield. Qed.

Lemma action_filter_some category key (f : Hook -> jvalue -> Gen unit) hook json g :
  action_filter X category key f hook json = Ok (Some g) -> g = f hook json.
Proof.
  unfold action_filter. destruct key as [k|].
  - destruct (Py.getitem json k) as [ev|e]; [|discriminate]. cbn [mbind result_bind].
    destruct (is_event_allowed _ _ _ _); [|discriminate]. by intros [= <-].
  - cbn [mbind result_bind]. destruct (is_event_allowed _ _ _ _); [|discriminate].
    by intros [= <-].
Qed.

End Handlers.

Section Dispatch.

Variable X : Externals.

(** X17. Ping, deployment and deployment-status events are not subject to
    the hook's configuration: the answer is the same for any two hooks, and
    the two deployment events yield one empty line for any payload that can
    be decoded. *)
Theorem handle_request_unfiltered (request : Request) (hook hook' : Hook)
    (event : string) :
  x_github_event request = Some event ->
  event ∈ ["ping"; "deployment"; "deployment_status"] ->
  handle_request X request hook = handle_request X request hook'
  ∧ (event ≠ "ping" ->
     ∀ payload, decoded X request = Some payload ->
                run (handle_request X request hook) = ([""], None)).
Proof.
  intros Hevent Hin.
  assert (event = "ping" ∨ event = "deployment" ∨ event = "deployment_status")
    as Hcases.
  { repeat (apply elem_of_cons in Hin as [Hin|Hin]; [auto|]).
    by apply elem_of_nil in Hin. }
  split.
  - unfold handle_request. rewrite Hevent.
    destruct (if bool_decide _ then _ else _) as [[payload|]|e]; try reflexivity.
    cbn [mbind result_bind default].
    destruct Hcases as [-> | [-> | ->]]; reflexivity.
  - intros Hne payload Hd. rewrite (handle_request_decoded X _ _ _ Hd), Hevent.
    destruct Hcases as [-> | [-> | ->]]; [done| |]; reflexivity.
Qed.

(** X18. Each filtered event is governed by the category and the payload
    member of its decorator: when the whitelist rejects the key,
    [handle_request] returns nothing and the handler is not run (no line,
    no request to git.io); when the payload lacks the member the filter
    reads, the error is raised to the caller. *)
Theorem handle_request_whitelist (request : Request) (hook : Hook) (payload : jvalue)
    (event category : string) (key : option string) :
  decoded X request = Some payload ->
  x_github_event request = Some event ->
  filter_of event = Some (category, key) ->
  (∀ value, filter_value key payload = Ok value ->
            is_event_allowed X (config hook) category value = false ->
            handle_request X request hook = Ok None)
  ∧ (∀ e, filter_value key payload = Raise e ->
          handle_request X request hook = Raise e).
Proof.
  intros Hd Hevent Hf.
  destruct (handle_request_filtered X request hook payload event category key Hd Hevent Hf)
    as [f ->].
  unfold action_filter, filter_value. split.
  - intros value Hv Hno. destruct key; rewrite Hv; cbn [mbind result_bind];
      by rewrite Hno.
  - intros e He. destruct key; [by rewrite He|discriminate He].
Qed.

Lemma event_handler_one_shot (event : string) (handler : Hook -> jvalue -> handler_result)
    (hook : Hook) (payload : jvalue) (g : Gen unit) :
  event_handler X event = Some handler ->
  event ≠ "push" ->
  event ≠ "gollum" ->
  handler hook payload = Ok (Some g) ->
  one_shot g.
Proof.
  intros Hh Hpush Hgollum Hg. unfold event_handler in Hh. cbn [Py.assoc] in Hh.
  repeat match type of Hh with
         | context [String.eqb event ?l] =>
             destruct (String.eqb_spec event l) as [->|?];
             [injection Hh as <-; try congruence;
              first [ injection Hg as <-
                    | cbv delta [_handle_issues _handle_issue_comment
                        _handle_commit_comment _handle_create _handle_delete
                        _handle_pull_request _handle_pull_request_review_comment
                        _handle_watch _handle_release _handle_fork _handle_member
                        _handle_public _handle_team_add _handle_status] in Hg;
                      apply action_filter_some in Hg as -> ];
              auto using one_shot_ping, one_shot_issues, one_shot_issue_comment,
                one_shot_commit_comment, one_shot_create, one_shot_delete,
                one_shot_pull_request, one_shot_review, one_shot_watch,
                one_shot_release, one_shot_fork, one_shot_member, one_shot_public,
                one_shot_team_add, one_shot_status, one_shot_deployment,
                one_shot_deployment_status|]
         end.
  discriminate Hh.
Qed.

(** X19. For every event other than a push and a wiki change, whatever the
    payload: the generator [handle_request] returns yields at most one
    line, makes at most one request to git.io, and yields nothing when it
    ends by an exception (the [TypeError] of a comment whose action is a
    list or an object among them). *)
Theorem handle_request_one_line (request : Request) (hook : Hook) (g : Gen unit) :
  handle_request X request hook = Ok (Some g) ->
  x_github_event request ≠ Some "push" ->
  x_github_event request ≠ Some "gollum" ->
  (length (yielded g) <= 1)%nat
  ∧ (length (posts g) <= 1)%nat
  ∧ ∀ e, outcome g = Raise e -> yielded g = [].
Proof.
  intros Hg Hpush Hgollum. change (one_shot g).
  unfold handle_request in Hg.
  destruct (if bool_decide _ then _ else _) as [[payload|]|e]; try discriminate Hg.
  cbn [mbind result_bind] in Hg.
  destruct (event_handler X (default "" (x_github_event request))) as [handler|] eqn:Hh;
    [|discriminate Hg].
  apply (event_handler_one_shot _ handler hook payload g Hh); [| |exact Hg].
  - intros He. destruct (x_github_event request) as [ev|]; [|discriminate He].
    cbn in He. by subst ev.
  - intros He. destruct (x_github_event request) as [ev|]; [|discriminate He].
    cbn in He. by subst ev.
Qed.

End Dispatch.

Lemma split_plain (sep : ascii) (s : string) :
  PyStr.contains_char sep s = false -> PyStr.split sep s = [s].
Proof.
  induction s as [|c s IH]; [done|]. cbn [PyStr.contains_char PyStr.split].
  intros [Hc Hs]%orb_false_elim. rewrite Ascii.eqb_sym, Hc, (IH Hs). reflexivity.
Qed.

Lemma split_after_last (sep : ascii) (pre n : string) :
  PyStr.contains_char sep n = false ->
  ∃ front, PyStr.split sep (pre +:+ String sep n) = front ++ [n] ∧ front ≠ [].
Proof.
  intros Hn. induction pre as [|c pre (front & Hsplit & Hne)].
  - exists [""]. change ("" +:+ String sep n) with (String sep n).
    cbn [PyStr.split]. rewrite Ascii.eqb_refl.
    by rewrite (split_plain sep n Hn).
  - change (String c pre +:+ String sep n) with (String c (pre +:+ String sep n)).
    cbn [PyStr.split]. rewrite Hsplit.
    destruct (Ascii.eqb c sep).
    + by exists ("" :: front).
    + destruct front as [|w ws]; [done|]. by exists (String c w :: ws).
Qed.

Section HandlersMore.

Variable X : Externals.

Lemma gollum_pages_shown (name : jvalue) (pages : list jvalue) (shown : list PageShown) :
  Forall2 (page_shows X) pages shown ->
  outcome (gollum_pages X name pages) = Ok tt
  ∧ yielded (gollum_pages X name pages) = map (page_line X name) shown.
Proof.
  induction 1 as [|page one pages shown (url & tr & Hp & Ha & Hu & Hs) _ IH];
    [done|].
  cbn [gollum_pages]. rewrite Hp, Ha, Hu, !lift_ok_bind.
  rewrite (gen_bind_ok _ _ _ _ Hs), yield_bind.
  pose proof (yielded_shorten X url) as Hq. rewrite Hs in Hq.
  unfold yielded in *. cbn [trace outcome] in *.
  destruct IH as [-> Hlines]. split; [done|].
  rewrite omap_app, Hq. cbn [app map]. rewrite <- Hlines. reflexivity.
Qed.

(** X20. The handler of wiki events is filtered by the [action] member of
    the payload itself: a payload object without one (GitHub puts the
    action in each page) raises [KeyError] at the call.  With that member
    and the whitelist letting it through, a readable repository name and
    sender, and a list of pages: no page at all raises [IndexError] after
    no line; one page gives one line, who did what to the page; two pages
    or more give the line that the wiki was updated and then one line for
    each page, in the order of the payload. *)
Theorem handle_gollum_lines (hook : Hook) (json : jvalue) :
  (∀ m, json = JObj m -> Py.assoc "action" m = None ->
        _handle_gollum X hook json = Raise KeyError)
  ∧ (∀ action name who pages,
       Py.getitem json "action" = Ok action ->
       is_event_allowed X (config hook) "gollum" action = true ->
       path json ["repository"; "name"] = Ok name ->
       path json ["sender"; "login"] = Ok who ->
       Py.getitem json "pages" = Ok (JArr pages) ->
       (pages = [] -> run (_handle_gollum X hook json) = ([], Some IndexError))
       ∧ (pages ≠ [] ->
          ∀ shown, Forall2 (page_shows X) pages shown ->
                   run (_handle_gollum X hook json) = (wiki_lines X name who shown, None))).
Proof.
  split.
  - intros m -> Haction. unfold _handle_gollum, action_filter, Py.getitem.
    by rewrite Haction.
  - intros action name who pages Haction Hallowed Hname Hwho Hpages.
    unfold _handle_gollum, action_filter. rewrite Haction. cbn [mbind result_bind].
    rewrite Hallowed. unfold run, _handle_gollum_f.
    rewrite Hname, lift_ok_bind, Hpages. cbn [mbind result_bind Py.len Py.iter Py.first].
    rewrite lift_ok_bind. split.
    + intros ->. cbn [length Z.of_nat Z.gtb Z.compare]. by rewrite Hwho, lift_ok_bind.
    + intros Hne shown Hshown. destruct Hshown as [|page one pages shown Hone Hrest]; [done|].
      destruct Hrest as [|page' one' pages shown Hone' Hrest].
      * change (Z.of_nat (length [page]) >? 1)%Z with false. cbn iota.
        rewrite Hwho, !lift_ok_bind.
        destruct Hone as (url & tr & Hp & Ha & Hu & Hs).
        rewrite Hp, Ha, Hu, !lift_ok_bind, (gen_bind_ok _ _ _ _ Hs).
        pose proof (yielded_shorten X url) as Hq. rewrite Hs in Hq.
        unfold yielded in *. cbn [trace outcome yield emit] in *.
        by rewrite omap_app, Hq.
      * assert ((Z.of_nat (length (page :: page' :: pages)) >? 1)%Z = true) as ->
          by (apply Z.gtb_lt; cbn [length]; lia).
        rewrite Hwho, lift_ok_bind, yield_bind, lift_ok_bind.
        destruct (gollum_pages_shown name (page :: page' :: pages) (one :: one' :: shown))
          as [Hout Hlines]; [by repeat constructor|].
        unfold yielded in *. cbn [trace outcome]. rewrite Hout.
        cbn [omap list_omap line_of] in *. by rewrite Hlines.
Qed.

(** X21. The number in the line of a review comment is what follows the
    last slash of the comment's [pull_request_url]. *)
Theorem handle_review_number (hook : Hook) (json name who url : jvalue)
    (before number link : string) (tr : list event) :
  path json ["comment"; "pull_request_url"] = Ok (JStr (before +:+ "/" +:+ number)) ->
  PyStr.contains_char "/" number = false ->
  path json ["repository"; "name"] = Ok name ->
  path json ["comment"; "user"; "login"] = Ok who ->
  path json ["comment"; "html_url"] = Ok url ->
  shorten X url = MkGen tr (Ok link) ->
  _handle_pull_request_review_comment_f X hook json
  = MkGen (tr ++ [Yield (name_tag X name +:+ " " +:+ orange X who
                         +:+ " reviewed pull request " +:+ GREEN X +:+ "#" +:+ number
                         +:+ RESET X +:+ " commit - " +:+ pink X link)])
      (Ok tt).
Proof.
  intros Hurl Hnumber Hname Hwho Hhtml Hlink.
  unfold _handle_pull_request_review_comment_f.
  rewrite Hurl. cbn [mbind result_bind Py.str_self]. rewrite lift_ok_bind. cbv zeta.
  change (before +:+ "/" +:+ number) with (before +:+ String "/" number).
  destruct (split_after_last "/" before number Hnumber) as (front & -> & _).
  rewrite last_last, Hname, lift_ok_bind, Hwho, lift_ok_bind, Hhtml, lift_ok_bind.
  by rewrite (gen_bind_ok _ _ _ _ Hlink).
Qed.

(** X22. The line of a status event is green when the lowercased state is
    success and red otherwise, shows the state capitalised (both as Python's
    [str] does it), and its link is the target URL as it is: no request to
    git.io is made. *)
Theorem handle_status_line (hook : Hook) (json name description url : jvalue)
    (state : string) :
  Py.getitem json "state" = Ok (JStr state) ->
  path json ["repository"; "name"] = Ok name ->
  Py.getitem json "description" = Ok description ->
  Py.getitem json "target_url" = Ok url ->
  _handle_status_f X hook json
  = MkGen [Yield (name_tag X name +:+ " "
                  +:+ (if String.eqb (py_lower X state) "success"
                       then GREEN X else RED X)
                  +:+ py_capitalize X state +:+ RESET X +:+ ". "
                  +:+ str X description +:+ " - " +:+ PINK X +:+ str X url +:+ RESET X)]
      (Ok tt).
Proof.
  intros Hstate Hname Hdescription Hurl. unfold _handle_status_f.
  rewrite Hstate. cbn [mbind result_bind Py.str_self]. rewrite lift_ok_bind. cbv zeta.
  rewrite Hname, lift_ok_bind, Hdescription, lift_ok_bind, Hurl, lift_ok_bind.
  by destruct (String.eqb (py_lower X state) "success").
Qed.

End HandlersMore.

Lemma handle_request_unfiltered_witness :
  handle_request Sample.plain_world (Sample.json_request "deployment")
    Sample.only_push_hook
  = handle_request Sample.plain_world (Sample.json_request "deployment")
      Sample.no_hook_config
  ∧ run (handle_request Sample.plain_world (Sample.json_request "deployment")
           Sample.only_push_hook) = ([""], None).
Proof.
  destruct (handle_request_unfiltered Sample.plain_world
              (Sample.json_request "deployment") Sample.only_push_hook
              Sample.no_hook_config "deployment" eq_refl)
    as [Hsame Hline].
  - apply elem_of_cons. right. apply elem_of_cons. by left.
  - split; [exact Hsame|]. apply (Hline ltac:(discriminate) (JObj [])). reflexivity.
Defined.

Lemma handle_request_whitelist_witness :
  handle_request Fixture4.issue_world (Sample.json_request "issues")
    Sample.only_push_hook = Ok None
  ∧ handle_request Sample.plain_world (Sample.json_request "issues")
      Sample.only_push_hook = Raise KeyError.
Proof.
  split.
  - destruct (handle_request_whitelist Fixture4.issue_world
                (Sample.json_request "issues") Sample.only_push_hook
                Fixture4.issue_closed "issues" "issue" (Some "action")
                eq_refl eq_refl eq_refl) as [Hrejected _].
    apply (Hrejected (JStr "closed")); reflexivity.
  - destruct (handle_request_whitelist Sample.plain_world
                (Sample.json_request "issues") Sample.only_push_hook
                (JObj []) "issues" "issue" (Some "action")
                eq_refl eq_refl eq_refl) as [_ Hmissing].
    apply Hmissing. reflexivity.
Defined.

Lemma handle_request_one_line_witness :
  handle_request Fixture4.issue_world (Sample.json_request "issues")
    Sample.no_hook_config
  = Ok (Some (_handle_issues_f Fixture4.issue_world Sample.no_hook_config
                Fixture4.issue_closed))
  ∧ (length (yielded (_handle_issues_f Fixture4.issue_world Sample.no_hook_config
                        Fixture4.issue_closed)) <= 1)%nat
  ∧ (length (posts (_handle_issues_f Fixture4.issue_world Sample.no_hook_config
                      Fixture4.issue_closed)) <= 1)%nat.
Proof.
  split; [reflexivity|].
  destruct (handle_request_one_line Fixture4.issue_world
              (Sample.json_request "issues") Sample.no_hook_config
              (_handle_issues_f Fixture4.issue_world Sample.no_hook_config
                 Fixture4.issue_closed))
    as (Hlines & Hposts & _); [reflexivity | discriminate | discriminate |].
  split; [exact Hlines | exact Hposts].
Defined.

Lemma page_shows_sample (name : string) :
  page_shows Sample.plain_world (Fixture4.page name) (Fixture4.shown name).
Proof.
  exists (JStr ("https://github.com/o/r/wiki/" +:+ name)),
    [Post ("https://github.com/o/r/wiki/" +:+ name)].
  repeat split; reflexivity.
Defined.

Lemma handle_gollum_lines_witness :
  _handle_gollum Sample.plain_world Sample.no_hook_config
    (Fixture4.wiki [Fixture4.page "Home"]) = Raise KeyError
  ∧ run (_handle_gollum Sample.plain_world Sample.no_hook_config (Fixture4.acted_wiki []))
    = ([], Some IndexError)
  ∧ run (_handle_gollum Sample.plain_world Sample.no_hook_config
           (Fixture4.acted_wiki [Fixture4.page "Home"]))
    = (["[r] carol edited page Home - https://github.com/o/r/wiki/Home"], None)
  ∧ run (_handle_gollum Sample.plain_world Sample.no_hook_config
           (Fixture4.acted_wiki [Fixture4.page "Home"; Fixture4.page "FAQ"]))
    = (["[r] carol updated the Wiki";
        "[r] Page Home edited - https://github.com/o/r/wiki/Home";
        "[r] Page FAQ edited - https://github.com/o/r/wiki/FAQ"], None).
Proof.
  split; [|split; [|split]].
  - destruct (handle_gollum_lines Sample.plain_world Sample.no_hook_config
                (Fixture4.wiki [Fixture4.page "Home"])) as [Hmissing _].
    apply (Hmissing (Fixture.members_of (Fixture4.wiki [Fixture4.page "Home"])));
      reflexivity.
  - destruct (handle_gollum_lines Sample.plain_world Sample.no_hook_config
                (Fixture4.acted_wiki [])) as [_ Hlines].
    destruct (Hlines (JStr "edited") (JStr "r") (JStr "carol") []) as [Hnone _];
      [reflexivity | reflexivity | reflexivity | reflexivity | reflexivity |].
    apply Hnone. reflexivity.
  - destruct (handle_gollum_lines Sample.plain_world Sample.no_hook_config
                (Fixture4.acted_wiki [Fixture4.page "Home"])) as [_ Hlines].
    destruct (Hlines (JStr "edited") (JStr "r") (JStr "carol") [Fixture4.page "Home"])
      as [_ Hone];
      [reflexivity | reflexivity | reflexivity | reflexivity | reflexivity |].
    apply (Hone ltac:(discriminate) [Fixture4.shown "Home"]).
    repeat constructor; apply page_shows_sample.
  - destruct (handle_gollum_lines Sample.plain_world Sample.no_hook_config
                (Fixture4.acted_wiki [Fixture4.page "Home"; Fixture4.page "FAQ"]))
      as [_ Hlines].
    destruct (Hlines (JStr "edited") (JStr "r") (JStr "carol")
                [Fixture4.page "Home"; Fixture4.page "FAQ"])
      as [_ Hmany];
      [reflexivity | reflexivity | reflexivity | reflexivity | reflexivity |].
    apply (Hmany ltac:(discriminate) [Fixture4.shown "Home"; Fixture4.shown "FAQ"]).
    repeat constructor; apply page_shows_sample.
Defined.

Lemma handle_review_number_witness :
  yielded (_handle_pull_request_review_comment_f Sample.plain_world
             Sample.no_hook_config Fixture4.review)
  = ["[r] carol reviewed pull request #42 commit - https://github.com/o/r/pull/42#r1"].
Proof.
  rewrite (handle_review_number Sample.plain_world Sample.no_hook_config
             Fixture4.review (JStr "r") (JStr "carol")
             (JStr "https://github.com/o/r/pull/42#r1")
             "https://api.github.com/repos/o/r/pulls" "42"
             "https://github.com/o/r/pull/42#r1"
             [Post "https://github.com/o/r/pull/42#r1"]);
    reflexivity.
Defined.

Lemma handle_status_line_witness :
  _handle_status_f Fixture4.issue_world Sample.no_hook_config
    (Fixture4.build_status "SUCCESS")
  = MkGen [Yield "[r] <g>Success. build - https://ci.example/1"] (Ok tt)
  ∧ _handle_status_f Fixture4.issue_world Sample.no_hook_config
      (Fixture4.build_status "failure")
    = MkGen [Yield "[r] <r>Failure. build - https://ci.example/1"] (Ok tt).
Proof.
  split.
  - rewrite (handle_status_line Fixture4.issue_world Sample.no_hook_config
               (Fixture4.build_status "SUCCESS") (JStr "r") (JStr "build")
               (JStr "https://ci.example/1") "SUCCESS"); reflexivity.
  - rewrite (handle_status_line Fixture4.issue_world Sample.no_hook_config
               (Fixture4.build_status "failure") (JStr "r") (JStr "build")
               (JStr "https://ci.example/1") "failure"); reflexivity.
Defined.

(** *** Transport, laziness, requests *)

Section Transport.

Variable X : Externals.

(** X23. The transport does not matter: two requests that announce the
    same event and decode to the same payload, one as a JSON body and one
    as a form field say, are handled alike. *)
Theorem handle_request_transport (r1 r2 : Request) (hook : Hook) (payload : jvalue) :
  decoded X r1 = Some payload ->
  decoded X r2 = Some payload ->
  x_github_event r1 = x_github_event r2 ->
  handle_request X r1 hook = handle_request X r2 hook.
Proof.
  intros H1 H2 Hevent.
  by rewrite (handle_request_decoded X _ _ _ H1), (handle_request_decoded X _ _ _ H2),
    Hevent.
Qed.

(** The loop stops at the truncation line: the turns after it are not
    run. *)
Lemma emit_commit_lines_stops pn j (c : Config) strip (L R : Z) final
    (before : list (option string)) (line : string)
    (after : list (result (option string))) (i : Z) :
  _create_push_final_summary X pn j c = Ok final ->
  (i + Z.of_nat (length (omap id before)) = L)%Z ->
  R ≠ (L + 1)%Z ->
  emit_commit_lines X pn j c strip L R i (map Ok before ++ Ok (Some line) :: after)
  = MkGen (yields X strip (omap id before) ++ [Yield (message X final strip)]) (Ok tt).
Proof.
  intros Hfinal. revert i. induction before as [|[l|] before IH]; intros i Hi HR.
  - cbn [map app emit_commit_lines]. cbn in Hi.
    destruct (Z.gtb_spec i L) as [?|_]; [lia|]. cbn [orb].
    destruct (Z.eqb_spec i L) as [_|?]; [|lia]. cbn [andb].
    destruct (Z.eqb_spec R (i + 1)) as [?|_]; [lia|]. cbn [negb].
    by rewrite Hfinal, lift_ok_bind.
  - change (omap id (Some l :: before)) with (l :: omap id before) in *.
    cbn [length] in Hi. cbn [map app emit_commit_lines].
    destruct (Z.gtb_spec i L) as [?|_]; [lia|]. cbn [orb].
    destruct (Z.eqb_spec i L) as [?|_]; [lia|]. cbn [andb].
    rewrite yield_bind, (IH (i + 1)%Z) by lia. reflexivity.
  - change (omap id (None :: before)) with (omap id before) in *.
    cbn [map app emit_commit_lines]. by apply IH.
Qed.

(** X24. The commit lines are produced on demand: when the first [L + 1]
    eligible commits can be rendered and the payload does not hold exactly
    [L + 1] commits, the handler stops at the truncation line, and the
    commits that follow are not rendered, so that whatever they lack raises
    nothing. *)
Theorem handle_push_lazy hook json j (before after : list jvalue) (next : jvalue) pn tr
    summary (turns : list (option string)) (line : string) :
  simplify_payload json = Ok j ->
  branch_unwanted X (config_or_empty hook) j = false ->
  Py.getitem json "commits" = Ok (JArr (before ++ next :: after)) ->
  project_name_of X json (default false (full_project_name (config_or_empty hook)))
    = Ok pn ->
  is_event_allowed X (Some (config_or_empty hook)) "push" JNull = true ->
  _create_push_summary X pn j (config_or_empty hook) = MkGen tr (Ok summary) ->
  map (commit_line X pn (config_or_empty hook)) before = map Ok turns ->
  commit_line X pn (config_or_empty hook) next = Ok (Some line) ->
  Z.of_nat (length (omap id turns)) = line_limit_of (config_or_empty hook) ->
  Z.of_nat (length (before ++ next :: after)) ≠ (line_limit_of (config_or_empty hook) + 1)%Z ->
  outcome (_handle_push X hook json) = Ok tt
  ∧ yielded (_handle_push X hook json)
    = message X summary (strip_of (config_or_empty hook))
      :: map (fun l => message X l (strip_of (config_or_empty hook))) (omap id turns)
      ++ [message X
            (truncation_line X pn (Z.of_nat (length (before ++ next :: after)))
               (line_limit_of (config_or_empty hook)))
            (strip_of (config_or_empty hook))].
Proof.
  intros Hj Hfilter Hc Hpn Hallowed Hsummary Hturns Hnext HL HR.
  pose proof (simplify_payload_original _ _ Hj) as Ho.
  pose proof (yielded_create_push_summary X pn j (config_or_empty hook)) as Hquiet.
  rewrite Hsummary in Hquiet. unfold yielded in Hquiet; cbn [trace] in Hquiet.
  rewrite (handle_push_commits X hook json j _ pn tr summary Hj Hfilter Hc) by
    (try done; by destruct before).
  cbv zeta. rewrite map_app, Hturns. cbn [map]. rewrite Hnext.
  rewrite (emit_commit_lines_stops pn j (config_or_empty hook) _ _ _
             (truncation_line X pn (Z.of_nat (length (before ++ next :: after)))
                (line_limit_of (config_or_empty hook)))).
  - cbn [trace outcome]. split; [done|]. by rewrite yielded_yields.
  - apply create_push_final_summary_ok. by rewrite Ho.
  - unfold line_limit_of in HL. lia.
  - exact HR.
Qed.

End Transport.

Lemma posts_bind_nil {A B} (m : Gen A) (f : A -> Gen B) :
  posts m = [] -> (∀ a, posts (f a) = []) -> posts (m ≫= f) = [].
Proof.
  intros Hm Hf. rewrite posts_bind_app, Hm. destruct (outcome m); [apply Hf|done].
Qed.

(** Proves that a computation made of lookups, tests and yields makes no
    request. *)
Ltac no_calls :=
  repeat match goal with
         | |- posts (_ ≫= _) = [] => apply posts_bind_nil; [|intros ?]
         | |- posts (lift _) = [] => reflexivity
         | |- posts (mret _) = [] => reflexivity
         | |- posts (yield _) = [] => reflexivity
         | |- posts (if ?b then _ else _) = [] => destruct b
         end.

Section Calls.

Variable X : Externals.

Lemma calls_bind {A B} (m : Gen A) (f : A -> Gen B) (k1 k2 : nat) :
  calls_at_most k1 m ->
  (∀ a, outcome m = Ok a -> calls_at_most k2 (f a)) ->
  calls_at_most (k1 + k2) (m ≫= f).
Proof.
  unfold calls_at_most. intros Hm Hf. rewrite posts_bind_app, length_app.
  destruct (outcome m) as [a|e]; [specialize (Hf a eq_refl)|cbn]; lia.
Qed.

Lemma calls_after {A B} (m : Gen A) (f : A -> Gen B) (k : nat) :
  posts m = [] ->
  (∀ a, outcome m = Ok a -> calls_at_most k (f a)) ->
  calls_at_most k (m ≫= f).
Proof.
  intros Hm Hf. change k with (0 + k)%nat. apply calls_bind; [|done].
  unfold calls_at_most. by rewrite Hm.
Qed.

Lemma calls_none {A} (g : Gen A) (k : nat) : posts g = [] -> calls_at_most k g.
Proof. unfold calls_at_most. intros ->. cbn. lia. Qed.

Lemma calls_lift_shorten (r : result jvalue) :
  calls_at_most 1 (lift r ≫= shorten X).
Proof.
  destruct r as [u|e]; [rewrite lift_ok_bind; apply posts_shorten|by apply calls_none].
Qed.

Lemma calls_create_non_commit_summary j (c : Config) :
  calls_at_most 1 (_create_non_commit_summary X j c).
Proof.
  unfold _create_non_commit_summary. cbv zeta.
  apply calls_after; [reflexivity|]. intros pn _.
  apply calls_after; [no_calls|]. intros [line|] _; [|by apply calls_none].
  apply calls_after; [reflexivity|]. intros head_commit _.
  destruct (Py.truthy head_commit); [|by apply calls_none].
  change 1%nat with (1 + 0)%nat. apply calls_bind; [apply calls_lift_shorten|].
  intros link _. by apply calls_none.
Qed.

Lemma calls_create_push_summary pn j (c : Config) :
  calls_at_most 1 (_create_push_summary X pn j c).
Proof.
  unfold _create_push_summary. cbv zeta.
  apply calls_after; [reflexivity|]. intros count _.
  change 1%nat with (1 + 0)%nat. apply calls_bind; [apply calls_lift_shorten|].
  intros link _. by apply calls_none.
Qed.

Lemma posts_emit_commit_lines pn j (c : Config) strip L R i
    (turns : list (result (option string))) :
  posts (emit_commit_lines X pn j c strip L R i turns) = [].
Proof.
  revert i. induction turns as [|[[line|]|e] turns IH]; intros i;
    cbn [emit_commit_lines]; [reflexivity| |apply IH|reflexivity].
  destruct (_ || _); [no_calls|]. apply posts_bind_nil; [reflexivity|]. intros _. apply IH.
Qed.

(** X25. Whatever the payload, handling a push makes at most one request
    to git.io. *)
Theorem handle_push_one_call (hook : Hook) (json : jvalue) :
  (length (posts (_handle_push X hook json)) <= 1)%nat.
Proof.
  change (calls_at_most 1 (_handle_push X hook json)). unfold _handle_push.
  apply calls_after; [reflexivity|]. intros j Hj. cbn [outcome lift] in Hj. cbv zeta.
  destruct (branch_unwanted X _ j); [by apply calls_none|].
  apply calls_after; [reflexivity|]. intros commits _.
  destruct (negb (Py.truthy commits)).
  - destruct (simplify_payload_exclusive _ _ Hj) as [Hb | Ht].
    + rewrite Hb. cbn [Py.truthy_opt]. change 1%nat with (1 + 0)%nat.
      apply calls_bind; [|intros _ _; by apply calls_none].
      destruct (_ && _); [|by apply calls_none].
      change 1%nat with (1 + 0)%nat.
      apply calls_bind; [apply calls_create_non_commit_summary|].
      intros summary _. by apply calls_none.
    + rewrite Ht. cbn [Py.truthy_opt]. rewrite andb_false_r.
      apply calls_after; [reflexivity|]. intros _ _.
      destruct (Py.truthy_opt _); [|by apply calls_none].
      change 1%nat with (1 + 0)%nat.
      apply calls_bind; [apply calls_create_non_commit_summary|].
      intros summary _. by apply calls_none.
  - apply calls_after; [reflexivity|]. intros pn _.
    destruct (negb _); [by apply calls_none|].
    change 1%nat with (1 + 0)%nat.
    apply calls_bind; [apply calls_create_push_summary|]. intros summary _.
    apply calls_none. no_calls. apply posts_emit_commit_lines.
Qed.

End Calls.

Lemma handle_request_transport_witness :
  handle_request Sample.plain_world (Sample.json_request "push") Sample.no_hook_config
  = handle_request Sample.plain_world (Sample.form_request "push" (Some "{}"))
      Sample.no_hook_config.
Proof.
  apply (handle_request_transport Sample.plain_world (Sample.json_request "push")
           (Sample.form_request "push" (Some "{}")) Sample.no_hook_config (JObj []));
    reflexivity.
Defined.

Lemma handle_push_lazy_witness :
  commit_line Sample.plain_world (JStr "r") empty_config Fixture5.broken_commit
  = Raise KeyError
  ∧ outcome (_handle_push Sample.plain_world Sample.no_hook_config Fixture5.broken_fifth)
    = Ok tt
  ∧ yielded (_handle_push Sample.plain_world Sample.no_hook_config Fixture5.broken_fifth)
    = ["[r] carol pushed 5 commits to main [+4/-0/±8] https://github.com/o/r/compare/a...b";
       "[r] alice 1111111 - fix 1111111";
       "[r] alice 2222222 - fix 2222222";
       "[r] alice 3333333 - fix 3333333";
       "[r] ... and 2 more commits."].
Proof.
  split; [reflexivity|].
  apply (handle_push_lazy Sample.plain_world Sample.no_hook_config Fixture5.broken_fifth
           (Sample.simplified Fixture5.broken_fifth)
           [Sample.commit "1111111" true Sample.alice;
            Sample.commit "2222222" true Sample.alice;
            Sample.commit "3333333" true Sample.alice]
           [Fixture5.broken_commit]
           (Sample.commit "4444444" true Sample.alice)
           (JStr "r") [Post "https://github.com/o/r/compare/a...b"]
           "[r] carol pushed 5 commits to main [+4/-0/±8] https://github.com/o/r/compare/a...b"
           [Some "[r] alice 1111111 - fix 1111111";
            Some "[r] alice 2222222 - fix 2222222";
            Some "[r] alice 3333333 - fix 3333333"]
           "[r] alice 4444444 - fix 4444444");
    try (vm_compute; reflexivity); vm_compute; discriminate.
Defined.
